(** * SiRiX -> MT5 trade copier (src/tradeCopierMT5.py): a shallow embedding

    Prices, amounts and volumes (Python floats) are modelled as exact
    rationals [Q].  Dicts whose iteration order matters (the master snapshot,
    [link_map], the filling-mode cache) are association lists updated the way a
    Python dict is: an existing key keeps its position, a new key is appended.
    The MetaTrader5 module is an oracle over an abstract venue state; every
    call to it is recorded in a trace, so that "venue calls" are observable. *)

From Stdlib Require Import ZArith QArith Qround Qabs List String Bool Lia.
Import ListNotations.
Open Scope Z_scope.

(* ------------------------------------------------------------------ *)
(** ** Numeric helpers (Python float semantics on [Q]) *)

Definition qlt (a b : Q) : bool := negb (Qle_bool b a).
Definition qle (a b : Q) : bool := Qle_bool a b.
Definition qeq (a b : Q) : bool := Qeq_bool a b.

(** Python [x or d] for a number: [d] when [x] is zero (falsy). *)
Definition q_or (x d : Q) : Q := if qeq x 0 then d else x.

(** Python [max(a, b)] / [min(a, b)]: the first argument unless the second
    is strictly larger (smaller). *)
Definition py_max (a b : Q) : Q := if qlt a b then b else a.
Definition py_min (a b : Q) : Q := if qlt b a then b else a.

(** Python [round(x, n)] with [n >= 0]: round half to even at [10^-n]. *)
Definition round_half_even (y : Q) : Z :=
  let f := Qfloor y in
  let r := (y - inject_Z f)%Q in
  if qlt r (1#2) then f
  else if qlt (1#2) r then f + 1
  else if Z.even f then f else f + 1.

Definition py_round (x : Q) (n : Z) : Q :=
  let p := inject_Z (10 ^ n) in
  (inject_Z (round_half_even (x * p)) / p)%Q.

(** Python [==] on [Optional[float]]. *)
Definition opt_qeq (a b : option Q) : bool :=
  match a, b with
  | None, None => true
  | Some x, Some y => qeq x y
  | _, _ => false
  end.

(* ------------------------------------------------------------------ *)
(** ** Association lists used as Python dicts *)

Fixpoint alookup {K V} (eqb : K -> K -> bool) (k : K) (l : list (K * V))
  : option V :=
  match l with
  | [] => None
  | (k', v) :: l' => if eqb k k' then Some v else alookup eqb k l'
  end.

(** [d[k] = v]: replace in place, or append a new key. *)
Fixpoint aset {K V} (eqb : K -> K -> bool) (k : K) (v : V) (l : list (K * V))
  : list (K * V) :=
  match l with
  | [] => [(k, v)]
  | (k', v') :: l' =>
      if eqb k k' then (k', v) :: l' else (k', v') :: aset eqb k v l'
  end.

(** [del d[k]]. *)
Fixpoint adel {K V} (eqb : K -> K -> bool) (k : K) (l : list (K * V))
  : list (K * V) :=
  match l with
  | [] => []
  | (k', v') :: l' => if eqb k k' then l' else (k', v') :: adel eqb k l'
  end.

Definition zmem (k : Z) (l : list Z) : bool := existsb (Z.eqb k) l.

(* ------------------------------------------------------------------ *)
(** ** MT5 constants *)

Definition TRADE_RETCODE_PLACED : Z := 10008.
Definition TRADE_RETCODE_DONE : Z := 10009.
Definition TRADE_RETCODE_DONE_PARTIAL : Z := 10010.
Definition RETCODE_INVALID_FILL : Z := 10030.
Definition ORDER_FILLING_FOK : Z := 0.
Definition ORDER_FILLING_IOC : Z := 1.
Definition ORDER_FILLING_RETURN : Z := 2.
Definition ORDER_TYPE_BUY : Z := 0.
Definition ORDER_TYPE_SELL : Z := 1.

Inductive TradeAction := TRADE_ACTION_DEAL | TRADE_ACTION_SLTP.

(* ------------------------------------------------------------------ *)
(** ** Configuration (the CONFIG section of the script) *)

Inductive VolumeMode := VM_1to1 | VM_fixed | VM_multiplier | VM_equity_ratio
                      | VM_other.
Inductive AmountMode := AM_lots | AM_units | AM_contracts.

Record Config := mkConfig {
  dry_run : bool;
  copy_stops : bool;
  validate_stops : bool;
  close_on_master_close : bool;
  show_preview_table : bool;
  volume_mode : VolumeMode;
  lot_rule_fixed_lots : Q;
  lot_rule_multiplier : Q;
  master_amount_mode : AmountMode;
  symbol_units_per_lot : list (string * Q);
  follower_units_per_lot : list (string * Q);
  symbol_map : list (string * string);
  warn_on_unmapped_symbol : bool;
  sirix_buy_value : Z;
  sirix_sell_value : Z;
  stop_change_abs_tolerance : Q
}.

(** The values the script ships with. *)
Definition source_config : Config := {|
  dry_run := false;
  copy_stops := true;
  validate_stops := true;
  close_on_master_close := true;
  show_preview_table := true;
  volume_mode := VM_fixed;
  lot_rule_fixed_lots := 1#10;
  lot_rule_multiplier := 1;
  master_amount_mode := AM_units;
  symbol_units_per_lot :=
    [("EURUSD", 100000#1); ("GBPUSD", 100000#1); ("XAUUSD", 100#1);
     ("NQ100.", 10#1)]%string;
  follower_units_per_lot := [];
  symbol_map := [("NQ100.", "NAS100.i"); ("GER40.", "GER40.i")]%string;
  warn_on_unmapped_symbol := true;
  sirix_buy_value := 0;
  sirix_sell_value := 1;
  stop_change_abs_tolerance := 1#1000000
|}.

(* ------------------------------------------------------------------ *)
(** ** Data model *)

Record MasterPosition := mkMP {
  order_number : Z;
  symbol : string;
  side : Z;
  amount : Q;
  open_rate : option Q;
  stop_loss : option Q;
  take_profit : option Q
}.

Record FollowerLink := mkLink {
  master_order_number : Z;
  master_symbol : string;
  follower_symbol : string;
  follower_ticket : Z;
  follower_volume : Q;
  link_side : Z;
  link_sl : option Q;
  link_tp : option Q
}.

Definition set_follower_volume (l : FollowerLink) (v : Q) : FollowerLink :=
  mkLink (master_order_number l) (master_symbol l) (follower_symbol l)
         (follower_ticket l) v (link_side l) (link_sl l) (link_tp l).

Definition set_link_stops (l : FollowerLink) (sl tp : option Q) : FollowerLink :=
  mkLink (master_order_number l) (master_symbol l) (follower_symbol l)
         (follower_ticket l) (follower_volume l) (link_side l) sl tp.

(** What [mt5.symbol_info] reports (the attributes the script reads). *)
Record SymbolInfo := mkInfo {
  visible : bool;
  volume_step : Q;
  volume_min : Q;
  volume_max : Q;
  point : Q;
  stop_level : Z;
  digits : option Z;
  filling_mode : option Z
}.

(** The [comment] of an order request, which names the master order. *)
Inductive Comment :=
| CopyOpen (n : Z)        (* "Copy SiRiX {n}" *)
| CloseCopy (n : Z)       (* "Close copy of SiRiX {n}" *)
| VolumeAdd (n : Z)       (* "Volume add copy of SiRiX {n}" *)
| VolumeReduce (n : Z)    (* "Volume reduce copy of SiRiX {n}" *)
| StopsSync (n : Z).      (* "Stops sync {n}" *)

Definition comment_order (c : Comment) : Z :=
  match c with
  | CopyOpen n | CloseCopy n | VolumeAdd n | VolumeReduce n | StopsSync n => n
  end.

(** An [order_send] request dict (the constant [deviation], [magic] and
    [type_time] entries are left out). *)
Record Request := mkReq {
  req_action : TradeAction;
  req_symbol : string;
  req_volume : option Q;
  req_type : option Z;
  req_price : option Q;
  req_position : option Z;
  req_sl : option Q;
  req_tp : option Q;
  req_comment : Comment;
  req_filling : option Z
}.

Definition set_filling (r : Request) (m : Z) : Request :=
  mkReq (req_action r) (req_symbol r) (req_volume r) (req_type r)
        (req_price r) (req_position r) (req_sl r) (req_tp r)
        (req_comment r) (Some m).

Record OrderResult := mkRes { retcode : Z; res_order : Z; res_deal : Z }.

(** One call into the MetaTrader5 module. *)
Inductive Call :=
| CSymbolInfo (s : string)
| CSymbolSelect (s : string)
| CSymbolInfoTick (s : string)
| CPositionsGet (ticket : Z)
| COrderSend (r : Request) (res : OrderResult)
| CAccountInfo.

(** The MetaTrader5 terminal, over an abstract venue state [VS].
    [positions_get] gives the volume of the position, [None] when the
    returned tuple is empty; [account_equity] is [None] when
    [mt5.account_info().equity] fails. *)
Record Venue (VS : Type) := mkVenue {
  v_symbol_info : VS -> string -> option SymbolInfo;
  v_symbol_select : VS -> string -> bool * VS;
  v_symbol_info_tick : VS -> string -> option (Q * Q);
  v_positions_get : VS -> Z -> option Q;
  v_order_send : VS -> Request -> OrderResult * VS;
  v_account_equity : VS -> option Q
}.

Arguments mkVenue {VS}.
Arguments v_symbol_info {VS}.
Arguments v_symbol_select {VS}.
Arguments v_symbol_info_tick {VS}.
Arguments v_positions_get {VS}.
Arguments v_order_send {VS}.
Arguments v_account_equity {VS}.

(* ------------------------------------------------------------------ *)
(** ** The SiRiX JSON payload *)

(** A JSON value as [p.get(...)] returns it ([JNull] for a missing key). *)
Inductive JVal := JNull | JNum (q : Q) | JStr (s : string) | JBool (b : bool)
                | JOther.

Record RawPos := mkRaw {
  rp_order : Z;
  rp_symbol : string;
  rp_side : option Z;
  rp_amount : option Q;
  rp_open_rate : option Q;
  rp_stop_loss : JVal;
  rp_take_profit : JVal
}.

Record Payload := mkPayload {
  pl_equity : JVal;                 (* UserData.AccountBalance.Equity *)
  pl_open_positions : list RawPos   (* OpenPositions *)
}.

(* ------------------------------------------------------------------ *)
(** ** Engine state and the state monad *)

(** The module-level globals of the script, the venue state, and the trace
    of calls made into the MetaTrader5 module. *)
Record St (VS : Type) := mkSt {
  st_links : list (Z * FollowerLink);        (* link_map *)
  st_snap : list (Z * MasterPosition);       (* master_open_snapshot *)
  st_fill : list (string * Z);               (* _symbol_filling_cache *)
  st_warned : list string;                   (* _warned_unmapped *)
  st_equity : option Q;                      (* last_sirix_equity *)
  st_preview : bool;                         (* preview_printed *)
  st_vs : VS;
  st_trace : list Call
}.

Arguments mkSt {VS}.
Arguments st_links {VS}.
Arguments st_snap {VS}.
Arguments st_fill {VS}.
Arguments st_warned {VS}.
Arguments st_equity {VS}.
Arguments st_preview {VS}.
Arguments st_vs {VS}.
Arguments st_trace {VS}.

Definition CM (VS A : Type) : Type := St VS -> A * St VS.

Definition ret {VS A} (a : A) : CM VS A := fun s => (a, s).
Definition bind {VS A B} (m : CM VS A) (k : A -> CM VS B) : CM VS B :=
  fun s => match m s with (a, s') => k a s' end.

Notation "x <- c1 ;; c2" := (bind c1 (fun x => c2))
  (at level 61, c1 at next level, right associativity).
Notation "e1 ;; e2" := (bind e1 (fun _ => e2))
  (at level 61, right associativity).

Section StateOps.
Context {VS : Type}.

Definition with_links (s : St VS) ls : St VS :=
  mkSt ls (st_snap s) (st_fill s) (st_warned s) (st_equity s) (st_preview s)
       (st_vs s) (st_trace s).
Definition with_snap (s : St VS) sn : St VS :=
  mkSt (st_links s) sn (st_fill s) (st_warned s) (st_equity s) (st_preview s)
       (st_vs s) (st_trace s).
Definition with_fill (s : St VS) f : St VS :=
  mkSt (st_links s) (st_snap s) f (st_warned s) (st_equity s) (st_preview s)
       (st_vs s) (st_trace s).
Definition with_warned (s : St VS) w : St VS :=
  mkSt (st_links s) (st_snap s) (st_fill s) w (st_equity s) (st_preview s)
       (st_vs s) (st_trace s).
Definition with_equity (s : St VS) e : St VS :=
  mkSt (st_links s) (st_snap s) (st_fill s) (st_warned s) e (st_preview s)
       (st_vs s) (st_trace s).
Definition with_preview (s : St VS) b : St VS :=
  mkSt (st_links s) (st_snap s) (st_fill s) (st_warned s) (st_equity s) b
       (st_vs s) (st_trace s).
Definition with_vs (s : St VS) vs : St VS :=
  mkSt (st_links s) (st_snap s) (st_fill s) (st_warned s) (st_equity s)
       (st_preview s) vs (st_trace s).
Definition log_call (c : Call) (s : St VS) : St VS :=
  mkSt (st_links s) (st_snap s) (st_fill s) (st_warned s) (st_equity s)
       (st_preview s) (st_vs s) (st_trace s ++ [c]).

Definition lookup_link (k : Z) : CM VS (option FollowerLink) :=
  fun s => (alookup Z.eqb k (st_links s), s).
Definition get_links : CM VS (list (Z * FollowerLink)) :=
  fun s => (st_links s, s).
Definition set_link (k : Z) (l : FollowerLink) : CM VS unit :=
  fun s => (tt, with_links s (aset Z.eqb k l (st_links s))).
Definition del_link (k : Z) : CM VS unit :=
  fun s => (tt, with_links s (adel Z.eqb k (st_links s))).
Definition get_snap : CM VS (list (Z * MasterPosition)) :=
  fun s => (st_snap s, s).
Definition set_snap sn : CM VS unit := fun s => (tt, with_snap s sn).
Definition get_fill : CM VS (list (string * Z)) := fun s => (st_fill s, s).
Definition set_fill (sym : string) (m : Z) : CM VS unit :=
  fun s => (tt, with_fill s (aset String.eqb sym m (st_fill s))).
Definition get_warned : CM VS (list string) := fun s => (st_warned s, s).
Definition add_warned (sym : string) : CM VS unit :=
  fun s => (tt, with_warned s (st_warned s ++ [sym])).
Definition get_equity : CM VS (option Q) := fun s => (st_equity s, s).
Definition set_equity e : CM VS unit := fun s => (tt, with_equity s e).
Definition get_preview : CM VS bool := fun s => (st_preview s, s).
Definition set_preview b : CM VS unit := fun s => (tt, with_preview s b).

Fixpoint for_each {A} (f : A -> CM VS unit) (l : list A) : CM VS unit :=
  match l with
  | [] => ret tt
  | x :: l' => f x;; for_each f l'
  end.

End StateOps.

(* ------------------------------------------------------------------ *)
(** ** The copier *)

Definition slookup {V} (k : string) (l : list (string * V)) : option V :=
  alookup String.eqb k l.
Definition smem (k : string) (l : list string) : bool := existsb (String.eqb k) l.

Definition is_done_placed_partial (rc : Z) : bool :=
  (rc =? TRADE_RETCODE_DONE) || (rc =? TRADE_RETCODE_PLACED)
  || (rc =? TRADE_RETCODE_DONE_PARTIAL).
Definition is_done_partial (rc : Z) : bool :=
  (rc =? TRADE_RETCODE_DONE) || (rc =? TRADE_RETCODE_DONE_PARTIAL).

Definition default_seq : list Z :=
  [ORDER_FILLING_FOK; ORDER_FILLING_IOC; ORDER_FILLING_RETURN].

(** Python's [not x] for an [Optional[float]]. *)
Definition py_not (o : option Q) : bool :=
  match o with None => true | Some x => qeq x 0 end.

Section Copier.
Context {VS : Type}.
Variable V : Venue VS.
Variable cfg : Config.
(** Python's [float(s)] on a string ([None] when it raises). *)
Variable float_of_string : string -> option Q.

Local Abbreviation CM := (CM VS).

(** *** Calls into the MetaTrader5 module *)

Definition mt5_symbol_info (sym : string) : CM (option SymbolInfo) :=
  fun s => (v_symbol_info V (st_vs s) sym, log_call (CSymbolInfo sym) s).
Definition mt5_symbol_select (sym : string) : CM bool :=
  fun s => let (b, vs') := v_symbol_select V (st_vs s) sym in
           (b, log_call (CSymbolSelect sym) (with_vs s vs')).
Definition mt5_symbol_info_tick (sym : string) : CM (option (Q * Q)) :=
  fun s => (v_symbol_info_tick V (st_vs s) sym,
            log_call (CSymbolInfoTick sym) s).
Definition mt5_positions_get (ticket : Z) : CM (option Q) :=
  fun s => (v_positions_get V (st_vs s) ticket,
            log_call (CPositionsGet ticket) s).
Definition mt5_order_send (r : Request) : CM OrderResult :=
  fun s => let (res, vs') := v_order_send V (st_vs s) r in
           (res, log_call (COrderSend r res) (with_vs s vs')).
Definition mt5_account_equity : CM (option Q) :=
  fun s => (v_account_equity V (st_vs s), log_call CAccountInfo s).

(** *** Utility helpers *)

Definition sirix_is_buy (sd : Z) : bool := sd =? sirix_buy_value cfg.
Definition sirix_dir_01 (sd : Z) : Z := if sirix_is_buy sd then 1 else 0.

Definition get_units_per_lot (sym : string) : Q :=
  match slookup sym (symbol_units_per_lot cfg) with
  | Some u => u
  | None => 100000#1
  end.

Definition calc_equity_ratio : CM Q :=
  follower_equity <- (if dry_run cfg then ret None else mt5_account_equity);;
  master_eq <- get_equity;;
  if py_not follower_equity || py_not master_eq
     || match master_eq with Some m => qle m 0 | None => false end
  then ret 1%Q
  else match follower_equity, master_eq with
       | Some f, Some m => ret (f / m)%Q
       | _, _ => ret 1%Q
       end.

(** The contract basis of [convert_master_amount_to_lots]. *)
Definition base_lots (master_symbol : string) (master_amount : Q)
  (follower_sym : string) : Q :=
  match master_amount_mode cfg with
  | AM_lots => master_amount
  | AM_units =>
      let units_per_lot :=
        match (if String.eqb follower_sym "" then None
               else slookup follower_sym (follower_units_per_lot cfg)) with
        | Some u => u
        | None => get_units_per_lot master_symbol
        end in
      (master_amount / units_per_lot)%Q
  | AM_contracts => master_amount
  end.

(** [master_amount] is never [None] here: [build_master_snapshot] stores
    [p.get("Amount") or 0]. *)
Definition convert_master_amount_to_lots (master_symbol : string)
  (master_amount : Q) (follower_sym : string) : CM Q :=
  let base := base_lots master_symbol master_amount follower_sym in
  lots <- match volume_mode cfg with
          | VM_1to1 => ret base
          | VM_fixed => ret (lot_rule_fixed_lots cfg)
          | VM_multiplier => ret (base * lot_rule_multiplier cfg)%Q
          | VM_equity_ratio => r <- calc_equity_ratio;; ret (base * r)%Q
          | VM_other => ret base
          end;;
  ret (py_max lots 0).

Definition normalize_lot (sym : string) (lots : Q) : CM Q :=
  if dry_run cfg then ret (py_round lots 2) else
  info <- mt5_symbol_info sym;;
  match info with
  | None => ret (py_round lots 2)
  | Some i =>
      let step := q_or (volume_step i) (1#100) in
      let min_vol := q_or (volume_min i) (1#100) in
      let max_vol := q_or (volume_max i) 100 in
      let lots' := (inject_Z (Qfloor (lots / step)) * step)%Q in
      ret (py_max min_vol (py_min lots' max_vol))
  end.

(** Python's [float(v)] on a JSON value ([None] when it raises). *)
Definition py_float (v : JVal) : option Q :=
  match v with
  | JNum q => Some q
  | JBool b => Some (if b then 1 else 0)%Q
  | JStr s => float_of_string s
  | JNull | JOther => None
  end.

(** [v in (None, "", 0)] ([False == 0] in Python). *)
Definition in_none_empty_zero (v : JVal) : bool :=
  match v with
  | JNull => true
  | JStr s => String.eqb s ""
  | JNum q => qeq q 0
  | JBool b => negb b
  | JOther => false
  end.

Definition extract_stop (v : JVal) : option Q :=
  if in_none_empty_zero v then None else py_float v.

Definition extract_stops (p : RawPos) : option Q * option Q :=
  (extract_stop (rp_stop_loss p), extract_stop (rp_take_profit p)).

(** The body of [validate_stops_for_mt5] once [symbol_info] is known. *)
Definition validate_with_info (i : SymbolInfo) (dir01 : Z)
  (sl tp : option Q) (entry_price : Q) : option Q * option Q :=
  let pt := q_or (point i) 0 in
  let stop_level_points := stop_level i in
  let min_dist := if qeq pt 0 then 0%Q else (inject_Z stop_level_points * pt)%Q in
  let sl' := match sl with
             | None => None
             | Some x =>
                 if (dir01 =? 1) && qle entry_price x then None
                 else if (dir01 =? 0) && qle x entry_price then None
                 else if negb (qeq min_dist 0)
                         && qlt (Qabs (entry_price - x)) min_dist then None
                 else Some x
             end in
  let tp' := match tp with
             | None => None
             | Some x =>
                 if (dir01 =? 1) && qle x entry_price then None
                 else if (dir01 =? 0) && qle entry_price x then None
                 else if negb (qeq min_dist 0)
                         && qlt (Qabs (entry_price - x)) min_dist then None
                 else Some x
             end in
  match digits i with
  | Some d =>
      if 0 <=? d
      then (option_map (fun x => py_round x d) sl',
            option_map (fun x => py_round x d) tp')
      else (sl', tp')
  | None => (sl', tp')
  end.

Definition validate_stops_for_mt5 (sym : string) (sd dir01 : Z)
  (sl tp : option Q) (entry_price : Q) : CM (option Q * option Q) :=
  if negb (validate_stops cfg) then ret (sl, tp) else
  if dry_run cfg then ret (sl, tp) else
  info <- mt5_symbol_info sym;;
  match info with
  | None => ret (sl, tp)
  | Some i => ret (validate_with_info i dir01 sl tp entry_price)
  end.

(** *** MT5 helpers *)

Definition side_to_mt5_order_type (sd : Z) : Z :=
  if sirix_is_buy sd then ORDER_TYPE_BUY else ORDER_TYPE_SELL.
Definition side_to_reverse_order_type (sd : Z) : Z :=
  if sirix_is_buy sd then ORDER_TYPE_SELL else ORDER_TYPE_BUY.

Definition mt5_symbol_prepare (sym : string) : CM bool :=
  if dry_run cfg then ret true else
  info <- mt5_symbol_info sym;;
  if match info with Some i => visible i | None => false end then ret true else
  selected <- mt5_symbol_select sym;;
  ret selected.

Definition mt5_current_prices (sym : string) : CM (option Q * option Q) :=
  if dry_run cfg then ret (Some 1%Q, Some 1%Q) else
  tick <- mt5_symbol_info_tick sym;;
  match tick with
  | None => ret (None, None)
  | Some (bid, ask) => ret (Some bid, Some ask)
  end.

(** The name [map_symbol] returns. *)
Definition map_symbol_name (sirix_symbol : string) : string :=
  match slookup sirix_symbol (symbol_map cfg) with
  | Some m => m
  | None => sirix_symbol
  end.

Definition map_symbol (sirix_symbol : string) : CM string :=
  match slookup sirix_symbol (symbol_map cfg) with
  | Some m => ret m
  | None =>
      warned <- get_warned;;
      (if warn_on_unmapped_symbol cfg && negb (smem sirix_symbol warned)
       then add_warned sirix_symbol else ret tt);;
      ret sirix_symbol
  end.

(** *** Filling-mode negotiation *)

(** The [filling_mode] that [symbol_info] reports, when it is one of the
    three order filling modes. *)
Definition reported_filling (info : option SymbolInfo) : option Z :=
  match info with
  | Some i =>
      match filling_mode i with
      | Some r => if zmem r default_seq then Some r else None
      | None => None
      end
  | None => None
  end.

Definition pick_filling_mode (sym : string) : CM Z :=
  cache <- get_fill;;
  match slookup sym cache with
  | Some m => ret m
  | None =>
      info <- (if dry_run cfg then ret None else mt5_symbol_info sym);;
      match reported_filling info with
      | Some reported => set_fill sym reported;; ret reported
      | None => set_fill sym ORDER_FILLING_FOK;; ret ORDER_FILLING_FOK
      end
  end.

(** [seq = [m0]] extended with the modes of [default_seq] it lacks. *)
Definition fill_sequence (m0 : Z) : list Z :=
  fold_left (fun acc m => if zmem m acc then acc else acc ++ [m])
            default_seq [m0].

(** The [for mode in seq] loop of [_order_send_with_fallback], on a
    non-empty [seq = mode :: rest]. *)
Fixpoint try_modes (request : Request) (sym : string) (mode : Z)
  (rest : list Z) {struct rest} : CM OrderResult :=
  result <- mt5_order_send (set_filling request mode);;
  if retcode result =? RETCODE_INVALID_FILL then
    match rest with
    | [] => ret result
    | mode' :: rest' => try_modes request sym mode' rest'
    end
  else
    (if is_done_placed_partial (retcode result)
     then set_fill sym mode else ret tt);;
    ret result.

(** [_order_send_with_fallback]. *)
Definition order_send_with_fallback (request : Request) (sym : string)
  : CM OrderResult :=
  if dry_run cfg then ret (mkRes TRADE_RETCODE_DONE (-1) (-1)) else
  m0 <- pick_filling_mode sym;;
  try_modes request sym m0 (tl (fill_sequence m0)).

(** *** Trade operations *)

(** Why [mt5_open_trade] returned [None] (the message it logs). *)
Inductive OpenErr := OE_prepare | OE_nonpositive_lot | OE_no_price
                   | OE_rejected (rc : Z).

Definition mt5_open_trade (mp : MasterPosition) (lots : Q)
  (sl tp : option Q) : CM (Z + OpenErr) :=
  sym <- map_symbol (symbol mp);;
  ok <- mt5_symbol_prepare sym;;
  if negb ok then ret (inr OE_prepare) else
  lots <- normalize_lot sym lots;;
  if qle lots 0 then ret (inr OE_nonpositive_lot) else
  let otype := side_to_mt5_order_type (side mp) in
  prices <- mt5_current_prices sym;;
  match prices with
  | (Some bid, Some ask) =>
      if qle bid 0 || qle ask 0 then ret (inr OE_no_price) else
      let price := if otype =? ORDER_TYPE_BUY then ask else bid in
      stops <- (if negb (copy_stops cfg) then ret (None, None)
                else validate_stops_for_mt5 sym (side mp) (sirix_dir_01 (side mp))
                       sl tp price);;
      let open_request :=
        mkReq TRADE_ACTION_DEAL sym (Some lots) (Some otype) (Some price) None
              (fst stops) (snd stops) (CopyOpen (order_number mp))
              (Some ORDER_FILLING_FOK) in
      if dry_run cfg then ret (inl (-1)) else
      result <- order_send_with_fallback open_request sym;;
      if negb (is_done_placed_partial (retcode result))
      then ret (inr (OE_rejected (retcode result)))
      else ret (inl (if res_order result =? 0 then res_deal result
                     else res_order result))
  | _ => ret (inr OE_no_price)
  end.

Definition mt5_close_trade (link : FollowerLink) : CM bool :=
  let ticket := follower_ticket link in
  let sym := follower_symbol link in
  ok <- mt5_symbol_prepare sym;;
  if negb ok then ret false else
  if dry_run cfg then ret true else
  pos <- mt5_positions_get ticket;;
  match pos with
  | None => ret false          (* "No MT5 position found ... (already closed?)" *)
  | Some pos_volume =>
      let close_side := side_to_reverse_order_type (link_side link) in
      prices <- mt5_current_prices sym;;
      match prices with
      | (Some bid, Some ask) =>
          if qle bid 0 || qle ask 0 then ret false else
          let price := if close_side =? ORDER_TYPE_BUY then ask else bid in
          let close_request :=
            mkReq TRADE_ACTION_DEAL sym (Some pos_volume) (Some close_side)
                  (Some price) (Some ticket) None None
                  (CloseCopy (master_order_number link)) None in
          result <- order_send_with_fallback close_request sym;;
          ret (is_done_partial (retcode result))
      | _ => ret false
      end
  end.

(** [mt5_adjust_volume]: its result, and [link.follower_volume] after the
    call (the only field of the link it mutates). *)
Definition mt5_adjust_volume (link : FollowerLink) (new_lots : Q)
  : CM (bool * Q) :=
  let ticket := follower_ticket link in
  let sym := follower_symbol link in
  let unchanged := follower_volume link in
  ok <- mt5_symbol_prepare sym;;
  if negb ok then ret (false, unchanged) else
  if dry_run cfg then ret (true, new_lots) else
  pos <- mt5_positions_get ticket;;
  match pos with
  | None => ret (false, unchanged)
  | Some current_lots =>
      new_lots <- normalize_lot sym new_lots;;
      if qle new_lots 0 then
        closed <- mt5_close_trade link;;
        ret (closed, if closed then 0%Q else unchanged)
      else
      let diff := (new_lots - current_lots)%Q in
      if qlt (Qabs diff) (1#100000000) then ret (true, unchanged) else
      prices <- mt5_current_prices sym;;
      match prices with
      | (Some bid, Some ask) =>
          if qle bid 0 || qle ask 0 then ret (false, unchanged) else
          let req :=
            if qlt 0 diff then
              let sd := side_to_mt5_order_type (link_side link) in
              mkReq TRADE_ACTION_DEAL sym (Some diff) (Some sd)
                    (Some (if sd =? ORDER_TYPE_BUY then ask else bid)) None
                    None None (VolumeAdd (master_order_number link)) None
            else
              let sd := side_to_reverse_order_type (link_side link) in
              mkReq TRADE_ACTION_DEAL sym (Some (Qabs diff)) (Some sd)
                    (Some (if sd =? ORDER_TYPE_BUY then ask else bid))
                    (Some ticket) None None
                    (VolumeReduce (master_order_number link)) None in
          result <- order_send_with_fallback req sym;;
          if negb (is_done_placed_partial (retcode result))
          then ret (false, unchanged) else
          new_pos <- mt5_positions_get ticket;;
          match new_pos with
          | Some new_vol => ret (true, new_vol)
          | None => ret (true, 0%Q)
          end
      | _ => ret (false, unchanged)
      end
  end.

(** [mt5_update_stops]: its result, and [(link.sl, link.tp)] after the call. *)
Definition mt5_update_stops (link : FollowerLink) (sl tp : option Q)
  : CM (bool * (option Q * option Q)) :=
  let sym := follower_symbol link in
  let ticket := follower_ticket link in
  let old_sl := link_sl link in
  let old_tp := link_tp link in
  ok <- mt5_symbol_prepare sym;;
  if negb ok then ret (false, (old_sl, old_tp)) else
  let tol := stop_change_abs_tolerance cfg in
  let sl := match sl, old_sl with
            | Some a, Some b => if qlt (Qabs (a - b)) tol then old_sl else sl
            | _, _ => sl
            end in
  let tp := match tp, old_tp with
            | Some a, Some b => if qlt (Qabs (a - b)) tol then old_tp else tp
            | _, _ => tp
            end in
  if opt_qeq sl old_sl && opt_qeq tp old_tp then ret (true, (old_sl, old_tp)) else
  if dry_run cfg then ret (true, (sl, tp)) else
  let add_request :=
    mkReq TRADE_ACTION_SLTP sym None None None (Some ticket)
          (Some (match sl with Some x => x | None => 0%Q end))
          (Some (match tp with Some x => x | None => 0%Q end))
          (StopsSync (master_order_number link)) None in
  result <- order_send_with_fallback add_request sym;;
  if negb (is_done_placed_partial (retcode result))
  then ret (false, (old_sl, old_tp))
  else ret (true, (sl, tp)).

(** *** Master snapshot *)

(** One entry of [build_master_snapshot]. *)
Definition master_position_of_raw (p : RawPos) : MasterPosition :=
  let sd := match rp_side p with
            | Some s => if (s =? sirix_buy_value cfg) || (s =? sirix_sell_value cfg)
                        then s else sirix_buy_value cfg
            | None => sirix_buy_value cfg
            end in
  let amt := match rp_amount p with Some a => q_or a 0 | None => 0%Q end in
  let stops := extract_stops p in
  mkMP (rp_order p) (rp_symbol p) sd amt (rp_open_rate p) (fst stops) (snd stops).

Definition build_master_snapshot (data : Payload) : list (Z * MasterPosition) :=
  fold_left (fun snap p =>
               let mp := master_position_of_raw p in
               aset Z.eqb (order_number mp) mp snap)
            (pl_open_positions data) [].

Definition update_master_equity (data : Payload) : CM unit :=
  match pl_equity data with
  | JNull => ret tt
  | eq => match py_float eq with
          | Some e => set_equity (Some e)
          | None => ret tt
          end
  end.

(** The state effects of [print_preview_table]. *)
Definition print_preview_table (master_snap : list (Z * MasterPosition)) : CM unit :=
  match master_snap with
  | [] => ret tt
  | _ => for_each (fun '(_, mp) =>
                     f_sym <- map_symbol (symbol mp);;
                     _ <- convert_master_amount_to_lots (symbol mp) (amount mp) f_sym;;
                     ret tt) master_snap
  end.

(** *** Copy engine core *)

Definition stops_changed (old new : option Q) : bool :=
  match old, new with
  | None, None => false
  | Some o, Some n => qlt (stop_change_abs_tolerance cfg) (Qabs (o - n))
  | _, _ => true
  end.

Definition open_follower_for_master (mp : MasterPosition) : CM unit :=
  mapped_symbol <- map_symbol (symbol mp);;
  lots <- convert_master_amount_to_lots (symbol mp) (amount mp) mapped_symbol;;
  ticket <- mt5_open_trade mp lots (stop_loss mp) (take_profit mp);;
  match ticket with
  | inr _ => ret tt
  | inl t =>
      set_link (order_number mp)
        (mkLink (order_number mp) (symbol mp) mapped_symbol t lots (side mp)
                (stop_loss mp) (take_profit mp))
  end.

Definition close_follower_for_master (master_order : Z) : CM unit :=
  if negb (close_on_master_close cfg) then ret tt else
  l <- lookup_link master_order;;
  match l with
  | None => ret tt
  | Some link =>
      if dry_run cfg && (follower_ticket link =? -1) then del_link master_order else
      closed <- mt5_close_trade link;;
      if closed then del_link master_order else ret tt
  end.

(** The link object lives in [link_map] at [order_number mp]; its in-place
    mutations are written back there. *)
Definition adjust_follower_for_master (mp : MasterPosition) : CM unit :=
  l <- lookup_link (order_number mp);;
  match l with
  | None => open_follower_for_master mp
  | Some link =>
      mapped_symbol <- map_symbol (symbol mp);;
      new_lots <- convert_master_amount_to_lots (symbol mp) (amount mp) mapped_symbol;;
      if dry_run cfg then set_link (order_number mp) (set_follower_volume link new_lots)
      else
      r <- mt5_adjust_volume link new_lots;;
      let link' := set_follower_volume link (snd r) in
      set_link (order_number mp) link';;
      if fst r && qle (follower_volume link') 0 then
        links <- get_links;;
        if zmem (master_order_number link') (map fst links)
        then del_link (master_order_number link') else ret tt
      else ret tt
  end.

Definition update_follower_stops_for_master (mp : MasterPosition) : CM unit :=
  l <- lookup_link (order_number mp);;
  match l with
  | None => ret tt
  | Some link =>
      let sl := if copy_stops cfg then stop_loss mp else None in
      let tp := if copy_stops cfg then take_profit mp else None in
      stops <- (if validate_stops cfg then
                  prices <- mt5_current_prices (follower_symbol link);;
                  match prices with
                  | (Some bid, Some ask) =>
                      let entry := if sirix_is_buy (link_side link) then ask else bid in
                      validate_stops_for_mt5 (follower_symbol link) (link_side link)
                        (sirix_dir_01 (link_side link)) sl tp entry
                  | _ => ret (sl, tp)
                  end
                else ret (sl, tp));;
      r <- mt5_update_stops link (fst stops) (snd stops);;
      set_link (order_number mp) (set_link_stops link (fst (snd r)) (snd (snd r)))
  end.

(** The body of the [for order_number, mp in new_snap.items()] loop. *)
Definition process_entry (prev : list (Z * MasterPosition)) (o : Z)
  (mp : MasterPosition) : CM unit :=
  match alookup Z.eqb o prev with
  | None => open_follower_for_master mp
  | Some p =>
      (if qlt (1#100000000) (Qabs (q_or (amount p) 0 - q_or (amount mp) 0))
       then adjust_follower_for_master mp else ret tt);;
      (if copy_stops cfg && (stops_changed (stop_loss p) (stop_loss mp)
                             || stops_changed (take_profit p) (take_profit mp))
       then update_follower_stops_for_master mp else ret tt)
  end.

(** [set(master_open_snapshot.keys()) - set(new_snap.keys())], in the order
    of the previous snapshot (CPython iterates the set in hash order). *)
Definition closed_ids (prev new : list (Z * MasterPosition)) : list Z :=
  filter (fun k => negb (zmem k (map fst new))) (map fst prev).

Definition process_master_changes (new_snap : list (Z * MasterPosition)) : CM unit :=
  prev <- get_snap;;
  for_each (fun '(o, mp) => process_entry prev o mp) new_snap;;
  for_each close_follower_for_master (closed_ids prev new_snap);;
  set_snap new_snap.

(** One iteration of the [while running] loop of [poll_loop], given what
    [fetch_userstatus_payload] returned ([None] on failure). *)
Definition poll_step (data : option Payload) : CM unit :=
  match data with
  | None => ret tt
  | Some d =>
      update_master_equity d;;
      let new_snap := build_master_snapshot d in
      printed <- get_preview;;
      (if show_preview_table cfg && negb printed
       then print_preview_table new_snap;; set_preview true
       else ret tt);;
      process_master_changes new_snap
  end.

End Copier.

(* ------------------------------------------------------------------ *)
(** ** Observations on the trace *)

Definition is_open_call_of (o : Z) (c : Call) : bool :=
  match c with
  | COrderSend r _ => match req_comment r with CopyOpen n => n =? o | _ => false end
  | _ => false
  end.
Definition is_close_call_of (o : Z) (c : Call) : bool :=
  match c with
  | COrderSend r _ => match req_comment r with CloseCopy n => n =? o | _ => false end
  | _ => false
  end.

Definition n_open (o : Z) (tr : list Call) : nat := List.length (filter (is_open_call_of o) tr).
Definition n_close (o : Z) (tr : list Call) : nat := List.length (filter (is_close_call_of o) tr).

(** The [(type_filling, retcode)] of each [order_send] in a trace. *)
Fixpoint sends_of (tr : list Call) : list (option Z * Z) :=
  match tr with
  | [] => []
  | COrderSend r res :: tr' => (req_filling r, retcode res) :: sends_of tr'
  | _ :: tr' => sends_of tr'
  end.

(* ------------------------------------------------------------------ *)
(** ** A concrete terminal, for evaluating the model *)

Definition info_fx : SymbolInfo :=
  mkInfo true (1#100) (1#100) 100 (1#100000) 10 (Some 5) None.

(** Every call succeeds; the venue state counts the orders sent.  [pos] is
    what [positions_get] reports and [equity] the follower equity. *)
Definition venue_ok (pos equity : option Q) : Venue nat :=
  mkVenue (fun _ _ => Some info_fx)
          (fun n _ => (true, n))
          (fun _ _ => Some (11#10, 11#10))
          (fun _ _ => pos)
          (fun n _ => (mkRes TRADE_RETCODE_DONE (Z.of_nat n + 1000) 0, S n))
          (fun _ => equity).

Definition init_st (links : list (Z * FollowerLink))
  (snap : list (Z * MasterPosition)) (equity : option Q) : St nat :=
  mkSt links snap [] [] equity false 0%nat [].

Definition no_float (_ : string) : option Q := None.

Definition mp_eurusd (o : Z) (amt : Q) : MasterPosition :=
  mkMP o "EURUSD" 0 amt None None None.

(* ------------------------------------------------------------------ *)
(** ** Claim-level notions *)

Section ClaimDefs.
Context {VS : Type}.

(** [link_map] is a dict keyed by the master order number it mirrors. *)
Definition links_inv (s : St VS) : Prop :=
  NoDup (map fst (st_links s)) /\
  forall k l, In (k, l) (st_links s) -> master_order_number l = k.

(** A master snapshot as [build_master_snapshot] produces it. *)
Definition snap_wf (sn : list (Z * MasterPosition)) : Prop :=
  NoDup (map fst sn) /\ forall k mp, In (k, mp) sn -> order_number mp = k.

(** Every call into the terminal succeeds. *)
Definition venue_all_ok (V : Venue VS) : Prop :=
  (forall vs sym, exists i, v_symbol_info V vs sym = Some i /\ visible i = true
                         /\ (0 <= volume_min i)%Q) /\
  (forall vs sym, exists bid ask, v_symbol_info_tick V vs sym = Some (bid, ask)
                             /\ (0 < bid)%Q /\ (0 < ask)%Q) /\
  (forall vs t, exists v, v_positions_get V vs t = Some v) /\
  (forall vs r, retcode (fst (v_order_send V vs r)) = TRADE_RETCODE_DONE).

(** Two consecutive snapshots with the same order numbers, amounts and
    stop levels. *)
Definition same_content (prev new : list (Z * MasterPosition)) : Prop :=
  (forall k, In k (map fst prev) -> In k (map fst new)) /\
  (forall o mp, In (o, mp) new ->
     exists p, alookup Z.eqb o prev = Some p /\ (amount p == amount mp)%Q /\
               opt_qeq (stop_loss p) (stop_loss mp) = true /\
               opt_qeq (take_profit p) (take_profit mp) = true).

(** The mode the first attempt of [_order_send_with_fallback] uses, as the
    claim puts it: the cached mode, else the broker-reported one, else FOK. *)
Definition start_mode (V : Venue VS) (s : St VS) (sym : string) : Z :=
  match slookup sym (st_fill s) with
  | Some m => m
  | None =>
      match reported_filling (v_symbol_info V (st_vs s) sym) with
      | Some r => r
      | None => ORDER_FILLING_FOK
      end
  end.

(** The orders [sends_of] made for one call of [_order_send_with_fallback],
    for each request of a sequence sent on one symbol. *)
Fixpoint run_orders (V : Venue VS) (cfg : Config) (reqs : list Request)
  (sym : string) (s : St VS) : list (list (option Z * Z)) :=
  match reqs with
  | [] => []
  | r :: rs =>
      let (res, s') := order_send_with_fallback V cfg r sym s in
      sends_of (skipn (List.length (st_trace s)) (st_trace s'))
        :: run_orders V cfg rs sym s'
  end.

(** How many open ([CopyOpen o]) and close ([CloseCopy o]) orders of master
    order [o] one request counts for. *)
Definition open_cnt (o : Z) (r : Request) : nat :=
  match req_comment r with CopyOpen n => if n =? o then 1%nat else 0%nat | _ => 0%nat end.
Definition close_cnt (o : Z) (r : Request) : nat :=
  match req_comment r with CloseCopy n => if n =? o then 1%nat else 0%nat | _ => 0%nat end.

(** What a computation does, seen from master order [o]: from a state whose
    [link_map] is well formed, it returns a value satisfying [Q], keeps
    [link_map] well formed and the link of [o] as it was, and sends [dop]
    open and [dcl] close orders of [o]. *)
Definition eff {A} (o : Z) (m : CM VS A) (Q : A -> Prop) (dop dcl : nat) : Prop :=
  forall s, links_inv s ->
    Q (fst (m s)) /\ links_inv (snd (m s)) /\
    alookup Z.eqb o (st_links (snd (m s))) = alookup Z.eqb o (st_links s) /\
    n_open o (st_trace (snd (m s))) = (n_open o (st_trace s) + dop)%nat /\
    n_close o (st_trace (snd (m s))) = (n_close o (st_trace s) + dcl)%nat.

(** [m] leaves master order [o] alone. *)
Definition frame {A} (o : Z) (m : CM VS A) : Prop := eff o m (fun _ => True) 0 0.

(** The link of [o] and the open and close orders of [o] sent so far. *)
Definition obs (o : Z) (s : St VS) : option FollowerLink * nat * nat :=
  (alookup Z.eqb o (st_links s), n_open o (st_trace s), n_close o (st_trace s)).

End ClaimDefs.

(** The order of attempts the claim describes: the starting mode, then the
    remaining fill-or-kill, immediate-or-cancel, return modes in that order. *)
Definition fill_order (m0 : Z) : list Z :=
  m0 :: filter (fun m => negb (m =? m0)) default_seq.

Definition opt_zeq (a : option Z) (m : Z) : bool :=
  match a with Some x => x =? m | None => false end.

(** Attempts [(mode, retcode)] follow [modes], stop at the first attempt
    not rejected with 10030, and go on to the end of [modes] otherwise. *)
Fixpoint attempts_ok (modes : list Z) (atts : list (option Z * Z)) : bool :=
  match modes, atts with
  | m :: ms, [(f, rc)] =>
      opt_zeq f m && (negb (rc =? RETCODE_INVALID_FILL)
                      || match ms with [] => true | _ => false end)
  | m :: ms, (f, rc) :: atts' =>
      opt_zeq f m && (rc =? RETCODE_INVALID_FILL) && attempts_ok ms atts'
  | _, _ => false
  end.

(** C6: the stop validator as the spec words it. *)
Definition spec_level (is_sl long : bool) (min_dist entry : Q) (d : Z)
  (lvl : option Q) : option Q :=
  match lvl with
  | None => None
  | Some x =>
      let direction_ok :=
        if is_sl then (if long then qlt x entry else qlt entry x)
        else (if long then qlt entry x else qlt x entry) in
      if negb direction_ok then None
      else if qlt 0 min_dist && qlt (Qabs (entry - x)) min_dist then None
      else Some (py_round x d)
  end.

(** C7: the equity ratio the code computes, in the words of the amended
    claim. *)
Definition equity_ratio_amended (follower_eq master_eq : option Q) : Q :=
  match follower_eq, master_eq with
  | Some f, Some m => if qeq f 0 then 1%Q else if qle m 0 then 1%Q else (f / m)%Q
  | _, _ => 1%Q
  end.

Definition with_volume_mode (c : Config) (vm : VolumeMode) : Config :=
  mkConfig (dry_run c) (copy_stops c) (validate_stops c)
           (close_on_master_close c) (show_preview_table c) vm
           (lot_rule_fixed_lots c) (lot_rule_multiplier c)
           (master_amount_mode c) (symbol_units_per_lot c)
           (follower_units_per_lot c) (symbol_map c)
           (warn_on_unmapped_symbol c) (sirix_buy_value c)
           (sirix_sell_value c) (stop_change_abs_tolerance c).

(** C10: a stop field that the claim says is recorded as absent. *)
Definition absent_like (float_of_string : string -> option Q) (v : JVal) : Prop :=
  v = JNull \/ v = JStr "" \/ (exists q, v = JNum q /\ (q == 0)%Q)
  \/ py_float float_of_string v = None.

(** A linked follower for master order 5, and the snapshot it was opened in. *)
Definition link5 : FollowerLink :=
  mkLink 5 "EURUSD" "EURUSD" 1000 (1#10) 0 None None.
Definition st_linked5 : St nat :=
  init_st [(5, link5)] [(5, mp_eurusd 5 (100000#1))] None.

(** What one call of [_order_send_with_fallback] did, from [s] to [s']:
    the calls it appended to the trace, whose orders follow [modes] in the
    sense of [attempts_ok]; the result is the last answer; on success the
    cache holds the mode last sent. *)
Definition fallback_ok {VS} (sym : string) (modes : list Z) (s : St VS)
  (res : OrderResult) (s' : St VS) : Prop :=
  exists delta, st_trace s' = st_trace s ++ delta /\
    attempts_ok modes (sends_of delta) = true /\
    snd (last (sends_of delta) (None, 0)) = retcode res /\
    (is_done_placed_partial (retcode res) = true ->
       slookup sym (st_fill s') = fst (last (sends_of delta) (None, 0))).

(** A terminal that rejects every filling mode but IOC with 10030. *)
Definition venue_ioc_only : Venue nat :=
  mkVenue (fun _ _ => Some info_fx)
          (fun n _ => (true, n))
          (fun _ _ => Some (11#10, 11#10))
          (fun _ _ => Some (1#10))
          (fun n r => (mkRes (if opt_zeq (req_filling r) ORDER_FILLING_IOC
                              then TRADE_RETCODE_DONE else RETCODE_INVALID_FILL)
                             (Z.of_nat n + 1000) 0, S n))
          (fun _ => None).

Definition req_eurusd (o : Z) : Request :=
  mkReq TRADE_ACTION_DEAL "EURUSD" (Some (1#10)) (Some ORDER_TYPE_BUY)
        (Some (11#10)) None None None (CopyOpen o) (Some ORDER_FILLING_FOK).

(** Every result of [m] satisfies [P]. *)
Definition yields {VS A} (P : A -> Prop) (m : CM VS A) : Prop :=
  forall s, P (fst (m s)).

(** A Buy position of amount 1.0 on EURUSD. *)
Definition buy_one (o : Z) : MasterPosition :=
  mkMP o "EURUSD" (sirix_buy_value source_config) 1 None None None.

(** [m] never changes the part [f] of the state. *)
Definition keeps {VS A B} (f : St VS -> B) (m : CM VS A) : Prop :=
  forall s, f (snd (m s)) = f s.

(** [m] only appends to the trace, and every order it sends satisfies [P]. *)
Definition sends_only {VS A} (P : Request -> Prop) (m : CM VS A) : Prop :=
  forall s, exists d, st_trace (snd (m s)) = st_trace s ++ d /\
    forall r res, In (COrderSend r res) d -> P r.

(** A requested stop that [mt5_update_stops] treats as the recorded one:
    both absent, or both present and equal or closer than the tolerance. *)
Definition stop_kept (tol : Q) (req old : option Q) : Prop :=
  match req, old with
  | None, None => True
  | Some a, Some b => (Qabs (a - b) < tol \/ a == b)%Q
  | _, _ => False
  end.

(** The shipped configuration with [DRY_RUN = True]. *)
Definition dry_config : Config :=
  mkConfig true (copy_stops source_config) (validate_stops source_config)
    (close_on_master_close source_config) (show_preview_table source_config)
    (volume_mode source_config) (lot_rule_fixed_lots source_config)
    (lot_rule_multiplier source_config) (master_amount_mode source_config)
    (symbol_units_per_lot source_config) (follower_units_per_lot source_config)
    (symbol_map source_config) (warn_on_unmapped_symbol source_config)
    (sirix_buy_value source_config) (sirix_sell_value source_config)
    (stop_change_abs_tolerance source_config).

(** An order that, if it opens a copy, opens one for an order number in [K]. *)
Definition opens_within (K : list Z) (r : Request) : Prop :=
  match req_comment r with CopyOpen n => In n K | _ => True end.

(** Every mode of the filling-mode cache is FOK, IOC or RETURN. *)
Definition fill_cache_ok (c : list (string * Z)) : Prop :=
  forall k m, In (k, m) c -> In m default_seq.

(** [m] keeps the invariant [I] of the state. *)
Definition preserves {VS A} (I : St VS -> Prop) (m : CM VS A) : Prop :=
  forall s, I s -> I (snd (m s)).

(* ================================================================== *)
(** * Proofs *)

(** ** Generic facts *)

Lemma qlt_true (a b : Q) : qlt a b = true <-> (a < b)%Q.
Proof.
  unfold qlt. rewrite negb_true_iff. split; intro H.
  - apply Qnot_le_lt. intro C. apply Qle_bool_iff in C. congruence.
  - destruct (Qle_bool b a) eqn:E; [|reflexivity].
    apply Qle_bool_iff in E. exfalso. apply (Qlt_not_le _ _ H E).
Qed.

Lemma qlt_false (a b : Q) : qlt a b = false <-> (b <= a)%Q.
Proof.
  unfold qlt. rewrite negb_false_iff. apply Qle_bool_iff.
Qed.

Lemma qle_true (a b : Q) : qle a b = true <-> (a <= b)%Q.
Proof. apply Qle_bool_iff. Qed.

Lemma qeq_true (a b : Q) : qeq a b = true <-> (a == b)%Q.
Proof. apply Qeq_bool_iff. Qed.

Lemma py_max_ge_l (a b : Q) : (a <= py_max a b)%Q.
Proof.
  unfold py_max. destruct (qlt a b) eqn:E.
  - apply qlt_true in E. now apply Qlt_le_weak.
  - apply Qle_refl.
Qed.

Lemma alookup_aset_Z (k k' : Z) {V} (v : V) l :
  alookup Z.eqb k' (aset Z.eqb k v l) =
  if k' =? k then Some v else alookup Z.eqb k' l.
Proof.
  induction l as [|[k0 v0] l IH]; simpl.
  - reflexivity.
  - destruct (Z.eqb_spec k k0) as [->|Hne]; simpl.
    + destruct (k' =? k0); reflexivity.
    + rewrite IH. destruct (Z.eqb_spec k' k0), (Z.eqb_spec k' k); subst;
        congruence.
Qed.

Lemma slookup_aset_same (k : string) {V} (v : V) l :
  slookup k (aset String.eqb k v l) = Some v.
Proof.
  unfold slookup. induction l as [|[k0 v0] l IH]; simpl.
  - now rewrite String.eqb_refl.
  - destruct (String.eqb_spec k k0) as [->|Hne]; simpl.
    + now rewrite String.eqb_refl.
    + apply String.eqb_neq in Hne. now rewrite Hne.
Qed.

Lemma In_aset_Z {V} k (v : V) l k' v' :
  In (k', v') (aset Z.eqb k v l) -> (k', v') = (k, v) \/ In (k', v') l.
Proof.
  induction l as [|[k0 v0] l IH]; simpl.
  - intros [H|[]]. now left.
  - destruct (Z.eqb_spec k k0) as [->|Hne]; simpl.
    + intros [H|H]; [now left | now right; right].
    + intros [H|H]; [now right; left|].
      destruct (IH H) as [H'|H']; [now left | now right; right].
Qed.

Lemma keys_aset_Z {V} k (v : V) l :
  map fst (aset Z.eqb k v l) =
  if existsb (Z.eqb k) (map fst l) then map fst l else map fst l ++ [k].
Proof.
  induction l as [|[k0 v0] l IH]; simpl; [reflexivity|].
  destruct (Z.eqb_spec k k0) as [->|Hne]; simpl; [reflexivity|].
  rewrite IH. destruct (existsb (Z.eqb k) (map fst l)); reflexivity.
Qed.

Lemma NoDup_keys_aset_Z {V} k (v : V) l :
  NoDup (map fst l) -> NoDup (map fst (aset Z.eqb k v l)).
Proof.
  intro H. rewrite keys_aset_Z.
  destruct (existsb (Z.eqb k) (map fst l)) eqn:E; [exact H|].
  apply NoDup_app; [exact H | constructor; [intros []|constructor] |].
  intros x Hx [<-|[]].
  assert (existsb (Z.eqb k) (map fst l) = true) as C.
  { apply existsb_exists. exists k. split; [exact Hx | apply Z.eqb_refl]. }
  congruence.
Qed.

Lemma In_adel_Z {V} k l k' (v' : V) :
  In (k', v') (adel Z.eqb k l) -> In (k', v') l.
Proof.
  induction l as [|[k0 v0] l IH]; simpl; [tauto|].
  destruct (k =? k0); simpl; [tauto|]. intros [H|H]; [now left | right; auto].
Qed.

Lemma keys_adel_incl_Z {V} k (l : list (Z * V)) x :
  In x (map fst (adel Z.eqb k l)) -> In x (map fst l).
Proof.
  intro H. apply in_map_iff in H as [[k' v'] [<- H]].
  apply in_map_iff. exists (k', v'). split; [reflexivity|].
  eapply In_adel_Z; exact H.
Qed.

Lemma NoDup_keys_adel_Z {V} k (l : list (Z * V)) :
  NoDup (map fst l) -> NoDup (map fst (adel Z.eqb k l)).
Proof.
  induction l as [|[k0 v0] l IH]; simpl; intro H; [constructor|].
  inversion H; subst.
  destruct (k =? k0); simpl; [assumption|].
  constructor; [|auto].
  intro C. apply keys_adel_incl_Z in C. contradiction.
Qed.

Lemma alookup_adel_other_Z {V} k k' (l : list (Z * V)) :
  k' <> k -> alookup Z.eqb k' (adel Z.eqb k l) = alookup Z.eqb k' l.
Proof.
  intro Hne. induction l as [|[k0 v0] l IH]; simpl; [reflexivity|].
  destruct (Z.eqb_spec k k0) as [->|Hk]; simpl.
  - apply Z.eqb_neq in Hne. now rewrite Hne.
  - rewrite IH. reflexivity.
Qed.

Lemma alookup_None_Z {V} k (l : list (Z * V)) :
  ~ In k (map fst l) -> alookup Z.eqb k l = None.
Proof.
  induction l as [|[k0 v0] l IH]; simpl; [reflexivity|].
  intro H. destruct (Z.eqb_spec k k0); [subst; tauto|]. apply IH. tauto.
Qed.

Lemma alookup_adel_same_Z {V} k (l : list (Z * V)) :
  NoDup (map fst l) -> alookup Z.eqb k (adel Z.eqb k l) = None.
Proof.
  induction l as [|[k0 v0] l IH]; simpl; intro H; [reflexivity|].
  inversion H; subst.
  destruct (Z.eqb_spec k k0) as [->|Hne]; simpl.
  - now apply alookup_None_Z.
  - apply Z.eqb_neq in Hne. rewrite Hne. auto.
Qed.

Lemma alookup_In_Z {V} k (l : list (Z * V)) v :
  alookup Z.eqb k l = Some v -> In (k, v) l.
Proof.
  induction l as [|[k0 v0] l IH]; simpl; [discriminate|].
  destruct (Z.eqb_spec k k0) as [->|Hne].
  - intro H. inversion H. now left.
  - intro H. right. auto.
Qed.

Lemma In_alookup_Z {V} k (l : list (Z * V)) v :
  NoDup (map fst l) -> In (k, v) l -> alookup Z.eqb k l = Some v.
Proof.
  induction l as [|[k0 v0] l IH]; simpl; [tauto|].
  intros Hnd [H|H]; inversion Hnd; subst.
  - inversion H; subst. now rewrite Z.eqb_refl.
  - destruct (Z.eqb_spec k k0) as [->|Hne]; [|auto].
    exfalso. apply H2. apply in_map_iff. exists (k0, v). auto.
Qed.

Lemma alookup_Some_key_Z {V} k (l : list (Z * V)) v :
  alookup Z.eqb k l = Some v -> In k (map fst l).
Proof.
  intro H. apply alookup_In_Z in H. apply in_map_iff. exists (k, v). auto.
Qed.

Lemma bind_eq {VS A B} (m : CM VS A) (k : A -> CM VS B) s :
  bind m k s = k (fst (m s)) (snd (m s)).
Proof. unfold bind. destruct (m s); reflexivity. Qed.

(** ** C8: snapshot advancement *)

(** C8. Every reconciliation pass ends with [master_open_snapshot] set to the
    snapshot it processed, whatever the venue did during the pass; a poll
    whose fetch failed changes nothing (neither the previous snapshot nor the
    link table nor anything else). *)
Theorem snapshot_advances_unconditionally {VS} (V : Venue VS) (cfg : Config)
  (float_of_string : string -> option Q) :
  (forall new s, st_snap (snd (process_master_changes V cfg new s)) = new) /\
  (forall d s, st_snap (snd (poll_step V cfg float_of_string (Some d) s))
               = build_master_snapshot cfg float_of_string d) /\
  (forall s, poll_step V cfg float_of_string None s = (tt, s)).
Proof.
  assert (Hp : forall new s, st_snap (snd (process_master_changes V cfg new s)) = new).
  { intros new s. unfold process_master_changes.
    rewrite bind_eq. rewrite bind_eq. rewrite bind_eq. reflexivity. }
  split; [exact Hp|]. split; [|reflexivity].
  intros d s. unfold poll_step.
  rewrite bind_eq. cbv zeta. rewrite bind_eq. rewrite bind_eq. apply Hp.
Qed.

(** ** Results a computation can return *)

Lemma yields_bind {VS A B} (P : B -> Prop) (m : CM VS A) (k : A -> CM VS B) :
  (forall a, yields P (k a)) -> yields P (bind m k).
Proof. intros H s. rewrite bind_eq. apply H. Qed.

Lemma yields_ret {VS A} (P : A -> Prop) (a : A) : P a -> yields (VS:=VS) P (ret a).
Proof. intros H s. exact H. Qed.

Ltac yields_step :=
  match goal with
  | |- yields _ (bind _ _) => apply yields_bind; intro
  | |- yields _ (ret _) => apply yields_ret
  | |- yields _ (if ?b then _ else _) => destruct b
  | |- yields _ (match ?x with _ => _ end) => destruct x
  | |- yields _ (let _ := _ in _) => cbv zeta
  end.

(** ** C9: lot normalisation *)

Lemma fst_map_symbol {VS} cfg sym (s : St VS) :
  fst (map_symbol cfg sym s) = map_symbol_name cfg sym.
Proof.
  unfold map_symbol, map_symbol_name.
  destruct (slookup sym (symbol_map cfg)); [reflexivity|].
  rewrite bind_eq, bind_eq. reflexivity.
Qed.

Lemma q_or_ge (x d : Q) : (0 <= d)%Q -> (x <= q_or x d)%Q \/ (x == 0)%Q.
Proof.
  intro Hd. unfold q_or. destruct (qeq x 0) eqn:E.
  - right. now apply qeq_true.
  - left. apply Qle_refl.
Qed.

Lemma normalize_lot_live {VS} (V : Venue VS) cfg sym lots s i :
  dry_run cfg = false -> v_symbol_info V (st_vs s) sym = Some i ->
  fst (normalize_lot V cfg sym lots s) =
  py_max (q_or (volume_min i) (1#100))
    (py_min (inject_Z (Qfloor (lots / q_or (volume_step i) (1#100)))
             * q_or (volume_step i) (1#100))
            (q_or (volume_max i) 100)).
Proof.
  intros Hdry Hi. unfold normalize_lot. rewrite Hdry, bind_eq.
  unfold mt5_symbol_info at 1. simpl fst. rewrite Hi. reflexivity.
Qed.

Lemma normalize_lot_ge_min {VS} (V : Venue VS) cfg sym lots s i :
  dry_run cfg = false -> v_symbol_info V (st_vs s) sym = Some i ->
  (volume_min i <= fst (normalize_lot V cfg sym lots s))%Q /\
  (q_or (volume_min i) (1#100) <= fst (normalize_lot V cfg sym lots s))%Q.
Proof.
  intros Hdry Hi. rewrite (normalize_lot_live V cfg sym lots s i Hdry Hi).
  pose proof (py_max_ge_l (q_or (volume_min i) (1#100))
    (py_min (inject_Z (Qfloor (lots / q_or (volume_step i) (1#100)))
             * q_or (volume_step i) (1#100)) (q_or (volume_max i) 100))) as Hm.
  split; [|exact Hm].
  assert (H01 : (0 <= 1#100)%Q) by (unfold Qle; simpl; lia).
  destruct (q_or_ge (volume_min i) (1#100) H01) as [H|H].
  - eapply Qle_trans; [exact H | exact Hm].
  - eapply Qle_trans; [|exact Hm].
    unfold q_or. rewrite (proj2 (qeq_true _ _) H).
    unfold Qeq in H. unfold Qle. simpl in *.
    destruct (volume_min i) as [n d]. simpl in *. lia.
Qed.

(** C9. In live mode, when the terminal reports symbol info, [normalize_lot]
    returns at least the venue's minimum volume, whatever lot size is asked
    for (a smaller request is raised to the minimum); so, when the info is
    available with a positive minimum volume, [mt5_open_trade] never fails
    through its non-positive lot branch. *)
Theorem normalize_lot_clamps_up_to_min {VS} (V : Venue VS) (cfg : Config)
  (Hdry : dry_run cfg = false) :
  (forall sym lots s i, v_symbol_info V (st_vs s) sym = Some i -> (0 < lots)%Q ->
     (volume_min i <= fst (normalize_lot V cfg sym lots s))%Q) /\
  (forall mp lots sl tp s,
     (forall vs, exists i, v_symbol_info V vs (map_symbol_name cfg (symbol mp)) = Some i
                      /\ (0 < volume_min i)%Q) ->
     fst (mt5_open_trade V cfg mp lots sl tp s) <> inr OE_nonpositive_lot).
Proof.
  split.
  - intros sym lots s i Hi _. apply (normalize_lot_ge_min V cfg sym lots s i Hdry Hi).
  - intros mp lots sl tp s Hinfo.
    unfold mt5_open_trade. rewrite bind_eq. rewrite fst_map_symbol. cbv beta.
    rewrite bind_eq. cbv beta.
    match goal with |- fst ((if negb ?b then _ else _) _) <> _ => destruct (negb b) end.
    { simpl. discriminate. }
    rewrite bind_eq. cbv beta.
    match goal with
    | |- context [normalize_lot V cfg ?sym ?l ?st] =>
        destruct (Hinfo (st_vs st)) as [i [Hi Hpos]];
        pose proof (normalize_lot_ge_min V cfg sym l st i Hdry Hi) as [Hge _];
        destruct (qle (fst (normalize_lot V cfg sym l st)) 0) eqn:E
    end.
    + exfalso. apply qle_true in E.
      apply (Qlt_not_le _ _ Hpos). eapply Qle_trans; [exact Hge | exact E].
    + match goal with |- fst (?m ?st) <> _ =>
        enough (yields (fun r => r <> inr OE_nonpositive_lot) m) by auto end.
      repeat yields_step; discriminate.
Qed.

(** ** C6: stop validation *)

Lemma min_dist_test (md a : Q) :
  (0 <= a)%Q -> (negb (qeq md 0) && qlt a md) = (qlt 0 md && qlt a md).
Proof.
  intro Ha. destruct (qlt a md) eqn:E; rewrite ?andb_true_r, ?andb_false_r;
    [|reflexivity].
  apply qlt_true in E.
  assert (Hp : (0 < md)%Q) by (eapply Qle_lt_trans; eauto).
  rewrite (proj2 (qlt_true 0 md) Hp).
  destruct (qeq md 0) eqn:Z0; [|reflexivity].
  apply qeq_true in Z0. exfalso. rewrite Z0 in Hp. discriminate.
Qed.

Lemma min_dist_code (p : Q) (sl : Z) (a : Q) :
  (0 <= a)%Q ->
  (negb (qeq (if qeq (q_or p 0) 0 then 0%Q else (inject_Z sl * q_or p 0)%Q) 0)
   && qlt a (if qeq (q_or p 0) 0 then 0%Q else (inject_Z sl * q_or p 0)%Q))
  = (qlt 0 (inject_Z sl * p) && qlt a (inject_Z sl * p)).
Proof.
  intro Ha. unfold q_or at 1 2 3 4.
  destruct (qeq p 0) eqn:E.
  - cbn [qeq Qeq_bool Qnum Qden]. simpl.
    assert (Hz : (inject_Z sl * p == 0)%Q).
    { apply qeq_true in E. rewrite E. apply Qmult_0_r. }
    destruct (qlt 0 (inject_Z sl * p)) eqn:L; [|reflexivity].
    apply qlt_true in L. rewrite Hz in L. discriminate.
  - rewrite E. apply min_dist_test. exact Ha.
Qed.

Lemma Qabs_nonneg' (x : Q) : (0 <= Qabs x)%Q.
Proof. apply Qabs_nonneg. Qed.

(** C6. With validation on, in live mode and with symbol info available:
    a long SL not strictly below entry, a long TP not strictly above it
    (the reverse for a short) is dropped; when the minimum stop distance
    [stop_level * point] is positive, a surviving level closer to entry than
    it is dropped; surviving levels are rounded to the declared [digits].
    No level is ever moved to a valid value (clamped). *)
Theorem validate_stops_drop_and_round {VS} (V : Venue VS) (cfg : Config)
  sym sd (long : bool) sl tp entry s i d :
  validate_stops cfg = true -> dry_run cfg = false ->
  v_symbol_info V (st_vs s) sym = Some i -> digits i = Some d -> 0 <= d ->
  fst (validate_stops_for_mt5 V cfg sym sd (if long then 1 else 0) sl tp entry s) =
  (spec_level true long (inject_Z (stop_level i) * point i) entry d sl,
   spec_level false long (inject_Z (stop_level i) * point i) entry d tp).
Proof.
  intros Hval Hdry Hi Hd Hd0.
  unfold validate_stops_for_mt5. rewrite Hval, Hdry. cbn [negb].
  rewrite bind_eq. unfold mt5_symbol_info at 1. cbn [fst]. rewrite Hi.
  unfold ret. cbn [fst]. unfold validate_with_info. rewrite Hd.
  replace (0 <=? d) with true by (symmetry; apply Z.leb_le; exact Hd0).
  cbv zeta.
  destruct long, sl as [x|], tp as [y|]; cbn [spec_level option_map Z.eqb andb negb];
    rewrite ?min_dist_code by apply Qabs_nonneg';
    unfold qlt, qle;
    repeat match goal with
    | |- context [Qle_bool ?a ?b] => destruct (Qle_bool a b)
    end; reflexivity.
Qed.

(** ** C10: absent stops in the master snapshot *)

Lemma extract_stop_absent fos v :
  absent_like fos v -> extract_stop fos v = None.
Proof.
  unfold extract_stop. intros [->|[->|[[q [-> Hq]]|H]]]; [reflexivity|reflexivity| |].
  - cbn [in_none_empty_zero]. apply qeq_true in Hq. now rewrite Hq.
  - rewrite H. now destruct (in_none_empty_zero v).
Qed.

Lemma build_snapshot_entries cfg fos (ps : list RawPos) acc o mp :
  In (o, mp) (fold_left (fun snap p =>
                let mp := master_position_of_raw cfg fos p in
                aset Z.eqb (order_number mp) mp snap) ps acc) ->
  In (o, mp) acc \/ exists p, In p ps /\ mp = master_position_of_raw cfg fos p.
Proof.
  revert acc. induction ps as [|p ps IH]; simpl; intros acc H; [now left|].
  destruct (IH _ H) as [H1|[p' [Hp' ->]]].
  - apply In_aset_Z in H1 as [H1|H1]; [|now left].
    inversion H1; subst. right. exists p. split; [now left|reflexivity].
  - right. exists p'. split; [now right|reflexivity].
Qed.

(** C10. Every entry of the master snapshot is built by
    [master_position_of_raw] from a raw position of the payload, and a
    [StopLoss] or [TakeProfit] field that is missing ([null]), the empty
    string, a number equal to 0, or a value [float()] cannot parse is
    recorded as no stop ([None]); a stop given as the number 0 is thus never
    recorded (a string such as ["0"] is parsed by [float()] instead). *)
Theorem zero_stop_recorded_absent (cfg : Config)
  (float_of_string : string -> option Q) :
  (forall p, absent_like float_of_string (rp_stop_loss p) ->
     stop_loss (master_position_of_raw cfg float_of_string p) = None) /\
  (forall p, absent_like float_of_string (rp_take_profit p) ->
     take_profit (master_position_of_raw cfg float_of_string p) = None) /\
  (forall d o mp, In (o, mp) (build_master_snapshot cfg float_of_string d) ->
     exists p, In p (pl_open_positions d) /\
               mp = master_position_of_raw cfg float_of_string p).
Proof.
  split; [|split].
  - intros p H. cbn. now apply extract_stop_absent.
  - intros p H. cbn. now apply extract_stop_absent.
  - intros d o mp H. unfold build_master_snapshot in H.
    apply build_snapshot_entries in H as [[]|H]. exact H.
Qed.

(** ** C7: equity-ratio sizing *)

Lemma calc_equity_ratio_value {VS} (V : Venue VS) cfg s :
  fst (calc_equity_ratio V cfg s) =
  equity_ratio_amended
    (if dry_run cfg then None else v_account_equity V (st_vs s)) (st_equity s).
Proof.
  unfold calc_equity_ratio. rewrite bind_eq, bind_eq.
  destruct (dry_run cfg); cbn [fst snd ret get_equity mt5_account_equity st_equity
                                  log_call].
  - destruct (st_equity s); reflexivity.
  - destruct (v_account_equity V (st_vs s)) as [f|], (st_equity s) as [m|];
      cbn [py_not orb equity_ratio_amended]; try reflexivity;
      destruct (qeq f 0); cbn [orb]; try reflexivity.
    destruct (qeq m 0) eqn:E; cbn [orb].
    + apply qeq_true in E. rewrite (proj2 (qle_true m 0)); [reflexivity|].
      rewrite E. apply Qle_refl.
    + destruct (qle m 0); reflexivity.
Qed.

(** C7 (amended). In [EquityRatio] mode, follower lots are
    [max(base * ratio, 0)]: the ratio is follower equity over master equity,
    except that it is exactly 1 when either equity is unknown, when the
    follower equity is 0, or when the master equity is not positive (the
    follower equity is not read in dry-run mode).  A negative follower equity
    is not a fallback case: it gives a negative ratio and 0 lots. *)
Theorem equity_ratio_sizing {VS} (V : Venue VS) (cfg : Config)
  master_symbol master_amount follower_sym s :
  volume_mode cfg = VM_equity_ratio ->
  fst (convert_master_amount_to_lots V cfg master_symbol master_amount follower_sym s) =
  py_max (base_lots cfg master_symbol master_amount follower_sym *
          equity_ratio_amended
            (if dry_run cfg then None else v_account_equity V (st_vs s))
            (st_equity s)) 0.
Proof.
  intro Hvm. unfold convert_master_amount_to_lots. cbv zeta.
  rewrite bind_eq. rewrite Hvm. rewrite bind_eq. cbn [fst ret].
  rewrite calc_equity_ratio_value. reflexivity.
Qed.

(** C7 (counterexample). A follower account with equity -100 against a
    master equity of 1000: the ratio is -1/10, not the 1.0 fallback, and a
    one-lot master position is copied with 0 lots. *)
Lemma equity_ratio_negative_follower :
  let cfg := with_volume_mode source_config VM_equity_ratio in
  let V := venue_ok None (Some (-100 # 1)) in
  let s := init_st [] [] (Some (1000 # 1)) in
  qeq (fst (calc_equity_ratio V cfg s)) (-1 # 10) = true /\
  qeq (base_lots cfg "EURUSD" (100000 # 1) "EURUSD") 1 = true /\
  fst (convert_master_amount_to_lots V cfg "EURUSD" (100000 # 1) "EURUSD" s) = 0%Q.
Proof. vm_compute. repeat split; reflexivity. Qed.

(** ** C2: closing a follower position the venue no longer reports *)

(** C2 (what the code does). In live mode, when the master order vanished and
    its follower symbol is visible but [positions_get] finds no position for
    the ticket, [mt5_close_trade] returns [False] (the "already closed?"
    warning) and [close_follower_for_master] keeps the link: it is not
    removed. *)
Theorem close_not_found_keeps_link {VS} (V : Venue VS) (cfg : Config)
  o s link i :
  close_on_master_close cfg = true -> dry_run cfg = false ->
  alookup Z.eqb o (st_links s) = Some link ->
  v_symbol_info V (st_vs s) (follower_symbol link) = Some i -> visible i = true ->
  v_positions_get V (st_vs s) (follower_ticket link) = None ->
  fst (mt5_close_trade V cfg link s) = false /\
  st_links (snd (close_follower_for_master V cfg o s)) = st_links s.
Proof.
  intros Hc Hdry Hl Hi Hv Hp.
  assert (Hct : forall s0, st_vs s0 = st_vs s ->
            fst (mt5_close_trade V cfg link s0) = false /\
            st_links (snd (mt5_close_trade V cfg link s0)) = st_links s0).
  { intros s0 Hs0. unfold mt5_close_trade, mt5_symbol_prepare, bind, ret,
      mt5_symbol_info, mt5_positions_get.
    rewrite Hdry. cbn. rewrite Hs0, Hi, Hv. cbn. rewrite Hs0, Hp.
    split; reflexivity. }
  split; [apply Hct; reflexivity|].
  unfold close_follower_for_master. rewrite Hc. cbn [negb].
  rewrite bind_eq. unfold lookup_link at 1 2. cbn [fst snd]. rewrite Hl.
  rewrite Hdry. cbn [andb]. rewrite bind_eq.
  destruct (Hct s eq_refl) as [Hf Hs]. rewrite Hf. exact Hs.
Qed.

Lemma close_not_found_keeps_link_witness :
  fst (mt5_close_trade (venue_ok None None) source_config link5 st_linked5) = false /\
  st_links (snd (close_follower_for_master (venue_ok None None) source_config 5
                   st_linked5)) = st_links st_linked5.
Proof.
  apply (close_not_found_keeps_link (venue_ok None None) source_config 5
           st_linked5 link5 info_fx); reflexivity.
Defined.

(** ** C1: re-opening an order whose open failed *)

Lemma adjust_no_link {VS} (V : Venue VS) cfg mp s :
  alookup Z.eqb (order_number mp) (st_links s) = None ->
  adjust_follower_for_master V cfg mp s = open_follower_for_master V cfg mp s.
Proof.
  intro H. unfold adjust_follower_for_master. rewrite bind_eq.
  unfold lookup_link at 1 2. cbn [fst snd]. rewrite H. reflexivity.
Qed.

Lemma update_stops_no_link {VS} (V : Venue VS) cfg mp s :
  alookup Z.eqb (order_number mp) (st_links s) = None ->
  update_follower_stops_for_master V cfg mp s = (tt, s).
Proof.
  intro H. unfold update_follower_stops_for_master. rewrite bind_eq.
  unfold lookup_link at 1 2. cbn [fst snd]. rewrite H. reflexivity.
Qed.

(** C1 (amended). For an order number present in both the previous and the
    new snapshot but absent from [link_map], the fresh-open path
    [open_follower_for_master] runs (followed by the usual stop check) only
    when its amount changed by more than 1e-8; when the amount did not
    change, the entry is a no-op (no venue call, no link), whether or not its
    stops changed. *)
Theorem reopen_only_on_amount_change {VS} (V : Venue VS) (cfg : Config)
  prev o mp p s :
  alookup Z.eqb o prev = Some p -> order_number mp = o ->
  alookup Z.eqb o (st_links s) = None ->
  process_entry V cfg prev o mp s =
  (if qlt (1#100000000) (Qabs (q_or (amount p) 0 - q_or (amount mp) 0))
   then (open_follower_for_master V cfg mp;;
         if copy_stops cfg && (stops_changed cfg (stop_loss p) (stop_loss mp)
                               || stops_changed cfg (take_profit p) (take_profit mp))
         then update_follower_stops_for_master V cfg mp else ret tt) s
   else (tt, s)).
Proof.
  intros Hp <- Hl. unfold process_entry. rewrite Hp.
  destruct (qlt _ _).
  - unfold bind at 1 2. rewrite (adjust_no_link V cfg mp s Hl). reflexivity.
  - rewrite bind_eq. cbn [ret fst snd].
    destruct (copy_stops cfg && _); [|reflexivity].
    now apply update_stops_no_link.
Qed.

Lemma reopen_only_on_amount_change_witness :
  process_entry (venue_ok None None) source_config [(5, mp_eurusd 5 (100000#1))] 5
    (mkMP 5 "EURUSD" 0 (100000#1) None (Some (1#1)) None) (init_st [] [] None) =
  (tt, init_st [] [] None).
Proof.
  rewrite (reopen_only_on_amount_change (venue_ok None None) source_config
             [(5, mp_eurusd 5 (100000#1))] 5
             (mkMP 5 "EURUSD" 0 (100000#1) None (Some (1#1)) None)
             (mp_eurusd 5 (100000#1)) (init_st [] [] None)); reflexivity.
Defined.

(** C1 (counterexample). Order 5 is in both snapshots with the same amount
    and stops, and has no link (its earlier open failed): processing the new
    snapshot makes no open call and leaves it unlinked. *)
Lemma no_reopen_when_unchanged :
  let s := init_st [] [(5, mp_eurusd 5 (100000#1))] None in
  let s' := snd (process_master_changes (venue_ok (Some (1#10)) None)
                   source_config [(5, mp_eurusd 5 (100000#1))] s) in
  n_open 5 (st_trace s') = 0%nat /\ st_trace s' = [] /\
  alookup Z.eqb 5 (st_links s') = None.
Proof. vm_compute. repeat split. Qed.

(** ** C5: feeding the same snapshot twice *)

Lemma for_each_noop {VS A} (f : A -> CM VS unit) (l : list A) s :
  (forall x s0, In x l -> f x s0 = (tt, s0)) -> for_each f l s = (tt, s).
Proof.
  revert s. induction l as [|x l IH]; intros s H; [reflexivity|].
  cbn [for_each]. rewrite bind_eq. rewrite (H x s (or_introl eq_refl)).
  apply IH. intros y s0 Hy. apply H. now right.
Qed.

Lemma qlt_Qeq_compat a b c d :
  (a == c)%Q -> (b == d)%Q -> qlt a b = qlt c d.
Proof.
  intros H1 H2. unfold qlt, qle. f_equal.
  destruct (Qle_bool b a) eqn:E, (Qle_bool d c) eqn:F; try reflexivity;
    apply Qle_bool_iff in E || apply Qle_bool_iff in F.
  - exfalso. rewrite H1, H2 in E. apply Qle_bool_iff in E. congruence.
  - exfalso. rewrite <- H1, <- H2 in F. apply Qle_bool_iff in F. congruence.
Qed.

Lemma q_or_Qeq a b d : (a == b)%Q -> (q_or a d == q_or b d)%Q.
Proof.
  intro H. unfold q_or. destruct (qeq a 0) eqn:E, (qeq b 0) eqn:F.
  - apply Qeq_refl.
  - exfalso. apply qeq_true in E. rewrite H in E. apply qeq_true in E. congruence.
  - exfalso. apply qeq_true in F. rewrite <- H in F. apply qeq_true in F. congruence.
  - exact H.
Qed.

Lemma stops_changed_same cfg a b :
  (0 <= stop_change_abs_tolerance cfg)%Q -> opt_qeq a b = true ->
  stops_changed cfg a b = false.
Proof.
  intros Ht H. destruct a as [x|], b as [y|]; try discriminate; [|reflexivity].
  cbn in H. apply qeq_true in H. cbn [stops_changed].
  apply qlt_false.
  assert (E : (Qabs (x - y) == 0)%Q)
    by (rewrite H; unfold Qminus; rewrite Qplus_opp_r; reflexivity).
  rewrite E. exact Ht.
Qed.

Lemma process_entry_same {VS} (V : Venue VS) cfg prev o mp p s :
  (0 <= stop_change_abs_tolerance cfg)%Q ->
  alookup Z.eqb o prev = Some p -> (amount p == amount mp)%Q ->
  opt_qeq (stop_loss p) (stop_loss mp) = true ->
  opt_qeq (take_profit p) (take_profit mp) = true ->
  process_entry V cfg prev o mp s = (tt, s).
Proof.
  intros Ht Hp Ha Hsl Htp. unfold process_entry. rewrite Hp.
  assert (Hd : (q_or (amount p) 0 - q_or (amount mp) 0 == 0)%Q).
  { rewrite (q_or_Qeq _ _ 0 Ha). apply Qplus_opp_r. }
  rewrite (qlt_Qeq_compat _ _ (1#100000000) 0 (Qeq_refl _)
             (Qeq_trans _ _ _ (Qabs_wd _ _ Hd) (Qeq_refl 0))).
  rewrite bind_eq. cbn [ret fst snd].
  rewrite (stops_changed_same cfg _ _ Ht Hsl), (stops_changed_same cfg _ _ Ht Htp).
  rewrite andb_false_r. reflexivity.
Qed.

Lemma closed_ids_nil prev new :
  (forall k, In k (map fst prev) -> In k (map fst new)) -> closed_ids prev new = [].
Proof.
  unfold closed_ids. induction (map fst prev) as [|k ks IH]; intro H; [reflexivity|].
  cbn [filter].
  assert (Hk : zmem k (map fst new) = true).
  { apply existsb_exists. exists k. split; [apply H; now left | apply Z.eqb_refl]. }
  rewrite Hk. cbn [negb]. apply IH. intros k' Hk'. apply H. now right.
Qed.

(** C5. When the new snapshot has the same order numbers, amounts and stop
    levels as the previous one (and the stop tolerance is not negative, as
    the configured 1e-6), processing it makes no call into the terminal,
    leaves [link_map] as it was, and changes nothing but the stored
    snapshot. *)
Theorem rediff_idempotent {VS} (V : Venue VS) (cfg : Config) new s :
  same_content (st_snap s) new -> (0 <= stop_change_abs_tolerance cfg)%Q ->
  process_master_changes V cfg new s = (tt, with_snap s new) /\
  st_trace (snd (process_master_changes V cfg new s)) = st_trace s /\
  st_links (snd (process_master_changes V cfg new s)) = st_links s.
Proof.
  intros [Hkeys Hent] Ht.
  assert (H : process_master_changes V cfg new s = (tt, with_snap s new)).
  { unfold process_master_changes. rewrite bind_eq. cbn [get_snap fst snd].
    rewrite bind_eq.
    rewrite for_each_noop.
    2:{ intros [o mp] s0 Hin. destruct (Hent o mp Hin) as [p [Hp [Ha [Hsl Htp]]]].
        eapply process_entry_same; eauto. }
    cbn [fst snd]. rewrite bind_eq. rewrite closed_ids_nil by exact Hkeys.
    reflexivity. }
  rewrite H. split; [reflexivity|]. split; reflexivity.
Qed.

(** ** C3: filling-mode negotiation *)

Lemma fill_sequence_order m0 : fill_sequence m0 = fill_order m0.
Proof.
  unfold fill_sequence, fill_order, default_seq, zmem, ORDER_FILLING_FOK,
    ORDER_FILLING_IOC, ORDER_FILLING_RETURN.
  repeat first
    [ progress cbn [fold_left filter existsb orb app negb]
    | match goal with
      | |- context [?a =? ?b] => destruct (Z.eqb_spec a b); subst; try congruence
      end ].
  all: reflexivity.
Qed.


Lemma sends_of_app a b : sends_of (a ++ b) = sends_of a ++ sends_of b.
Proof.
  induction a as [|c a IH]; [reflexivity|]. destruct c; cbn; rewrite ?IH; reflexivity.
Qed.

Lemma attempts_ok_nonnil ms atts : attempts_ok ms atts = true -> atts <> [].
Proof. destruct ms, atts; cbn; congruence. Qed.

Lemma attempts_ok_cons m ms x a l :
  attempts_ok (m :: ms) (x :: a :: l) =
  opt_zeq (fst x) m && (snd x =? RETCODE_INVALID_FILL) && attempts_ok ms (a :: l).
Proof. destruct x; reflexivity. Qed.

Lemma try_modes_spec {VS} (V : Venue VS) request sym rest : forall mode s,
  fallback_ok sym (mode :: rest) s (fst (try_modes V request sym mode rest s))
              (snd (try_modes V request sym mode rest s)).
Proof.
  induction rest as [|m' rest IH]; intros mode s; cbn [try_modes];
    rewrite !bind_eq;
    destruct (v_order_send V (st_vs s) (set_filling request mode)) as [res vs'] eqn:E;
    assert (M : mt5_order_send V (set_filling request mode) s =
                (res, log_call (COrderSend (set_filling request mode) res) (with_vs s vs')))
      by (unfold mt5_order_send; rewrite E; reflexivity);
    rewrite M; cbn [fst snd].
  - destruct (retcode res =? RETCODE_INVALID_FILL) eqn:R.
    + exists [COrderSend (set_filling request mode) res]. cbn.
      rewrite R, Z.eqb_refl. repeat split; try reflexivity.
      apply Z.eqb_eq in R. unfold is_done_placed_partial. rewrite R. discriminate.
    + exists [COrderSend (set_filling request mode) res].
      rewrite bind_eq.
      destruct (is_done_placed_partial (retcode res)) eqn:D;
        cbn [sends_of set_filling req_filling attempts_ok last fst snd opt_zeq
             set_fill ret st_trace with_fill log_call st_fill];
        rewrite ?Z.eqb_refl, ?R; cbn [andb negb orb];
        (split; [reflexivity|split; [reflexivity|split; [reflexivity|]]]);
        intro Hd; [apply slookup_aset_same | congruence].
  - destruct (retcode res =? RETCODE_INVALID_FILL) eqn:R.
    + set (s1 := log_call (COrderSend (set_filling request mode) res) (with_vs s vs')).
      destruct (IH m' s1) as [d [Ht [Ha [Hl Hc]]]].
      exists (COrderSend (set_filling request mode) res :: d).
      split; [rewrite Ht; cbn; rewrite <- app_assoc; reflexivity|].
      cbn [sends_of set_filling req_filling].
      pose proof (attempts_ok_nonnil _ _ Ha) as Hn.
      destruct (sends_of d) as [|a l] eqn:Sd; [congruence|].
      rewrite attempts_ok_cons, Ha. cbn [fst snd opt_zeq].
      rewrite R, Z.eqb_refl. split; [reflexivity|].
      change (last (?x :: a :: l) ?dflt) with (last (a :: l) dflt).
      split; [exact Hl| exact Hc].
    + exists [COrderSend (set_filling request mode) res].
      rewrite bind_eq.
      destruct (is_done_placed_partial (retcode res)) eqn:D;
        cbn [sends_of set_filling req_filling attempts_ok last fst snd opt_zeq
             set_fill ret st_trace with_fill log_call st_fill];
        rewrite ?Z.eqb_refl, ?R; cbn [andb negb orb];
        (split; [reflexivity|split; [reflexivity|split; [reflexivity|]]]);
        intro Hd; [apply slookup_aset_same | congruence].
Qed.

Lemma pick_filling_mode_spec {VS} (V : Venue VS) cfg sym s :
  dry_run cfg = false ->
  fst (pick_filling_mode V cfg sym s) = start_mode V s sym /\
  exists d, st_trace (snd (pick_filling_mode V cfg sym s)) = st_trace s ++ d /\
            sends_of d = [].
Proof.
  intro Hdry. unfold pick_filling_mode, start_mode. rewrite bind_eq.
  cbn [get_fill fst snd]. destruct (slookup sym (st_fill s)) as [m|].
  - split; [reflexivity|]. exists []. split; [symmetry; apply app_nil_r|reflexivity].
  - rewrite Hdry, bind_eq. unfold mt5_symbol_info. cbn [fst snd log_call st_vs].
    destruct (reported_filling (v_symbol_info V (st_vs s) sym)) as [r|] eqn:Er;
      rewrite bind_eq; cbn;
      (split; [reflexivity|]); exists [CSymbolInfo sym]; split; reflexivity.
Qed.

Lemma last_forallb {A} (P : A -> bool) l d :
  forallb P l = true -> l <> [] -> P (last l d) = true.
Proof.
  induction l as [|x l IH]; [congruence|]. intros H _. cbn in H.
  apply andb_true_iff in H as [H1 H2].
  destruct l as [|y l]; [exact H1|]. apply IH; [exact H2|congruence].
Qed.

Lemma order_send_with_fallback_spec {VS} (V : Venue VS) cfg r sym s :
  dry_run cfg = false ->
  fallback_ok sym (fill_order (start_mode V s sym)) s
    (fst (order_send_with_fallback V cfg r sym s))
    (snd (order_send_with_fallback V cfg r sym s)).
Proof.
  intro Hdry. unfold order_send_with_fallback. rewrite Hdry, !bind_eq.
  destruct (pick_filling_mode_spec V cfg sym s Hdry) as [Hm [d [Hd Hs]]].
  set (s1 := snd (pick_filling_mode V cfg sym s)) in *.
  rewrite Hm.
  destruct (try_modes_spec V r sym (tl (fill_sequence (start_mode V s sym)))
              (start_mode V s sym) s1) as [d2 [Ht [Ha [Hl Hc]]]].
  exists (d ++ d2). rewrite sends_of_app, Hs. cbn [app].
  rewrite fill_sequence_order in *. cbn [fill_order tl] in *.
  split; [rewrite Ht, Hd, app_assoc; reflexivity|].
  split; [exact Ha|]. split; [exact Hl|exact Hc].
Qed.

Lemma mt5_order_send_eq {VS} (V : Venue VS) r s :
  mt5_order_send V r s =
  (fst (v_order_send V (st_vs s) r),
   log_call (COrderSend r (fst (v_order_send V (st_vs s) r)))
            (with_vs s (snd (v_order_send V (st_vs s) r)))).
Proof. unfold mt5_order_send. destruct (v_order_send V (st_vs s) r); reflexivity. Qed.

Lemma skipn_length_app {A} (a b : list A) : skipn (List.length a) (a ++ b) = b.
Proof. induction a; cbn; auto. Qed.

Section FokRejected.
Context {VS : Type}.
Variable V : Venue VS.
Variable cfg : Config.
Variable sym : string.
Hypothesis Hdry : dry_run cfg = false.
Hypothesis Hfok : forall vs r, req_filling r = Some ORDER_FILLING_FOK ->
  retcode (fst (v_order_send V vs r)) = RETCODE_INVALID_FILL.
Hypothesis Hioc : forall vs r, req_filling r = Some ORDER_FILLING_IOC ->
  retcode (fst (v_order_send V vs r)) = TRADE_RETCODE_DONE.
Hypothesis Hrep : forall vs, reported_filling (v_symbol_info V vs sym) = None.

Lemma send_ioc_cached r s :
  slookup sym (st_fill s) = Some ORDER_FILLING_IOC ->
  let res := fst (v_order_send V (st_vs s) (set_filling r ORDER_FILLING_IOC)) in
  let s' := snd (order_send_with_fallback V cfg r sym s) in
  st_trace s' = st_trace s ++ [COrderSend (set_filling r ORDER_FILLING_IOC) res] /\
  slookup sym (st_fill s') = Some ORDER_FILLING_IOC.
Proof.
  intro Hc. unfold order_send_with_fallback, pick_filling_mode.
  rewrite Hdry, !bind_eq. cbn [get_fill fst snd]. rewrite Hc. cbn [ret fst snd].
  replace (tl (fill_sequence ORDER_FILLING_IOC)) with [ORDER_FILLING_FOK; ORDER_FILLING_RETURN]
    by reflexivity.
  cbn [try_modes]. rewrite bind_eq, mt5_order_send_eq. cbn [fst snd].
  rewrite (Hioc (st_vs s) (set_filling r ORDER_FILLING_IOC) eq_refl).
  change (TRADE_RETCODE_DONE =? RETCODE_INVALID_FILL) with false.
  change (is_done_placed_partial TRADE_RETCODE_DONE) with true. cbv iota.
  rewrite bind_eq. cbn. split; [reflexivity|apply slookup_aset_same].
Qed.

Lemma send_first r s :
  slookup sym (st_fill s) = None ->
  let s' := snd (order_send_with_fallback V cfg r sym s) in
  exists res0 res1,
    st_trace s' = st_trace s ++ [CSymbolInfo sym;
                                 COrderSend (set_filling r ORDER_FILLING_FOK) res0;
                                 COrderSend (set_filling r ORDER_FILLING_IOC) res1] /\
    retcode res0 = RETCODE_INVALID_FILL /\ retcode res1 = TRADE_RETCODE_DONE /\
    slookup sym (st_fill s') = Some ORDER_FILLING_IOC.
Proof.
  intro Hc. unfold order_send_with_fallback, pick_filling_mode.
  rewrite Hdry, !bind_eq. cbn [get_fill fst snd]. rewrite Hc.
  rewrite bind_eq. unfold mt5_symbol_info. cbn [fst snd log_call st_vs].
  rewrite Hrep. rewrite bind_eq. cbn [set_fill ret fst snd].
  replace (tl (fill_sequence ORDER_FILLING_FOK)) with [ORDER_FILLING_IOC; ORDER_FILLING_RETURN]
    by reflexivity.
  cbn [try_modes]. rewrite bind_eq, mt5_order_send_eq. cbn [fst snd].
  cbn [st_vs with_fill log_call].
  rewrite (Hfok (st_vs s) (set_filling r ORDER_FILLING_FOK) eq_refl).
  change (RETCODE_INVALID_FILL =? RETCODE_INVALID_FILL) with true. cbv iota.
  rewrite bind_eq, mt5_order_send_eq. cbn [fst snd st_vs with_vs log_call].
  rewrite (Hioc _ (set_filling r ORDER_FILLING_IOC) eq_refl).
  change (TRADE_RETCODE_DONE =? RETCODE_INVALID_FILL) with false.
  change (is_done_placed_partial TRADE_RETCODE_DONE) with true. cbv iota.
  rewrite bind_eq. cbn [set_fill ret fst snd with_fill st_trace st_fill with_vs log_call].
  eexists; eexists. split; [rewrite <- !app_assoc; reflexivity|].
  split; [apply Hfok; reflexivity|]. split; [apply Hioc; reflexivity|].
  apply slookup_aset_same.
Qed.

Lemma run_orders_cached rs : forall s,
  slookup sym (st_fill s) = Some ORDER_FILLING_IOC ->
  run_orders V cfg rs sym s =
  repeat [(Some ORDER_FILLING_IOC, TRADE_RETCODE_DONE)] (List.length rs).
Proof.
  induction rs as [|r rs IH]; intros s Hc; [reflexivity|].
  cbn [run_orders]. pose proof (send_ioc_cached r s Hc) as [Ht Hc'].
  destruct (order_send_with_fallback V cfg r sym s) as [res s'] eqn:E.
  cbn [snd] in Ht, Hc'. rewrite Ht, skipn_length_app. cbn [sends_of].
  change (req_filling (set_filling r ?m)) with (Some m).
  rewrite (Hioc (st_vs s) (set_filling r ORDER_FILLING_IOC) eq_refl). rewrite (IH s' Hc'). reflexivity.
Qed.

Lemma run_orders_first r rs s :
  slookup sym (st_fill s) = None ->
  run_orders V cfg (r :: rs) sym s =
  [(Some ORDER_FILLING_FOK, RETCODE_INVALID_FILL);
   (Some ORDER_FILLING_IOC, TRADE_RETCODE_DONE)]
  :: repeat [(Some ORDER_FILLING_IOC, TRADE_RETCODE_DONE)] (List.length rs).
Proof.
  intro Hc. cbn [run_orders].
  pose proof (send_first r s Hc) as [res0 [res1 [Ht [H0 [H1 Hc']]]]].
  destruct (order_send_with_fallback V cfg r sym s) as [res s'] eqn:E.
  cbn [snd] in Ht, Hc'. rewrite Ht, skipn_length_app.
  cbn [sends_of]. change (req_filling (set_filling r ?m)) with (Some m).
  rewrite H0, H1.
  rewrite (run_orders_cached rs s' Hc'). reflexivity.
Qed.

End FokRejected.

Lemma attempts_all_rejected ms : forall atts,
  attempts_ok ms atts = true ->
  forallb (fun a => snd a =? RETCODE_INVALID_FILL) atts = true ->
  List.length atts = List.length ms.
Proof.
  induction ms as [|m ms IH]; intros atts Ha Hr; [destruct atts; discriminate|].
  destruct atts as [|[f rc] [|a l]]; [discriminate| |].
  - cbn in Ha, Hr. rewrite andb_true_r in Hr. rewrite Hr in Ha. cbn [negb orb] in Ha.
    destruct ms; [reflexivity|]. rewrite andb_false_r in Ha. discriminate.
  - rewrite attempts_ok_cons in Ha. cbn [fst snd] in Ha.
    apply andb_true_iff in Ha as [_ Ha].
    change ((rc =? RETCODE_INVALID_FILL)
            && forallb (fun a => snd a =? RETCODE_INVALID_FILL) (a :: l) = true) in Hr.
    apply andb_true_iff in Hr as [_ Hr].
    change (S (List.length (a :: l)) = S (List.length ms)). now rewrite (IH _ Ha Hr).
Qed.



(** C3. In live mode, one [_order_send_with_fallback] sends the request
    with the cached mode, else the broker-reported one, else fill-or-kill,
    then with the remaining modes in the order FOK, IOC, RETURN; it stops at
    the first answer that is not 10030; its result is the last answer; on
    success the mode that succeeded is cached; when every answer is 10030,
    all modes were tried and the order fails.  So against a venue that
    rejects FOK with 10030 and accepts IOC, with no reported mode and no
    cached one, a run of orders on the symbol makes one rejected and one
    accepted attempt for the first order and a single accepted IOC attempt
    for each later one. *)
Theorem fill_mode_negotiation {VS} (V : Venue VS) (cfg : Config) :
  dry_run cfg = false ->
  (forall r sym s,
     let res := fst (order_send_with_fallback V cfg r sym s) in
     let s' := snd (order_send_with_fallback V cfg r sym s) in
     exists delta,
       st_trace s' = st_trace s ++ delta /\
       attempts_ok (fill_order (start_mode V s sym)) (sends_of delta) = true /\
       snd (last (sends_of delta) (None, 0)) = retcode res /\
       (is_done_placed_partial (retcode res) = true ->
          slookup sym (st_fill s') = fst (last (sends_of delta) (None, 0))) /\
       (forallb (fun a => snd a =? RETCODE_INVALID_FILL) (sends_of delta) = true ->
          List.length (sends_of delta) = List.length (fill_order (start_mode V s sym))
          /\ is_done_placed_partial (retcode res) = false)) /\
  (forall sym r rs s,
     (forall vs r, req_filling r = Some ORDER_FILLING_FOK ->
        retcode (fst (v_order_send V vs r)) = RETCODE_INVALID_FILL) ->
     (forall vs r, req_filling r = Some ORDER_FILLING_IOC ->
        retcode (fst (v_order_send V vs r)) = TRADE_RETCODE_DONE) ->
     (forall vs, reported_filling (v_symbol_info V vs sym) = None) ->
     slookup sym (st_fill s) = None ->
     run_orders V cfg (r :: rs) sym s =
     [(Some ORDER_FILLING_FOK, RETCODE_INVALID_FILL);
      (Some ORDER_FILLING_IOC, TRADE_RETCODE_DONE)]
     :: repeat [(Some ORDER_FILLING_IOC, TRADE_RETCODE_DONE)] (List.length rs)).
Proof.
  intro Hdry. split.
  - intros r sym s res s'.
    destruct (order_send_with_fallback_spec V cfg r sym s Hdry) as [d [Ht [Ha [Hl Hc]]]].
    exists d. split; [exact Ht|]. split; [exact Ha|]. split; [exact Hl|].
    split; [exact Hc|]. intro Hr. split; [exact (attempts_all_rejected _ _ Ha Hr)|].
    pose proof (last_forallb _ _ (None, 0) Hr (attempts_ok_nonnil _ _ Ha)) as Hlast.
    cbn beta in Hlast. apply Z.eqb_eq in Hlast. fold res in Hl. rewrite Hl in Hlast.
    unfold is_done_placed_partial. rewrite Hlast. reflexivity.
  - intros sym r rs s Hf Hi Hrep Hc. now apply run_orders_first.
Qed.

Lemma fill_mode_negotiation_witness :
  dry_run source_config = false /\
  run_orders venue_ioc_only source_config
    [req_eurusd 5; req_eurusd 6; req_eurusd 7] "EURUSD" (init_st [] [] None) =
  [[(Some ORDER_FILLING_FOK, RETCODE_INVALID_FILL);
    (Some ORDER_FILLING_IOC, TRADE_RETCODE_DONE)];
   [(Some ORDER_FILLING_IOC, TRADE_RETCODE_DONE)];
   [(Some ORDER_FILLING_IOC, TRADE_RETCODE_DONE)]].
Proof.
  split; [reflexivity|].
  apply (proj2 (fill_mode_negotiation venue_ioc_only source_config eq_refl)).
  - intros vs r H. cbn [venue_ioc_only v_order_send fst retcode]. rewrite H. reflexivity.
  - intros vs r H. cbn [venue_ioc_only v_order_send fst retcode]. rewrite H. reflexivity.
  - intro vs. reflexivity.
  - reflexivity.
Defined.

(** ** C4: an open-then-close round trip *)

Lemma n_open_app o tr c :
  n_open o (tr ++ [c]) = (n_open o tr + if is_open_call_of o c then 1 else 0)%nat.
Proof.
  unfold n_open. rewrite filter_app, length_app. cbn. destruct (is_open_call_of o c); reflexivity.
Qed.

Lemma n_close_app o tr c :
  n_close o (tr ++ [c]) = (n_close o tr + if is_close_call_of o c then 1 else 0)%nat.
Proof.
  unfold n_close. rewrite filter_app, length_app. cbn. destruct (is_close_call_of o c); reflexivity.
Qed.

Lemma filter_none {A} (f : A -> bool) l :
  (forall x, In x l -> f x = false) -> filter f l = [].
Proof.
  induction l as [|x l IH]; intro H; [reflexivity|]. cbn.
  rewrite (H x (or_introl eq_refl)). apply IH. intros y Hy. apply H. now right.
Qed.

Section Eff.
Context {VS : Type}.
Variable o : Z.

Lemma eff_ret {A} (Q : A -> Prop) a : Q a -> eff (VS:=VS) o (ret a) Q 0 0.
Proof. intros HQ s Hs. cbn. rewrite !Nat.add_0_r. auto. Qed.

Lemma eff_bind {A B} (m : CM VS A) (k : A -> CM VS B) P Q d1 c1 d2 c2 :
  eff o m P d1 c1 -> (forall a, P a -> eff o (k a) Q d2 c2) ->
  eff o (bind m k) Q (d1 + d2) (c1 + c2).
Proof.
  intros Hm Hk s Hs. rewrite !bind_eq.
  destruct (Hm s Hs) as [HP [Hi [Hl [Ho Hc]]]].
  destruct (Hk _ HP _ Hi) as [HQ [Hi' [Hl' [Ho' Hc']]]].
  split; [exact HQ|]. split; [exact Hi'|]. split; [congruence|]. lia.
Qed.

Lemma eff_conv {A} (m : CM VS A) (Q Q' : A -> Prop) d c d' c' :
  eff o m Q d c -> (forall a, Q a -> Q' a) -> d = d' -> c = c' -> eff o m Q' d' c'.
Proof.
  intros H HQ <- <- s Hs. destruct (H s Hs) as [H1 H2]. auto.
Qed.

Lemma frame_bind {A B} (m : CM VS A) (k : A -> CM VS B) :
  frame o m -> (forall a, frame o (k a)) -> frame o (bind m k).
Proof.
  intros Hm Hk. eapply eff_conv;
    [eapply eff_bind; [exact Hm | intros a _; exact (Hk a)] | auto
    | reflexivity | reflexivity].
Qed.

Lemma frame_ret {A} (a : A) : frame (VS:=VS) o (ret a).
Proof. apply eff_ret. exact I. Qed.

(** A step that only touches the trace with calls other than orders, and
    the state other than [link_map]. *)
Lemma frame_quiet {A} (m : CM VS A) :
  (forall s, st_links (snd (m s)) = st_links s /\
             exists cs, st_trace (snd (m s)) = st_trace s ++ cs /\
                        forall c, In c cs -> is_open_call_of o c = false /\
                                             is_close_call_of o c = false) ->
  frame o m.
Proof.
  intros H s Hs. destruct (H s) as [Hl [cs [Ht Hc]]].
  unfold links_inv in *. rewrite Hl. split; [exact I|]. split; [exact Hs|].
  split; [reflexivity|]. rewrite Ht. unfold n_open, n_close.
  rewrite !filter_app, !length_app.
  assert (E1 : filter (is_open_call_of o) cs = []).
  { apply filter_none. intros c Hc'. apply Hc. exact Hc'. }
  assert (E2 : filter (is_close_call_of o) cs = []).
  { apply filter_none. intros c Hc'. apply Hc. exact Hc'. }
  rewrite E1, E2. cbn. lia.
Qed.

Lemma frame_state_only {A} (m : CM VS A) :
  (forall s, st_links (snd (m s)) = st_links s /\ st_trace (snd (m s)) = st_trace s) ->
  frame o m.
Proof.
  intro H. apply frame_quiet. intro s. destruct (H s) as [H1 H2].
  split; [exact H1|]. exists []. split; [rewrite app_nil_r; exact H2|intros c []].
Qed.

Lemma frame_one_call {A} (m : CM VS A) c :
  is_open_call_of o c = false -> is_close_call_of o c = false ->
  (forall s, st_links (snd (m s)) = st_links s /\
             st_trace (snd (m s)) = st_trace s ++ [c]) ->
  frame o m.
Proof.
  intros H1 H2 H. apply frame_quiet. intro s. destruct (H s) as [Hl Ht].
  split; [exact Hl|]. exists [c]. split; [exact Ht|]. intros c' [<-|[]]. auto.
Qed.

Variable V : Venue VS.

Lemma frame_symbol_info sym : frame o (mt5_symbol_info V sym).
Proof. apply (frame_one_call _ (CSymbolInfo sym)); auto. Qed.

Lemma frame_symbol_select sym : frame o (mt5_symbol_select V sym).
Proof.
  apply (frame_one_call _ (CSymbolSelect sym)); auto. intro s.
  unfold mt5_symbol_select. destruct (v_symbol_select V (st_vs s) sym). auto.
Qed.

Lemma frame_symbol_info_tick sym : frame o (mt5_symbol_info_tick V sym).
Proof. apply (frame_one_call _ (CSymbolInfoTick sym)); auto. Qed.

Lemma frame_positions_get t : frame o (mt5_positions_get V t).
Proof. apply (frame_one_call _ (CPositionsGet t)); auto. Qed.

Lemma frame_account_equity : frame o (mt5_account_equity V).
Proof. apply (frame_one_call _ CAccountInfo); auto. Qed.

Lemma frame_get_fill : frame o (get_fill (VS:=VS)).
Proof. apply frame_state_only. auto. Qed.
Lemma frame_set_fill sym m : frame o (set_fill (VS:=VS) sym m).
Proof. apply frame_state_only. auto. Qed.
Lemma frame_get_warned : frame o (get_warned (VS:=VS)).
Proof. apply frame_state_only. auto. Qed.
Lemma frame_add_warned sym : frame o (add_warned (VS:=VS) sym).
Proof. apply frame_state_only. auto. Qed.
Lemma frame_get_equity : frame o (get_equity (VS:=VS)).
Proof. apply frame_state_only. auto. Qed.
Lemma frame_get_links : frame o (get_links (VS:=VS)).
Proof. apply frame_state_only. auto. Qed.
Lemma frame_set_snap sn : frame o (set_snap (VS:=VS) sn).
Proof. apply frame_state_only. auto. Qed.

Lemma eff_order_send r :
  eff o (mt5_order_send V r) (fun _ => True) (open_cnt o r) (close_cnt o r).
Proof.
  intros s Hs. unfold mt5_order_send.
  destruct (v_order_send V (st_vs s) r) as [res vs']. cbn [fst snd].
  split; [exact I|]. split; [exact Hs|]. split; [reflexivity|].
  cbn [log_call st_trace]. rewrite n_open_app, n_close_app.
  unfold open_cnt, close_cnt. cbn [is_open_call_of is_close_call_of].
  destruct (req_comment r); split; reflexivity.
Qed.

Lemma frame_order_send r :
  open_cnt o r = 0%nat -> close_cnt o r = 0%nat -> frame o (mt5_order_send V r).
Proof.
  intros H1 H2. eapply eff_conv; [apply eff_order_send | auto | exact H1 | exact H2].
Qed.

Lemma frame_set_link k l :
  k <> o -> master_order_number l = k -> frame o (set_link (VS:=VS) k l).
Proof.
  intros Hk Hm s [Hnd Hin]. cbn. split; [exact I|]. split.
  - split; [apply NoDup_keys_aset_Z; exact Hnd|].
    intros k' l' H. apply In_aset_Z in H as [H|H]; [inversion H; subst; auto | eauto].
  - rewrite alookup_aset_Z. rewrite (proj2 (Z.eqb_neq o k)) by congruence.
    repeat split; try reflexivity; unfold n_open, n_close; lia.
Qed.

Lemma frame_del_link k : k <> o -> frame o (del_link (VS:=VS) k).
Proof.
  intros Hk s [Hnd Hin]. cbn. split; [exact I|]. split.
  - split; [apply NoDup_keys_adel_Z; exact Hnd|].
    intros k' l' H. apply In_adel_Z in H. eauto.
  - rewrite alookup_adel_other_Z by congruence.
    repeat split; try reflexivity; unfold n_open, n_close; lia.
Qed.

Lemma frame_bind_lookup {B} k (f : option FollowerLink -> CM VS B) :
  (forall l, (forall x, l = Some x -> master_order_number x = k) -> frame o (f l)) ->
  frame o (bind (lookup_link k) f).
Proof.
  intros H s Hs. rewrite bind_eq. cbn [lookup_link fst snd].
  apply H; [|exact Hs]. intros x Hx. destruct Hs as [_ Hin].
  apply Hin. apply alookup_In_Z. exact Hx.
Qed.

End Eff.

Lemma open_cnt_set_filling o r m : open_cnt o (set_filling r m) = open_cnt o r.
Proof. reflexivity. Qed.
Lemma close_cnt_set_filling o r m : close_cnt o (set_filling r m) = close_cnt o r.
Proof. reflexivity. Qed.

Lemma frame_for_each {VS A} o (f : A -> CM VS unit) l :
  (forall x, In x l -> frame o (f x)) -> frame o (for_each f l).
Proof.
  induction l as [|x l IH]; intro H; cbn [for_each]; [apply frame_ret|].
  apply frame_bind; [apply H; now left|]. intros _. apply IH. intros y Hy. apply H. now right.
Qed.

(** Side conditions of the frame rules: order comments and link keys. *)
Ltac frame_side :=
  cbn;
  repeat (match goal with |- context [if ?b then _ else _] => destruct b eqn:? end);
  first
    [ reflexivity
    | assumption
    | congruence
    | match goal with E : (_ =? _) = true |- _ => apply Z.eqb_eq in E end; congruence ].

Create HintDb frame_db.

(** Walk a computation built from [bind], [ret], conditionals and calls
    whose frame lemma is in [frame_db]. *)
Ltac frame_tac :=
  repeat first
    [ progress (match goal with H : forall x, Some ?y = Some x -> _ |- _ =>
                  specialize (H y eq_refl) end)
    | match goal with
      | |- frame _ (bind (lookup_link _) _) =>
          apply frame_bind_lookup; intros ?l ?Hl
      | |- frame _ (bind _ _) => apply frame_bind; [|intros ?; cbv beta zeta]
      | |- frame _ (ret _) => apply frame_ret
      | |- frame _ (if ?b then _ else _) => destruct b
      | |- frame _ (match ?x with _ => _ end) => destruct x
      | |- frame _ _ => solve [eauto with frame_db]
      end ].

#[export] Hint Extern 1 (frame _ (mt5_symbol_info _ _)) => apply frame_symbol_info : frame_db.
#[export] Hint Extern 1 (frame _ (mt5_symbol_select _ _)) => apply frame_symbol_select : frame_db.
#[export] Hint Extern 1 (frame _ (mt5_symbol_info_tick _ _)) => apply frame_symbol_info_tick : frame_db.
#[export] Hint Extern 1 (frame _ (mt5_positions_get _ _)) => apply frame_positions_get : frame_db.
#[export] Hint Extern 1 (frame _ (mt5_account_equity _)) => apply frame_account_equity : frame_db.
#[export] Hint Extern 1 (frame _ get_fill) => apply frame_get_fill : frame_db.
#[export] Hint Extern 1 (frame _ (set_fill _ _)) => apply frame_set_fill : frame_db.
#[export] Hint Extern 1 (frame _ get_warned) => apply frame_get_warned : frame_db.
#[export] Hint Extern 1 (frame _ (add_warned _)) => apply frame_add_warned : frame_db.
#[export] Hint Extern 1 (frame _ get_equity) => apply frame_get_equity : frame_db.
#[export] Hint Extern 1 (frame _ get_links) => apply frame_get_links : frame_db.
#[export] Hint Extern 1 (frame _ (set_snap _)) => apply frame_set_snap : frame_db.
#[export] Hint Extern 1 (frame _ (mt5_order_send _ _)) =>
  apply frame_order_send; frame_side : frame_db.
#[export] Hint Extern 1 (frame _ (set_link _ _)) => apply frame_set_link; frame_side : frame_db.
#[export] Hint Extern 1 (frame _ (del_link _)) => apply frame_del_link; frame_side : frame_db.

Section Frames.
Context {VS : Type} (V : Venue VS) (cfg : Config) (o : Z).

Lemma frame_map_symbol sym : frame o (map_symbol (VS:=VS) cfg sym).
Proof. unfold map_symbol. frame_tac. Qed.

Lemma frame_symbol_prepare sym : frame o (mt5_symbol_prepare V cfg sym).
Proof. unfold mt5_symbol_prepare. frame_tac. Qed.

Lemma frame_current_prices sym : frame o (mt5_current_prices V cfg sym).
Proof. unfold mt5_current_prices. frame_tac. Qed.

Lemma frame_calc_equity_ratio : frame o (calc_equity_ratio V cfg).
Proof. unfold calc_equity_ratio. frame_tac. Qed.

#[local] Hint Extern 1 (frame _ (map_symbol _ _)) => apply frame_map_symbol : frame_db.
#[local] Hint Extern 1 (frame _ (mt5_symbol_prepare _ _ _)) => apply frame_symbol_prepare : frame_db.
#[local] Hint Extern 1 (frame _ (mt5_current_prices _ _ _)) => apply frame_current_prices : frame_db.
#[local] Hint Extern 1 (frame _ (calc_equity_ratio _ _)) => apply frame_calc_equity_ratio : frame_db.

Lemma frame_convert ms amt fs : frame o (convert_master_amount_to_lots V cfg ms amt fs).
Proof. unfold convert_master_amount_to_lots. frame_tac. Qed.

Lemma frame_normalize_lot sym lots : frame o (normalize_lot V cfg sym lots).
Proof. unfold normalize_lot. frame_tac. Qed.

Lemma frame_validate_stops sym sd d sl tp e :
  frame o (validate_stops_for_mt5 V cfg sym sd d sl tp e).
Proof. unfold validate_stops_for_mt5. frame_tac. Qed.

Lemma frame_pick sym : frame o (pick_filling_mode V cfg sym).
Proof. unfold pick_filling_mode. frame_tac. Qed.

#[local] Hint Extern 1 (frame _ (convert_master_amount_to_lots _ _ _ _ _)) => apply frame_convert : frame_db.
#[local] Hint Extern 1 (frame _ (normalize_lot _ _ _ _)) => apply frame_normalize_lot : frame_db.
#[local] Hint Extern 1 (frame _ (validate_stops_for_mt5 _ _ _ _ _ _ _ _)) => apply frame_validate_stops : frame_db.
#[local] Hint Extern 1 (frame _ (pick_filling_mode _ _ _)) => apply frame_pick : frame_db.

Lemma frame_try_modes r sym :
  open_cnt o r = 0%nat -> close_cnt o r = 0%nat ->
  forall rest mode, frame o (try_modes V r sym mode rest).
Proof.
  intros H1 H2. induction rest as [|m rest IH]; intro mode; cbn [try_modes].
  - frame_tac.
  - frame_tac.
Qed.

Lemma frame_osf r sym :
  open_cnt o r = 0%nat -> close_cnt o r = 0%nat ->
  frame o (order_send_with_fallback V cfg r sym).
Proof.
  intros H1 H2. unfold order_send_with_fallback. frame_tac. apply frame_try_modes; assumption.
Qed.

#[local] Hint Extern 1 (frame _ (order_send_with_fallback _ _ _ _)) =>
  apply frame_osf; frame_side : frame_db.

Lemma frame_open_trade mp lots sl tp :
  order_number mp <> o -> frame o (mt5_open_trade V cfg mp lots sl tp).
Proof. intro Hne. unfold mt5_open_trade. frame_tac. Qed.

Lemma frame_close_trade link :
  master_order_number link <> o -> frame o (mt5_close_trade V cfg link).
Proof. intro Hne. unfold mt5_close_trade. frame_tac. Qed.

#[local] Hint Extern 1 (frame _ (mt5_open_trade _ _ _ _ _ _)) =>
  apply frame_open_trade; frame_side : frame_db.
#[local] Hint Extern 1 (frame _ (mt5_close_trade _ _ _)) =>
  apply frame_close_trade; frame_side : frame_db.

Lemma frame_adjust_volume link n :
  master_order_number link <> o -> frame o (mt5_adjust_volume V cfg link n).
Proof. intro Hne. unfold mt5_adjust_volume. frame_tac. Qed.

Lemma frame_update_stops link sl tp : frame o (mt5_update_stops V cfg link sl tp).
Proof. unfold mt5_update_stops. frame_tac. Qed.

#[local] Hint Extern 1 (frame _ (mt5_adjust_volume _ _ _ _)) =>
  apply frame_adjust_volume; frame_side : frame_db.
#[local] Hint Extern 1 (frame _ (mt5_update_stops _ _ _ _ _)) =>
  apply frame_update_stops : frame_db.

Lemma frame_open_follower mp :
  order_number mp <> o -> frame o (open_follower_for_master V cfg mp).
Proof. intro Hne. unfold open_follower_for_master. frame_tac. Qed.

Lemma frame_close_follower k :
  k <> o -> frame o (close_follower_for_master V cfg k).
Proof. intro Hne. unfold close_follower_for_master. frame_tac. Qed.

#[local] Hint Extern 1 (frame _ (open_follower_for_master _ _ _)) =>
  apply frame_open_follower; frame_side : frame_db.

Lemma frame_adjust_follower mp :
  order_number mp <> o -> frame o (adjust_follower_for_master V cfg mp).
Proof. intro Hne. unfold adjust_follower_for_master. frame_tac. Qed.

Lemma frame_update_follower_stops mp :
  order_number mp <> o -> frame o (update_follower_stops_for_master V cfg mp).
Proof. intro Hne. unfold update_follower_stops_for_master. frame_tac. Qed.

#[local] Hint Extern 1 (frame _ (adjust_follower_for_master _ _ _)) =>
  apply frame_adjust_follower; frame_side : frame_db.
#[local] Hint Extern 1 (frame _ (update_follower_stops_for_master _ _ _)) =>
  apply frame_update_follower_stops; frame_side : frame_db.

Lemma frame_process_entry prev k mp :
  order_number mp <> o -> frame o (process_entry V cfg prev k mp).
Proof. intro Hne. unfold process_entry. frame_tac. Qed.

End Frames.

Lemma qle_pos_false (a : Q) : (0 < a)%Q -> qle a 0 = false.
Proof.
  intro H. destruct (qle a 0) eqn:E; [|reflexivity].
  apply qle_true in E. exfalso. apply (Qlt_not_le _ _ H E).
Qed.

Lemma q_or_pos (x d : Q) : (0 <= x)%Q -> (0 < d)%Q -> (0 < q_or x d)%Q.
Proof.
  intros Hx Hd. unfold q_or. destruct (qeq x 0) eqn:E; [exact Hd|].
  apply Qle_lteq in Hx as [Hx|Hx]; [exact Hx|].
  exfalso. assert (qeq x 0 = true) by (apply qeq_true; symmetry; exact Hx). congruence.
Qed.

Section Success.
Context {VS : Type} (V : Venue VS) (cfg : Config) (o : Z).
Hypothesis Hdry : dry_run cfg = false.
Hypothesis Hok : venue_all_ok V.

Lemma eff_of_frame {A} (m : CM VS A) (Q : A -> Prop) :
  frame o m -> (forall s, links_inv s -> Q (fst (m s))) -> eff o m Q 0 0.
Proof. intros Hf HQ s Hs. destruct (Hf s Hs) as [_ R]. split; [apply HQ, Hs | exact R]. Qed.

Lemma eff_frame_bind {A B} (m : CM VS A) (k : A -> CM VS B) Q d c :
  frame o m -> (forall a, eff o (k a) Q d c) -> eff o (bind m k) Q d c.
Proof. intros Hm Hk. exact (eff_bind o m k _ Q 0 0 d c Hm (fun a _ => Hk a)). Qed.

Lemma eff_symbol_info_ok sym :
  eff o (mt5_symbol_info V sym)
    (fun r => exists i, r = Some i /\ visible i = true /\ (0 <= volume_min i)%Q) 0 0.
Proof.
  apply eff_of_frame; [apply frame_symbol_info|]. intros s _.
  destruct (proj1 Hok (st_vs s) sym) as [i [Hi [Hv Hm]]].
  exists i. cbn. rewrite Hi. auto.
Qed.

Lemma eff_prices_ok sym :
  eff o (mt5_current_prices V cfg sym)
    (fun p => exists bid ask, p = (Some bid, Some ask) /\ (0 < bid)%Q /\ (0 < ask)%Q) 0 0.
Proof.
  apply eff_of_frame; [apply frame_current_prices|]. intros s _.
  destruct (proj1 (proj2 Hok) (st_vs s) sym) as [bid [ask [Ht [Hb Ha]]]].
  exists bid, ask. unfold mt5_current_prices. rewrite Hdry, bind_eq. cbn. rewrite Ht. auto.
Qed.

Lemma eff_positions_ok t :
  eff o (mt5_positions_get V t) (fun r => exists v, r = Some v) 0 0.
Proof.
  apply eff_of_frame; [apply frame_positions_get|]. intros s _.
  destruct (proj1 (proj2 (proj2 Hok)) (st_vs s) t) as [v Hv].
  exists v. cbn. exact Hv.
Qed.

Lemma eff_prepare_ok sym :
  eff o (mt5_symbol_prepare V cfg sym) (fun b => b = true) 0 0.
Proof.
  apply eff_of_frame; [apply frame_symbol_prepare|]. intros s _.
  destruct (proj1 Hok (st_vs s) sym) as [i [Hi [Hv Hm]]].
  unfold mt5_symbol_prepare. rewrite Hdry, bind_eq. cbn. rewrite Hi, Hv. reflexivity.
Qed.

Lemma eff_normalize_ok sym lots :
  eff o (normalize_lot V cfg sym lots) (fun l => (0 < l)%Q) 0 0.
Proof.
  apply eff_of_frame; [apply frame_normalize_lot|]. intros s _.
  destruct (proj1 Hok (st_vs s) sym) as [i [Hi [Hv Hm]]].
  unfold normalize_lot. rewrite Hdry, bind_eq. cbn [fst mt5_symbol_info]. rewrite Hi.
  cbn [fst ret]. eapply Qlt_le_trans; [|apply py_max_ge_l].
  apply q_or_pos; [exact Hm|reflexivity].
Qed.

Lemma eff_order_send_ok r :
  eff o (mt5_order_send V r) (fun res => retcode res = TRADE_RETCODE_DONE)
    (open_cnt o r) (close_cnt o r).
Proof.
  intros s Hs. destruct (eff_order_send o V r s Hs) as [_ R]. split; [|exact R].
  pose proof (proj2 (proj2 (proj2 Hok)) (st_vs s) r) as Hr.
  unfold mt5_order_send. destruct (v_order_send V (st_vs s) r). exact Hr.
Qed.

Lemma eff_try_modes_ok r sym mode rest :
  eff o (try_modes V r sym mode rest) (fun res => retcode res = TRADE_RETCODE_DONE)
    (open_cnt o r) (close_cnt o r).
Proof.
  assert (E : try_modes V r sym mode rest =
              bind (mt5_order_send V (set_filling r mode)) (fun result =>
                if retcode result =? RETCODE_INVALID_FILL then
                  match rest with
                  | [] => ret result
                  | mode' :: rest' => try_modes V r sym mode' rest'
                  end
                else
                  bind (if is_done_placed_partial (retcode result)
                        then set_fill sym mode else ret tt) (fun _ => ret result)))
    by (destruct rest; reflexivity).
  rewrite E. eapply eff_conv; [eapply eff_bind; [apply eff_order_send_ok|]| |
    rewrite open_cnt_set_filling, Nat.add_0_r; reflexivity |
    rewrite close_cnt_set_filling, Nat.add_0_r; reflexivity].
  - intros res Hres. rewrite Hres. cbn -[set_fill].
    apply eff_frame_bind; [apply frame_set_fill|]. intros _. apply eff_ret. exact Hres.
  - auto.
Qed.

Lemma eff_osf_ok r sym :
  eff o (order_send_with_fallback V cfg r sym)
    (fun res => retcode res = TRADE_RETCODE_DONE) (open_cnt o r) (close_cnt o r).
Proof.
  unfold order_send_with_fallback. rewrite Hdry.
  apply eff_frame_bind; [apply frame_pick|]. intro m0. apply eff_try_modes_ok.
Qed.

Lemma eff_bind0 {A B} (m : CM VS A) (k : A -> CM VS B) P Q d c :
  eff o m P 0 0 -> (forall a, P a -> eff o (k a) Q d c) -> eff o (bind m k) Q d c.
Proof. intros Hm Hk. exact (eff_bind o m k P Q 0 0 d c Hm Hk). Qed.

Lemma eff_counts {A} (m : CM VS A) Q d c d' c' :
  eff o m Q d c -> d = d' -> c = c' -> eff o m Q d' c'.
Proof. intros H <- <-. exact H. Qed.

Lemma eff_open_trade_ok mp lots sl tp :
  order_number mp = o ->
  eff o (mt5_open_trade V cfg mp lots sl tp) (fun r => exists t, r = inl t) 1 0.
Proof.
  intro Ho. unfold mt5_open_trade.
  apply eff_frame_bind; [apply frame_map_symbol|]. intro sym.
  eapply eff_bind0; [apply eff_prepare_ok|]. intros ok ->. cbn [negb].
  eapply eff_bind0; [apply eff_normalize_ok|]. intros l Hl.
  rewrite (qle_pos_false l Hl). cbn [negb].
  eapply eff_bind0; [apply eff_prices_ok|]. intros p [bid [ask [-> [Hb Ha]]]].
  rewrite (qle_pos_false bid Hb), (qle_pos_false ask Ha). cbn [orb].
  apply eff_frame_bind;
    [destruct (copy_stops cfg); [apply frame_validate_stops | apply frame_ret]|].
  intro stops. rewrite Hdry.
  eapply eff_counts; [eapply eff_bind; [apply eff_osf_ok|] | |].
  - intros res Hres. rewrite Hres. cbn. apply eff_ret. eexists. reflexivity.
  - cbn. rewrite Ho, Z.eqb_refl. reflexivity.
  - reflexivity.
Qed.

Lemma eff_close_trade_ok link :
  master_order_number link = o ->
  eff o (mt5_close_trade V cfg link) (fun b => b = true) 0 1.
Proof.
  intro Hm. unfold mt5_close_trade.
  eapply eff_bind0; [apply eff_prepare_ok|]. intros ok ->. cbn [negb]. rewrite Hdry.
  eapply eff_bind0; [apply eff_positions_ok|]. intros r [v ->].
  eapply eff_bind0; [apply eff_prices_ok|]. intros p [bid [ask [-> [Hb Ha]]]].
  rewrite (qle_pos_false bid Hb), (qle_pos_false ask Ha). cbn [orb].
  eapply eff_counts; [eapply eff_bind; [apply eff_osf_ok|] | |].
  - intros res Hres. rewrite Hres. cbn. apply eff_ret. reflexivity.
  - reflexivity.
  - cbn. rewrite Hm, Z.eqb_refl. reflexivity.
Qed.

(** [eff] read at one state. *)
Lemma eff_at {A} (m : CM VS A) Q d c s :
  eff o m Q d c -> links_inv s ->
  exists a s1, m s = (a, s1) /\ Q a /\ links_inv s1 /\
    alookup Z.eqb o (st_links s1) = alookup Z.eqb o (st_links s) /\
    n_open o (st_trace s1) = (n_open o (st_trace s) + d)%nat /\
    n_close o (st_trace s1) = (n_close o (st_trace s) + c)%nat.
Proof.
  intros H Hs. exists (fst (m s)), (snd (m s)).
  split; [destruct (m s); reflexivity | apply H, Hs].
Qed.

Lemma open_follower_o mp s :
  order_number mp = o -> links_inv s ->
  let s' := snd (open_follower_for_master V cfg mp s) in
  links_inv s' /\ (exists x, alookup Z.eqb o (st_links s') = Some x) /\
  n_open o (st_trace s') = S (n_open o (st_trace s)) /\
  n_close o (st_trace s') = n_close o (st_trace s).
Proof.
  intros Ho Hs. cbv zeta. unfold open_follower_for_master.
  rewrite bind_eq.
  destruct (eff_at _ _ _ _ s (frame_map_symbol cfg o (symbol mp)) Hs)
    as [sym [s1 [E1 [_ [H1 [_ [O1 C1]]]]]]].
  rewrite E1. cbn [fst snd]. rewrite bind_eq.
  destruct (eff_at _ _ _ _ s1 (frame_convert V cfg o (symbol mp) (amount mp) sym) H1)
    as [lots [s2 [E2 [_ [H2 [_ [O2 C2]]]]]]].
  rewrite E2. cbn [fst snd]. rewrite bind_eq.
  destruct (eff_at _ _ _ _ s2
              (eff_open_trade_ok mp lots (stop_loss mp) (take_profit mp) Ho) H2)
    as [t [s3 [E3 [[t' ->] [[Hnd Hin] [_ [O3 C3]]]]]]].
  rewrite E3. cbn [fst snd set_link with_links st_links st_trace].
  rewrite Ho. split; [split|split; [|split]].
  - apply NoDup_keys_aset_Z. exact Hnd.
  - intros k l H. apply In_aset_Z in H as [H|H]; [inversion H; reflexivity | eauto].
  - eexists. rewrite alookup_aset_Z, Z.eqb_refl. reflexivity.
  - rewrite O3, O2, O1. lia.
  - rewrite C3, C2, C1. lia.
Qed.

Lemma close_follower_o s x :
  close_on_master_close cfg = true -> links_inv s ->
  alookup Z.eqb o (st_links s) = Some x ->
  let s' := snd (close_follower_for_master V cfg o s) in
  links_inv s' /\ alookup Z.eqb o (st_links s') = None /\
  n_open o (st_trace s') = n_open o (st_trace s) /\
  n_close o (st_trace s') = S (n_close o (st_trace s)).
Proof.
  intros Hc Hs Hx. cbv zeta. unfold close_follower_for_master.
  rewrite Hc. cbn [negb]. rewrite bind_eq. cbn [lookup_link fst snd]. rewrite Hx.
  assert (Hm : master_order_number x = o)
    by (apply (proj2 Hs); apply alookup_In_Z; exact Hx).
  rewrite Hdry. cbn [andb]. rewrite bind_eq.
  destruct (eff_at _ _ _ _ s (eff_close_trade_ok x Hm) Hs)
    as [b [s1 [E1 [-> [[Hnd Hin] [_ [O1 C1]]]]]]].
  rewrite E1. cbn [fst snd del_link with_links st_links st_trace].
  split; [split|split; [|split]].
  - apply NoDup_keys_adel_Z. exact Hnd.
  - intros k l H. apply In_adel_Z in H. eauto.
  - apply alookup_adel_same_Z. exact Hnd.
  - rewrite O1. lia.
  - rewrite C1. lia.
Qed.

End Success.

Lemma zmem_In k l : zmem k l = true <-> In k l.
Proof.
  unfold zmem. rewrite existsb_exists. split.
  - intros [x [Hx E]]. apply Z.eqb_eq in E. subst. exact Hx.
  - intro H. exists k. split; [exact H|apply Z.eqb_refl].
Qed.

Lemma closed_ids_In prev new k :
  In k (closed_ids prev new) <-> In k (map fst prev) /\ ~ In k (map fst new).
Proof.
  unfold closed_ids. rewrite filter_In. rewrite <- (zmem_In k (map fst new)).
  destruct (zmem k (map fst new)); cbn; intuition congruence.
Qed.

Lemma closed_ids_NoDup prev new :
  NoDup (map fst prev) -> NoDup (closed_ids prev new).
Proof. intro H. apply NoDup_filter. exact H. Qed.

Lemma frame_obs {VS A} o (m : CM VS A) s :
  frame o m -> links_inv s -> links_inv (snd (m s)) /\ obs o (snd (m s)) = obs o s.
Proof.
  intros H Hs. destruct (H s Hs) as [_ [Hi [Hl [Ho Hc]]]]. split; [exact Hi|].
  unfold obs. rewrite Hl, Ho, Hc, !Nat.add_0_r. reflexivity.
Qed.

(** A loop in which exactly one element, [x0], concerns order [o]. *)
Lemma for_each_single {VS A} o (f : A -> CM VS unit) (key : A -> Z) l x0
  (R : option FollowerLink * nat * nat -> option FollowerLink * nat * nat -> Prop) :
  NoDup (map key l) -> In x0 l -> key x0 = o ->
  (forall s, links_inv s -> links_inv (snd (f x0 s)) /\ R (obs o s) (obs o (snd (f x0 s)))) ->
  (forall x, In x l -> key x <> o -> frame o (f x)) ->
  forall s, links_inv s ->
    links_inv (snd (for_each f l s)) /\ R (obs o s) (obs o (snd (for_each f l s))).
Proof.
  intros Hnd Hin Hk Hx0 Hfr. induction l as [|x l IH]; [destruct Hin|].
  intros s Hs. cbn [for_each]. rewrite bind_eq. inversion Hnd as [|? ? Hnot Hnd']; subst.
  destruct (Z.eq_dec (key x) (key x0)) as [E|E].
  - assert (x = x0) as ->.
    { destruct Hin as [Hin|Hin]; [exact Hin|].
      exfalso. apply Hnot. rewrite E. apply in_map. exact Hin. }
    destruct (Hx0 s Hs) as [H1 R1].
    assert (Hf : frame (key x0) (for_each f l)).
    { apply frame_for_each. intros y Hy. apply Hfr; [now right|].
      intro Ey. apply Hnot. rewrite <- Ey. apply in_map. exact Hy. }
    destruct (frame_obs _ _ _ Hf H1) as [H2 E2]. rewrite E2. auto.
  - assert (Hin' : In x0 l) by (destruct Hin as [<-|Hin]; [congruence|exact Hin]).
    assert (Hf : frame (key x0) (f x)) by (apply Hfr; [now left|congruence]).
    destruct (frame_obs _ _ _ Hf Hs) as [H1 E1].
    destruct (IH Hnd' Hin' (fun y Hy => Hfr y (or_intror Hy)) _ H1) as [H2 R2].
    rewrite E1 in R2. auto.
Qed.

Lemma process_master_changes_eq {VS} (V : Venue VS) cfg new s :
  snd (process_master_changes V cfg new s) =
  with_snap
    (snd (for_each (close_follower_for_master V cfg) (closed_ids (st_snap s) new)
            (snd (for_each (fun '(k, mp) => process_entry V cfg (st_snap s) k mp) new s))))
    new.
Proof.
  unfold process_master_changes. rewrite bind_eq. cbn [get_snap fst snd].
  rewrite !bind_eq. reflexivity.
Qed.

Lemma links_inv_with_snap {VS} (s : St VS) sn : links_inv (with_snap s sn) <-> links_inv s.
Proof. reflexivity. Qed.

Lemma obs_with_snap {VS} o (s : St VS) sn : obs o (with_snap s sn) = obs o s.
Proof. reflexivity. Qed.

Section Ticks.
Context {VS : Type} (V : Venue VS) (cfg : Config) (o : Z).

Lemma entries_frame prev new :
  snap_wf new -> ~ In o (map fst new) ->
  frame o (for_each (fun '(k, mp) => process_entry V cfg prev k mp) new).
Proof.
  intros [_ Hwf] Hn. apply frame_for_each. intros [k mp] Hin.
  apply frame_process_entry. rewrite (Hwf k mp Hin). intros ->.
  apply Hn. apply in_map_iff. exists (o, mp). auto.
Qed.

Lemma closes_frame prev new :
  ~ In o (map fst prev) ->
  frame o (for_each (close_follower_for_master V cfg) (closed_ids prev new)).
Proof.
  intro Hp. apply frame_for_each. intros k Hk. apply closed_ids_In in Hk as [Hk _].
  apply frame_close_follower. intros ->. contradiction.
Qed.

(** A tick on which order [o] is in neither snapshot leaves it alone. *)
Lemma tick_absent new s :
  links_inv s -> ~ In o (map fst (st_snap s)) -> snap_wf new -> ~ In o (map fst new) ->
  let s' := snd (process_master_changes V cfg new s) in
  links_inv s' /\ obs o s' = obs o s /\ st_snap s' = new.
Proof.
  intros Hs Hp Hw Hn. cbv zeta. rewrite process_master_changes_eq.
  rewrite links_inv_with_snap, obs_with_snap.
  destruct (frame_obs _ _ _ (entries_frame (st_snap s) new Hw Hn) Hs) as [H1 E1].
  destruct (frame_obs _ _ _ (closes_frame (st_snap s) new Hp) H1) as [H2 E2].
  split; [exact H2|]. split; [congruence|reflexivity].
Qed.

Hypothesis Hdry : dry_run cfg = false.
Hypothesis Hok : venue_all_ok V.

(** The tick on which order [o] appears opens one follower position. *)
Lemma tick_open new mp s :
  links_inv s -> ~ In o (map fst (st_snap s)) -> snap_wf new ->
  alookup Z.eqb o new = Some mp ->
  let s' := snd (process_master_changes V cfg new s) in
  links_inv s' /\ (exists x, alookup Z.eqb o (st_links s') = Some x) /\
  n_open o (st_trace s') = S (n_open o (st_trace s)) /\
  n_close o (st_trace s') = n_close o (st_trace s) /\ st_snap s' = new.
Proof.
  intros Hs Hp [Hnd Hwf] Hmp. cbv zeta. rewrite process_master_changes_eq.
  rewrite links_inv_with_snap.
  assert (Ho : order_number mp = o) by (apply Hwf; apply alookup_In_Z; exact Hmp).
  destruct (for_each_single o (fun '(k, mp) => process_entry V cfg (st_snap s) k mp) fst
              new (o, mp)
              (fun a b => (exists x, fst (fst b) = Some x) /\
                          snd (fst b) = S (snd (fst a)) /\ snd b = snd a)
              Hnd (alookup_In_Z _ _ _ Hmp) eq_refl)
    with (s := s) as [H1 [[x Hx] [O1 C1]]]; [| | exact Hs |].
  - intros s0 H0. cbn beta iota. unfold process_entry.
    rewrite (alookup_None_Z o (st_snap s) Hp).
    destruct (open_follower_o V cfg o Hdry Hok mp s0 Ho H0) as [A [[x Hx] [B C]]].
    split; [exact A|]. unfold obs. cbn [fst snd]. eauto.
  - intros [k mp'] Hin Hk. cbn in Hk. apply frame_process_entry.
    rewrite (Hwf k mp' Hin). exact Hk.
  - destruct (frame_obs _ _ _ (closes_frame (st_snap s) new Hp) H1) as [H2 E2].
    unfold obs in *. cbn [fst snd] in *. injection E2 as L2 N2 K2.
    split; [exact H2|]. cbn [st_links st_trace st_snap with_snap].
    rewrite L2, N2, K2. eauto.
Qed.

(** The tick on which order [o] disappears closes its follower position and
    drops its link. *)
Lemma tick_close new s x :
  close_on_master_close cfg = true ->
  links_inv s -> snap_wf (st_snap s) -> In o (map fst (st_snap s)) ->
  alookup Z.eqb o (st_links s) = Some x -> snap_wf new -> ~ In o (map fst new) ->
  let s' := snd (process_master_changes V cfg new s) in
  links_inv s' /\ alookup Z.eqb o (st_links s') = None /\
  n_open o (st_trace s') = n_open o (st_trace s) /\
  n_close o (st_trace s') = S (n_close o (st_trace s)).
Proof.
  intros Hc Hs [Hndp _] Hp Hx Hw Hn. cbv zeta. rewrite process_master_changes_eq.
  rewrite links_inv_with_snap.
  destruct (frame_obs _ _ _ (entries_frame (st_snap s) new Hw Hn) Hs) as [H1 E1].
  unfold obs in E1. injection E1 as L1 N1 K1.
  destruct (for_each_single o (close_follower_for_master V cfg) (fun k => k)
              (closed_ids (st_snap s) new) o
              (fun a b => forall x, fst (fst a) = Some x ->
                 fst (fst b) = None /\ snd (fst b) = snd (fst a) /\ snd b = S (snd a)))
    with (s := snd (for_each (fun '(k, mp) => process_entry V cfg (st_snap s) k mp) new s))
    as [H2 R2]; [| | reflexivity | | | exact H1 |].
  - rewrite map_id. apply closed_ids_NoDup. exact Hndp.
  - apply closed_ids_In. auto.
  - intros s0 H0. destruct (alookup Z.eqb o (st_links s0)) as [y|] eqn:Hy.
    + destruct (close_follower_o V cfg o Hdry Hok s0 y Hc H0 Hy) as [A [B [C D]]].
      split; [exact A|]. intros y' _. unfold obs. cbn [fst snd]. auto.
    + split.
      * unfold close_follower_for_master. rewrite Hc. cbn [negb].
        rewrite bind_eq. cbn [lookup_link fst snd]. rewrite Hy. exact H0.
      * intros y' Hy'. unfold obs in Hy'. cbn [fst] in Hy'. congruence.
  - intros k _ Hk. apply frame_close_follower. exact Hk.
  - unfold obs in R2. cbn [fst snd] in R2. rewrite L1, N1, K1 in R2.
    destruct (R2 x Hx) as [A [B C]]. split; [exact H2|].
    cbn [st_links st_trace with_snap]. auto.
Qed.

End Ticks.

(** C4 (open-then-close round trip). Master order [o] is absent from the
    snapshot of tick 1 (and from the one before it), present in the
    snapshot of tick 2 and absent from the snapshot of tick 3. The run is
    live ([dry_run] off), closing on master close is on, every call into
    the terminal succeeds, and the snapshots are as [build_master_snapshot]
    makes them. Then the three ticks of [process_master_changes] send
    exactly one open order ([CopyOpen o]) and exactly one close order
    ([CloseCopy o]) for [o], and after tick 3 [link_map] has no entry for
    [o]. This holds for any amount and side of the position of tick 2,
    in particular amount 1.0 and side Buy. *)
Theorem open_close_round_trip {VS} (V : Venue VS) (cfg : Config) (o : Z)
  (sn1 sn2 sn3 : list (Z * MasterPosition)) (mp : MasterPosition) (s0 : St VS) :
  dry_run cfg = false -> close_on_master_close cfg = true -> venue_all_ok V ->
  links_inv s0 -> ~ In o (map fst (st_snap s0)) ->
  snap_wf sn1 -> ~ In o (map fst sn1) ->
  snap_wf sn2 -> alookup Z.eqb o sn2 = Some mp ->
  snap_wf sn3 -> ~ In o (map fst sn3) ->
  let s1 := snd (process_master_changes V cfg sn1 s0) in
  let s2 := snd (process_master_changes V cfg sn2 s1) in
  let s3 := snd (process_master_changes V cfg sn3 s2) in
  n_open o (st_trace s3) = S (n_open o (st_trace s0)) /\
  n_close o (st_trace s3) = S (n_close o (st_trace s0)) /\
  alookup Z.eqb o (st_links s3) = None.
Proof.
  intros Hdry Hc Hok Hs0 Hp0 W1 N1 W2 M2 W3 N3. cbv zeta.
  destruct (tick_absent V cfg o sn1 s0 Hs0 Hp0 W1 N1) as [Hs1 [E1 P1]].
  destruct (tick_open V cfg o Hdry Hok sn2 mp _ Hs1 ltac:(rewrite P1; exact N1) W2 M2)
    as [Hs2 [[x Hx] [O2 [C2 P2]]]].
  destruct (tick_close V cfg o Hdry Hok sn3 _ x Hc Hs2 ltac:(rewrite P2; exact W2)
              ltac:(rewrite P2; apply alookup_Some_key_Z with mp; exact M2) Hx W3 N3)
    as [_ [L3 [O3 C3]]].
  unfold obs in E1. injection E1 as _ EO1 EC1.
  rewrite O3, O2, EO1, C3, C2, EC1. auto.
Qed.

Lemma venue_ok_all_ok pos : venue_all_ok (venue_ok (Some pos) None).
Proof.
  split; [|split; [|split]].
  - intros vs sym. exists info_fx. cbn. split; [reflexivity|]. split; [reflexivity|].
    unfold Qle; cbn; lia.
  - intros vs sym. exists (11#10), (11#10). cbn. split; [reflexivity|].
    split; unfold Qlt; cbn; lia.
  - intros vs t. exists pos. reflexivity.
  - intros vs r. reflexivity.
Qed.

Lemma open_close_round_trip_witness :
  let V := venue_ok (Some 1%Q) None in
  let s0 := init_st [] [] None in
  let sn2 := [(5, buy_one 5)] in
  let s1 := snd (process_master_changes V source_config [] s0) in
  let s2 := snd (process_master_changes V source_config sn2 s1) in
  let s3 := snd (process_master_changes V source_config [] s2) in
  n_open 5 (st_trace s3) = S (n_open 5 (st_trace s0)) /\
  n_close 5 (st_trace s3) = S (n_close 5 (st_trace s0)) /\
  alookup Z.eqb 5 (st_links s3) = None.
Proof.
  assert (Ww : forall sn : list (Z * MasterPosition), sn = [] \/ sn = [(5, buy_one 5)] -> snap_wf sn).
  { intros sn [-> | ->]; split.
    - constructor.
    - intros k mp [].
    - repeat constructor. intros [].
    - intros k mp [H|[]]. inversion H. reflexivity. }
  apply (open_close_round_trip (venue_ok (Some 1%Q) None) source_config 5 [] [(5, buy_one 5)] []
           (buy_one 5) (init_st [] [] None)).
  - reflexivity.
  - reflexivity.
  - apply venue_ok_all_ok.
  - split; [constructor | intros k l []].
  - intros [].
  - apply Ww. now left.
  - intros [].
  - apply Ww. now right.
  - reflexivity.
  - apply Ww. now left.
  - intros [].
Defined.

(** ** Instances of the claims' theorems *)

Lemma normalize_lot_clamps_up_to_min_witness :
  dry_run source_config = false /\
  (volume_min info_fx <=
   fst (normalize_lot (venue_ok None None) source_config "EURUSD" (1#1000)
          (init_st [] [] None)))%Q.
Proof.
  split; [reflexivity|].
  apply (proj1 (normalize_lot_clamps_up_to_min (venue_ok None None) source_config
                  eq_refl)); reflexivity.
Defined.

Lemma validate_stops_drop_and_round_witness :
  fst (validate_stops_for_mt5 (venue_ok None None) source_config "EURUSD" 0
         (if true then 1 else 0) (Some 1%Q) (Some (110005#100000)) (11#10)
         (init_st [] [] None)) =
  (spec_level true true (inject_Z (stop_level info_fx) * point info_fx) (11#10) 5
     (Some 1%Q),
   spec_level false true (inject_Z (stop_level info_fx) * point info_fx) (11#10) 5
     (Some (110005#100000))).
Proof.
  apply (validate_stops_drop_and_round (venue_ok None None) source_config "EURUSD" 0 true
           (Some 1%Q) (Some (110005#100000)) (11#10) (init_st [] [] None) info_fx 5);
    try reflexivity; lia.
Defined.

Lemma equity_ratio_sizing_witness :
  fst (convert_master_amount_to_lots (venue_ok None (Some (2000#1)))
         (with_volume_mode source_config VM_equity_ratio) "EURUSD" (100000#1) "EURUSD"
         (init_st [] [] (Some (1000#1)))) =
  py_max (base_lots (with_volume_mode source_config VM_equity_ratio) "EURUSD"
            (100000#1) "EURUSD" *
          equity_ratio_amended (Some (2000#1)) (Some (1000#1))) 0.
Proof.
  apply (equity_ratio_sizing (venue_ok None (Some (2000#1)))
           (with_volume_mode source_config VM_equity_ratio) "EURUSD" (100000#1) "EURUSD"
           (init_st [] [] (Some (1000#1)))).
  reflexivity.
Defined.

Lemma rediff_idempotent_witness :
  let s := init_st [] [(5, mp_eurusd 5 (100000#1))] None in
  process_master_changes (venue_ok None None) source_config
    [(5, mp_eurusd 5 (100000#1))] s = (tt, with_snap s [(5, mp_eurusd 5 (100000#1))]) /\
  st_trace (snd (process_master_changes (venue_ok None None) source_config
                   [(5, mp_eurusd 5 (100000#1))] s)) = st_trace s /\
  st_links (snd (process_master_changes (venue_ok None None) source_config
                   [(5, mp_eurusd 5 (100000#1))] s)) = st_links s.
Proof.
  apply rediff_idempotent.
  - split.
    + intros k Hk. exact Hk.
    + intros k mp [H|[]]. inversion H; subst.
      exists (mp_eurusd 5 (100000#1)). repeat split; reflexivity.
  - unfold Qle. cbn. lia.
Defined.
(** ** Further properties of the copier *)

Lemma py_max_le (a b c : Q) : (a <= c)%Q -> (b <= c)%Q -> (py_max a b <= c)%Q.
Proof. unfold py_max. destruct (qlt a b); auto. Qed.

Lemma py_min_le_l (a b : Q) : (py_min a b <= a)%Q.
Proof.
  unfold py_min. destruct (qlt b a) eqn:E; [|apply Qle_refl].
  apply qlt_true in E. now apply Qlt_le_weak.
Qed.

Lemma py_min_le_r (a b : Q) : (py_min a b <= b)%Q.
Proof.
  unfold py_min. destruct (qlt b a) eqn:E; [apply Qle_refl|].
  apply qlt_false in E. exact E.
Qed.

Lemma floor_step_le (x st : Q) : (0 < st)%Q -> (inject_Z (Qfloor (x / st)) * st <= x)%Q.
Proof.
  intro H. apply Qle_trans with ((x / st) * st)%Q.
  - apply Qmult_le_compat_r; [apply Qfloor_le | now apply Qlt_le_weak].
  - rewrite Qmult_comm, Qmult_div_r; [apply Qle_refl|].
    intro E. rewrite E in H. discriminate H.
Qed.

(** X1. In live mode, when the terminal reports symbol info, [normalize_lot]
    returns a volume between the minimum and the maximum volume (each with
    its [or] default), and never more than the request once the request
    reaches the minimum: it rounds down to the volume step. *)
Theorem normalize_lot_within_bounds {VS} (V : Venue VS) (cfg : Config) sym lots s i :
  dry_run cfg = false -> v_symbol_info V (st_vs s) sym = Some i ->
  (0 < q_or (volume_step i) (1#100))%Q ->
  (q_or (volume_min i) (1#100) <= q_or (volume_max i) 100)%Q ->
  (q_or (volume_min i) (1#100) <= fst (normalize_lot V cfg sym lots s))%Q /\
  (fst (normalize_lot V cfg sym lots s) <= q_or (volume_max i) 100)%Q /\
  ((q_or (volume_min i) (1#100) <= lots)%Q ->
   (fst (normalize_lot V cfg sym lots s) <= lots)%Q).
Proof.
  intros Hdry Hi Hst Hmm. unfold normalize_lot. rewrite Hdry, bind_eq.
  cbn [fst snd mt5_symbol_info]. rewrite Hi. cbv zeta. cbn [ret fst].
  split; [apply py_max_ge_l|]. split.
  - apply py_max_le; [exact Hmm | apply py_min_le_r].
  - intro Hl. apply py_max_le; [exact Hl|].
    eapply Qle_trans; [apply py_min_le_l | apply floor_step_le; exact Hst].
Qed.

Lemma normalize_lot_within_bounds_witness :
  (q_or (volume_min info_fx) (1#100) <=
     fst (normalize_lot (venue_ok None None) source_config "EURUSD" (1234#1000)
            (init_st [] [] None)))%Q /\
  (fst (normalize_lot (venue_ok None None) source_config "EURUSD" (1234#1000)
          (init_st [] [] None)) <= q_or (volume_max info_fx) 100)%Q /\
  ((q_or (volume_min info_fx) (1#100) <= 1234#1000)%Q ->
   (fst (normalize_lot (venue_ok None None) source_config "EURUSD" (1234#1000)
           (init_st [] [] None)) <= 1234#1000)%Q).
Proof.
  apply (normalize_lot_within_bounds (venue_ok None None) source_config "EURUSD"
           (1234#1000) (init_st [] [] None) info_fx);
    [reflexivity | reflexivity | reflexivity | unfold Qle; cbn; lia].
Defined.

(** X2. The candidate sequence of [_order_send_with_fallback] is the picked
    mode followed by the other modes of FOK, IOC, RETURN in that order: it
    has no repeated mode and contains all three. *)
Theorem fill_sequence_shape m0 :
  fill_sequence m0 = m0 :: filter (fun m => negb (m =? m0)) default_seq /\
  NoDup (fill_sequence m0) /\ incl default_seq (fill_sequence m0).
Proof.
  rewrite fill_sequence_order. unfold fill_order. split; [reflexivity|].
  unfold default_seq, ORDER_FILLING_FOK, ORDER_FILLING_IOC, ORDER_FILLING_RETURN.
  cbn [filter].
  destruct (Z.eqb_spec 0 m0) as [H0|H0]; destruct (Z.eqb_spec 1 m0) as [H1|H1];
    destruct (Z.eqb_spec 2 m0) as [H2|H2]; try lia; cbn [negb filter];
    (split; [repeat (apply NoDup_cons; [cbn; intuition lia|]); apply NoDup_nil
            | intros x Hx; cbn in Hx |- *; intuition lia]).
Qed.

Lemma reported_filling_In info r :
  reported_filling info = Some r -> In r default_seq.
Proof.
  unfold reported_filling. destruct info as [i|]; [|discriminate].
  destruct (filling_mode i) as [m|]; [|discriminate].
  destruct (zmem m default_seq) eqn:E; [|discriminate].
  intro H; injection H as <-. now apply zmem_In.
Qed.

Lemma pick_cached_eq {VS} (V : Venue VS) cfg sym s m :
  slookup sym (st_fill s) = Some m -> pick_filling_mode V cfg sym s = (m, s).
Proof.
  intro E. unfold pick_filling_mode. rewrite bind_eq. cbn [get_fill fst snd].
  rewrite E. reflexivity.
Qed.

(** X3. [pick_filling_mode] stores the mode it returns in the filling-mode
    cache, so that calling it again on the same symbol returns the same mode
    and changes nothing; a mode it picks for an uncached symbol is one of
    FOK, IOC and RETURN. *)
Theorem pick_filling_mode_cached {VS} (V : Venue VS) (cfg : Config) sym s :
  slookup sym (st_fill (snd (pick_filling_mode V cfg sym s))) =
    Some (fst (pick_filling_mode V cfg sym s)) /\
  pick_filling_mode V cfg sym (snd (pick_filling_mode V cfg sym s)) =
    pick_filling_mode V cfg sym s /\
  (slookup sym (st_fill s) = None ->
   In (fst (pick_filling_mode V cfg sym s)) default_seq).
Proof.
  set (p := pick_filling_mode V cfg sym s).
  enough (H : slookup sym (st_fill (snd p)) = Some (fst p) /\
              (slookup sym (st_fill s) = None -> In (fst p) default_seq)).
  { destruct H as [H1 H2]. split; [exact H1|]. split; [|exact H2].
    rewrite (pick_cached_eq V cfg sym _ _ H1). now destruct p. }
  unfold p, pick_filling_mode. rewrite bind_eq. cbn [get_fill fst snd].
  destruct (slookup sym (st_fill s)) as [m|] eqn:E.
  - cbn [ret fst snd]. split; [exact E|discriminate].
  - rewrite bind_eq.
    set (i := (if dry_run cfg then ret None else mt5_symbol_info V sym) s).
    destruct (reported_filling (fst i)) as [r|] eqn:Er; rewrite bind_eq;
      cbn [set_fill ret fst snd st_fill with_fill];
      (split; [apply slookup_aset_same|intros _]).
    + now apply reported_filling_In in Er.
    + left. reflexivity.
Qed.

Lemma smem_true_In k l : smem k l = true -> In k l.
Proof.
  unfold smem. intro H. apply existsb_exists in H as [x [Hx E]].
  apply String.eqb_eq in E. now subst.
Qed.

(** X5. [map_symbol] changes nothing but the record of warned symbols;
    with [warn_on_unmapped_symbol] on, an unmapped symbol is recorded there,
    and a second call on the same symbol changes nothing, so the warning is
    given once per symbol. *)
Theorem map_symbol_warns_once {VS} (cfg : Config) sym (s : St VS) :
  snd (map_symbol cfg sym s) = with_warned s (st_warned (snd (map_symbol cfg sym s))) /\
  (warn_on_unmapped_symbol cfg = true -> slookup sym (symbol_map cfg) = None ->
   In sym (st_warned (snd (map_symbol cfg sym s)))) /\
  map_symbol cfg sym (snd (map_symbol cfg sym s)) = map_symbol cfg sym s.
Proof.
  unfold map_symbol.
  destruct (slookup sym (symbol_map cfg)) as [m|] eqn:E.
  - cbn [ret fst snd]. destruct s; cbn. repeat split; discriminate.
  - rewrite !bind_eq. cbn [get_warned fst snd].
    destruct (warn_on_unmapped_symbol cfg) eqn:W; cbn [andb].
    + destruct (smem sym (st_warned s)) eqn:M; cbn [negb].
      * cbn [ret fst snd]. destruct s; cbn in *.
        split; [reflexivity|]. split.
        -- intros _ _. now apply smem_true_In.
        -- cbn. rewrite M. reflexivity.
      * cbn [add_warned ret fst snd with_warned st_warned].
        split; [destruct s; reflexivity|].
        split; [intros _ _; apply in_or_app; right; left; reflexivity|].
        cbn [st_warned with_warned].
        assert (M' : smem sym (st_warned s ++ [sym]) = true).
        { unfold smem. rewrite existsb_app. cbn. rewrite String.eqb_refl.
          now rewrite orb_true_r. }
        rewrite M'. cbn [negb ret fst snd]. reflexivity.
    + cbn [ret fst snd]. destruct s; cbn.
      split; [reflexivity|]. split; [discriminate|]. reflexivity.
Qed.

Lemma map_symbol_warns_once_witness :
  let s := init_st [] [] None in
  snd (map_symbol source_config "EURUSD" s) =
    with_warned s (st_warned (snd (map_symbol source_config "EURUSD" s))) /\
  (warn_on_unmapped_symbol source_config = true ->
   slookup "EURUSD" (symbol_map source_config) = None ->
   In "EURUSD"%string (st_warned (snd (map_symbol source_config "EURUSD" s)))) /\
  map_symbol source_config "EURUSD" (snd (map_symbol source_config "EURUSD" s)) =
    map_symbol source_config "EURUSD" s.
Proof.
  cbv zeta. exact (map_symbol_warns_once source_config "EURUSD" (init_st [] [] None)).
Defined.

Lemma find_app_last {A} (f : A -> bool) l x :
  find f (l ++ [x]) = match find f l with
                      | Some y => Some y
                      | None => if f x then Some x else None
                      end.
Proof. induction l as [|y l IH]; cbn; [reflexivity|]. now destruct (f y). Qed.

Lemma snapshot_fold_lookup cfg fos ps acc o :
  alookup Z.eqb o (fold_left (fun snap p =>
                let mp := master_position_of_raw cfg fos p in
                aset Z.eqb (order_number mp) mp snap) ps acc) =
  match find (fun p => rp_order p =? o) (rev ps) with
  | Some p => Some (master_position_of_raw cfg fos p)
  | None => alookup Z.eqb o acc
  end.
Proof.
  revert acc. induction ps as [|p ps IH]; intro acc; [reflexivity|].
  cbn [fold_left rev]. rewrite IH, find_app_last, alookup_aset_Z.
  cbn [order_number master_position_of_raw]. rewrite Z.eqb_sym.
  destruct (find (fun p => rp_order p =? o) (rev ps)); [reflexivity|].
  now destruct (rp_order p =? o).
Qed.

Lemma snapshot_fold_wf cfg fos ps acc :
  snap_wf acc ->
  snap_wf (fold_left (fun snap p =>
             let mp := master_position_of_raw cfg fos p in
             aset Z.eqb (order_number mp) mp snap) ps acc).
Proof.
  revert acc. induction ps as [|p ps IH]; intros acc [Hnd Hk]; [now split|].
  cbn [fold_left]. apply IH. split.
  - now apply NoDup_keys_aset_Z.
  - intros k mp H. apply In_aset_Z in H as [H|H]; [|now apply Hk].
    now injection H as -> ->.
Qed.

(** X6. The master snapshot has one entry per order number, stored under it,
    and the entry of an order number is built from the last raw position of
    the payload with that number (a later duplicate replaces an earlier
    one); an order number absent from the payload has no entry. *)
Theorem build_master_snapshot_last_wins (cfg : Config) fos (d : Payload) :
  snap_wf (build_master_snapshot cfg fos d) /\
  forall o, alookup Z.eqb o (build_master_snapshot cfg fos d) =
    option_map (master_position_of_raw cfg fos)
      (find (fun p => rp_order p =? o) (rev (pl_open_positions d))).
Proof.
  split.
  - apply snapshot_fold_wf. split; [constructor|intros ? ? []].
  - intro o. unfold build_master_snapshot. rewrite snapshot_fold_lookup.
    now destruct (find _ _).
Qed.



Lemma qeq_refl' (a : Q) : qeq a a = true.
Proof. apply qeq_true. reflexivity. Qed.

(** The terminal calls of [mt5_symbol_prepare] send no order and leave
    [link_map] alone. *)
Lemma prepare_quiet {VS} (V : Venue VS) cfg sym s :
  st_links (snd (mt5_symbol_prepare V cfg sym s)) = st_links s /\
  exists d, st_trace (snd (mt5_symbol_prepare V cfg sym s)) = st_trace s ++ d /\
            sends_of d = [].
Proof.
  unfold mt5_symbol_prepare. destruct (dry_run cfg).
  - split; [reflexivity|]. exists []. now rewrite app_nil_r.
  - rewrite bind_eq. unfold mt5_symbol_info. cbn [fst snd].
    destruct (match v_symbol_info V (st_vs s) sym with
              | Some i => visible i | None => false end).
    + split; [reflexivity|]. now exists [CSymbolInfo sym].
    + rewrite !bind_eq. unfold mt5_symbol_select. cbn [fst snd log_call st_vs].
      destruct (v_symbol_select V (st_vs s) sym) as [b vs']. cbn.
      split; [reflexivity|]. exists [CSymbolInfo sym; CSymbolSelect sym].
      split; [now rewrite <- app_assoc|reflexivity].
Qed.

Lemma stop_kept_snap tol req old :
  stop_kept tol req old ->
  opt_qeq (match req, old with
           | Some a, Some b => if qlt (Qabs (a - b)) tol then old else req
           | _, _ => req
           end) old = true.
Proof.
  destruct req as [a|], old as [b|]; cbn [stop_kept opt_qeq]; intro H;
    try contradiction; try reflexivity.
  destruct H as [H|H].
  - apply qlt_true in H. rewrite H. apply qeq_refl'.
  - destruct (qlt (Qabs (a - b)) tol); cbn [opt_qeq]; [apply qeq_refl'|].
    now apply qeq_true.
Qed.

(** X8. When each requested stop is absent together with the recorded one,
    or present with it and equal or within [stop_change_abs_tolerance],
    [mt5_update_stops] sends no order, keeps the recorded stops, reports
    whether the symbol could be prepared, and leaves [link_map] alone. *)
Theorem update_stops_within_tolerance {VS} (V : Venue VS) (cfg : Config)
  link sl tp s :
  stop_kept (stop_change_abs_tolerance cfg) sl (link_sl link) ->
  stop_kept (stop_change_abs_tolerance cfg) tp (link_tp link) ->
  fst (mt5_update_stops V cfg link sl tp s) =
    (fst (mt5_symbol_prepare V cfg (follower_symbol link) s),
     (link_sl link, link_tp link)) /\
  st_links (snd (mt5_update_stops V cfg link sl tp s)) = st_links s /\
  exists d, st_trace (snd (mt5_update_stops V cfg link sl tp s)) = st_trace s ++ d /\
            sends_of d = [].
Proof.
  intros Hsl Htp. unfold mt5_update_stops. rewrite bind_eq.
  destruct (prepare_quiet V cfg (follower_symbol link) s) as [Hl [d [Hd Hs]]].
  destruct (fst (mt5_symbol_prepare V cfg (follower_symbol link) s)); cbn [negb].
  - cbv zeta. rewrite (stop_kept_snap _ _ _ Hsl), (stop_kept_snap _ _ _ Htp).
    cbn [andb ret fst snd]. split; [reflexivity|]. split; [exact Hl|].
    exists d. split; assumption.
  - cbn [ret fst snd]. split; [reflexivity|]. split; [exact Hl|].
    exists d. split; assumption.
Qed.

Lemma update_stops_within_tolerance_witness :
  let link := mkLink 7 "EURUSD" "EURUSD" 1000 1 0 (Some (11#10)) None in
  stop_kept (stop_change_abs_tolerance source_config) (Some (110000001#100000000))
    (link_sl link) /\
  stop_kept (stop_change_abs_tolerance source_config) None (link_tp link) /\
  fst (mt5_update_stops (venue_ok None None) source_config link
         (Some (110000001#100000000)) None (init_st [] [] None)) =
    (fst (mt5_symbol_prepare (venue_ok None None) source_config
            (follower_symbol link) (init_st [] [] None)),
     (link_sl link, link_tp link)) /\
  st_links (snd (mt5_update_stops (venue_ok None None) source_config link
                   (Some (110000001#100000000)) None (init_st [] [] None))) =
    st_links (init_st [] [] None) /\
  exists d, st_trace (snd (mt5_update_stops (venue_ok None None) source_config link
                   (Some (110000001#100000000)) None (init_st [] [] None))) =
              st_trace (init_st [] [] None) ++ d /\ sends_of d = [].
Proof.
  cbv zeta.
  assert (H1 : stop_kept (stop_change_abs_tolerance source_config)
                 (Some (110000001#100000000)) (Some (11#10))).
  { cbn [stop_kept]. left. reflexivity. }
  assert (H2 : stop_kept (stop_change_abs_tolerance source_config) None None) by exact I.
  split; [exact H1|]. split; [exact H2|].
  exact (update_stops_within_tolerance (venue_ok None None) source_config
           (mkLink 7 "EURUSD" "EURUSD" 1000 1 0 (Some (11#10)) None)
           (Some (110000001#100000000)) None (init_st [] [] None) H1 H2).
Defined.

(** X9. In live mode, when the terminal has no position for the link's
    ticket, [mt5_adjust_volume] fails: it reports [False], leaves the
    link's volume as it was, sends no order and leaves [link_map] alone. *)
Theorem adjust_volume_position_missing {VS} (V : Venue VS) (cfg : Config)
  link new_lots s :
  dry_run cfg = false ->
  (forall vs, v_positions_get V vs (follower_ticket link) = None) ->
  fst (mt5_adjust_volume V cfg link new_lots s) = (false, follower_volume link) /\
  st_links (snd (mt5_adjust_volume V cfg link new_lots s)) = st_links s /\
  exists d, st_trace (snd (mt5_adjust_volume V cfg link new_lots s)) = st_trace s ++ d /\
            sends_of d = [].
Proof.
  intros Hdry Hpos. unfold mt5_adjust_volume. cbv zeta. rewrite bind_eq.
  destruct (prepare_quiet V cfg (follower_symbol link) s) as [Hl [d [Hd Hs]]].
  set (s1 := snd (mt5_symbol_prepare V cfg (follower_symbol link) s)) in *.
  destruct (fst (mt5_symbol_prepare V cfg (follower_symbol link) s)); cbn [negb].
  - rewrite Hdry, bind_eq. unfold mt5_positions_get. cbn [fst snd].
    rewrite Hpos. cbn [ret fst snd log_call st_links st_trace].
    split; [reflexivity|]. split; [exact Hl|].
    exists (d ++ [CPositionsGet (follower_ticket link)]).
    split; [rewrite Hd, app_assoc; reflexivity|].
    rewrite sends_of_app, Hs. reflexivity.
  - cbn [ret fst snd]. split; [reflexivity|]. split; [exact Hl|].
    exists d. split; assumption.
Qed.

Lemma adjust_volume_position_missing_witness :
  let link := mkLink 7 "EURUSD" "EURUSD" 1000 1 0 None None in
  fst (mt5_adjust_volume (venue_ok None None) source_config link 2 (init_st [] [] None))
    = (false, follower_volume link) /\
  st_links (snd (mt5_adjust_volume (venue_ok None None) source_config link 2
                   (init_st [] [] None))) = st_links (init_st [] [] None) /\
  exists d, st_trace (snd (mt5_adjust_volume (venue_ok None None) source_config link 2
                   (init_st [] [] None))) = st_trace (init_st [] [] None) ++ d /\
            sends_of d = [].
Proof.
  cbv zeta.
  apply (adjust_volume_position_missing (venue_ok None None) source_config
           (mkLink 7 "EURUSD" "EURUSD" 1000 1 0 None None) 2 (init_st [] [] None));
    [reflexivity | intro vs; reflexivity].
Defined.

(** ** Dry runs *)

Lemma keeps_bind {VS A B C} (f : St VS -> C) (m : CM VS A) (k : A -> CM VS B) :
  keeps f m -> (forall a, keeps f (k a)) -> keeps f (bind m k).
Proof. intros Hm Hk s. rewrite bind_eq, Hk. apply Hm. Qed.

Lemma keeps_ret {VS A C} (f : St VS -> C) (a : A) : keeps f (ret a).
Proof. intro s. reflexivity. Qed.

Lemma keeps_for_each {VS A C} (f : St VS -> C) (g : A -> CM VS unit) l :
  (forall x, keeps f (g x)) -> keeps f (for_each g l).
Proof.
  intro H. induction l as [|x l IH]; cbn [for_each];
    [apply keeps_ret|apply keeps_bind; auto].
Qed.

Create HintDb keeps_db.

Ltac keeps_tac :=
  repeat first
    [ match goal with
      | |- keeps _ (bind _ _) => apply keeps_bind; [|intros ?; cbv beta zeta]
      | |- keeps _ (ret _) => apply keeps_ret
      | |- keeps _ (for_each _ _) => apply keeps_for_each; intros ?; cbv beta zeta
      | |- keeps _ (if ?b then _ else _) => destruct b eqn:?; try (exfalso; congruence)
      | |- keeps _ (match ?x with _ => _ end) => destruct x
      | |- keeps _ _ => solve [eauto with keeps_db]
      end ].

Section DryRun.
Context {VS : Type} (V : Venue VS) (cfg : Config) (fos : string -> option Q).
Hypothesis Hdry : dry_run cfg = true.

(** What the terminal sees: the calls made into it and its state. *)
Local Abbreviation tv := (fun s : St VS => (st_trace s, st_vs s)).

Lemma keeps_lookup_link k : keeps tv (lookup_link (VS:=VS) k).
Proof. intro s. reflexivity. Qed.
Lemma keeps_get_links : keeps tv (get_links (VS:=VS)).
Proof. intro s. reflexivity. Qed.
Lemma keeps_set_link k l : keeps tv (set_link (VS:=VS) k l).
Proof. intro s. reflexivity. Qed.
Lemma keeps_del_link k : keeps tv (del_link (VS:=VS) k).
Proof. intro s. reflexivity. Qed.
Lemma keeps_get_snap : keeps tv (get_snap (VS:=VS)).
Proof. intro s. reflexivity. Qed.
Lemma keeps_set_snap sn : keeps tv (set_snap (VS:=VS) sn).
Proof. intro s. reflexivity. Qed.
Lemma keeps_get_fill : keeps tv (get_fill (VS:=VS)).
Proof. intro s. reflexivity. Qed.
Lemma keeps_set_fill sym m : keeps tv (set_fill (VS:=VS) sym m).
Proof. intro s. reflexivity. Qed.
Lemma keeps_get_warned : keeps tv (get_warned (VS:=VS)).
Proof. intro s. reflexivity. Qed.
Lemma keeps_add_warned sym : keeps tv (add_warned (VS:=VS) sym).
Proof. intro s. reflexivity. Qed.
Lemma keeps_get_equity : keeps tv (get_equity (VS:=VS)).
Proof. intro s. reflexivity. Qed.
Lemma keeps_set_equity e : keeps tv (set_equity (VS:=VS) e).
Proof. intro s. reflexivity. Qed.
Lemma keeps_get_preview : keeps tv (get_preview (VS:=VS)).
Proof. intro s. reflexivity. Qed.
Lemma keeps_set_preview b : keeps tv (set_preview (VS:=VS) b).
Proof. intro s. reflexivity. Qed.

#[local] Hint Resolve keeps_lookup_link keeps_get_links keeps_set_link keeps_del_link
  keeps_get_snap keeps_set_snap keeps_get_fill keeps_set_fill keeps_get_warned
  keeps_add_warned keeps_get_equity keeps_set_equity keeps_get_preview
  keeps_set_preview : keeps_db.

Lemma keeps_map_symbol sym : keeps tv (map_symbol (VS:=VS) cfg sym).
Proof. unfold map_symbol. keeps_tac. Qed.
Lemma keeps_prepare sym : keeps tv (mt5_symbol_prepare V cfg sym).
Proof. unfold mt5_symbol_prepare. keeps_tac. Qed.
Lemma keeps_prices sym : keeps tv (mt5_current_prices V cfg sym).
Proof. unfold mt5_current_prices. keeps_tac. Qed.
Lemma keeps_equity_ratio : keeps tv (calc_equity_ratio V cfg).
Proof. unfold calc_equity_ratio. keeps_tac. Qed.
#[local] Hint Resolve keeps_map_symbol keeps_prepare keeps_prices keeps_equity_ratio
  : keeps_db.

Lemma keeps_convert ms amt fs : keeps tv (convert_master_amount_to_lots V cfg ms amt fs).
Proof. unfold convert_master_amount_to_lots. keeps_tac. Qed.
Lemma keeps_normalize sym lots : keeps tv (normalize_lot V cfg sym lots).
Proof. unfold normalize_lot. keeps_tac. Qed.
Lemma keeps_validate sym sd d sl tp e :
  keeps tv (validate_stops_for_mt5 V cfg sym sd d sl tp e).
Proof. unfold validate_stops_for_mt5. keeps_tac. Qed.
Lemma keeps_osf r sym : keeps tv (order_send_with_fallback V cfg r sym).
Proof. unfold order_send_with_fallback. keeps_tac. Qed.
#[local] Hint Resolve keeps_convert keeps_normalize keeps_validate keeps_osf : keeps_db.

Lemma keeps_open_trade mp lots sl tp : keeps tv (mt5_open_trade V cfg mp lots sl tp).
Proof. unfold mt5_open_trade. keeps_tac. Qed.
Lemma keeps_close_trade link : keeps tv (mt5_close_trade V cfg link).
Proof. unfold mt5_close_trade. keeps_tac. Qed.
Lemma keeps_adjust_volume link n : keeps tv (mt5_adjust_volume V cfg link n).
Proof. unfold mt5_adjust_volume. keeps_tac. Qed.
Lemma keeps_update_stops link sl tp : keeps tv (mt5_update_stops V cfg link sl tp).
Proof. unfold mt5_update_stops. keeps_tac. Qed.
#[local] Hint Resolve keeps_open_trade keeps_close_trade keeps_adjust_volume
  keeps_update_stops : keeps_db.

Lemma keeps_open_follower mp : keeps tv (open_follower_for_master V cfg mp).
Proof. unfold open_follower_for_master. keeps_tac. Qed.
Lemma keeps_close_follower k : keeps tv (close_follower_for_master V cfg k).
Proof. unfold close_follower_for_master. keeps_tac. Qed.
#[local] Hint Resolve keeps_open_follower keeps_close_follower : keeps_db.

Lemma keeps_adjust_follower mp : keeps tv (adjust_follower_for_master V cfg mp).
Proof. unfold adjust_follower_for_master. keeps_tac. Qed.
Lemma keeps_update_follower_stops mp : keeps tv (update_follower_stops_for_master V cfg mp).
Proof. unfold update_follower_stops_for_master. keeps_tac. Qed.
#[local] Hint Resolve keeps_adjust_follower keeps_update_follower_stops : keeps_db.

Lemma keeps_process_entry prev k mp : keeps tv (process_entry V cfg prev k mp).
Proof. unfold process_entry. keeps_tac. Qed.
#[local] Hint Resolve keeps_process_entry : keeps_db.

Lemma keeps_process_master_changes new : keeps tv (process_master_changes V cfg new).
Proof. unfold process_master_changes. keeps_tac. Qed.
Lemma keeps_update_master_equity d : keeps tv (update_master_equity (VS:=VS) fos d).
Proof. unfold update_master_equity. keeps_tac. Qed.
Lemma keeps_preview sn : keeps tv (print_preview_table V cfg sn).
Proof. unfold print_preview_table. keeps_tac. Qed.

Lemma keeps_poll_step data : keeps tv (poll_step V cfg fos data).
Proof.
  unfold poll_step. destruct data as [d|]; [|apply keeps_ret].
  apply keeps_bind; [apply keeps_update_master_equity|intros _]. cbv zeta.
  apply keeps_bind; [apply keeps_get_preview|intros b].
  apply keeps_bind; [|intros _; apply keeps_process_master_changes].
  destruct (show_preview_table cfg && negb b);
    [apply keeps_bind; [apply keeps_preview|intros _; apply keeps_set_preview]
    |apply keeps_ret].
Qed.

End DryRun.

(** X10. With [DRY_RUN] on, a poll iteration makes no call into the
    MetaTrader5 module: whatever the payload and the state, the trace of
    terminal calls and the terminal's state are left as they were. *)
Theorem dry_run_no_terminal_calls {VS} (V : Venue VS) (cfg : Config) fos data s :
  dry_run cfg = true ->
  st_trace (snd (poll_step V cfg fos data s)) = st_trace s /\
  st_vs (snd (poll_step V cfg fos data s)) = st_vs s.
Proof.
  intro Hdry. pose proof (keeps_poll_step V cfg fos Hdry data s) as H.
  cbv beta in H. injection H as H1 H2. now split.
Qed.

Lemma dry_run_no_terminal_calls_witness :
  let d := mkPayload (JNum 1000) [mkRaw 7 "EURUSD" (Some 0) (Some (100000#1)) None JNull JNull] in
  st_trace (snd (poll_step (venue_ok None None) dry_config no_float (Some d)
                   (init_st [] [] None))) = [] /\
  st_vs (snd (poll_step (venue_ok None None) dry_config no_float (Some d)
                (init_st [] [] None))) = 0%nat.
Proof.
  cbv zeta.
  apply (dry_run_no_terminal_calls (venue_ok None None) dry_config no_float
           (Some (mkPayload (JNum 1000)
                    [mkRaw 7 "EURUSD" (Some 0) (Some (100000#1)) None JNull JNull]))
           (init_st [] [] None)).
  reflexivity.
Defined.

(** ** Well-formed link maps across a poll iteration *)

Lemma frame_inv {VS A} o (m : CM VS A) s :
  frame o m -> links_inv s -> links_inv (snd (m s)).
Proof. intros H Hs. exact (proj1 (frame_obs o m s H Hs)). Qed.

Lemma for_each_inv {VS A} (f : A -> CM VS unit) l :
  (forall x, exists o, frame o (f x)) ->
  forall s, links_inv s -> links_inv (snd (for_each f l s)).
Proof.
  intro H. induction l as [|x l IH]; intros s Hs; cbn [for_each]; [exact Hs|].
  rewrite bind_eq. apply IH. destruct (H x) as [o Ho]. exact (frame_inv o _ s Ho Hs).
Qed.

Lemma process_master_changes_inv {VS} (V : Venue VS) cfg new s :
  links_inv s -> links_inv (snd (process_master_changes V cfg new s)).
Proof.
  intro Hs. rewrite process_master_changes_eq, links_inv_with_snap.
  apply for_each_inv.
  - intro k. exists (k + 1). apply frame_close_follower. lia.
  - apply for_each_inv; [|exact Hs]. intros [k mp]. exists (order_number mp + 1).
    apply frame_process_entry. lia.
Qed.

Section SnapKept.
#[local] Hint Extern 5 (keeps _ _) => (intro; reflexivity) : keeps_db.

Lemma snap_kept_map_symbol {VS} cfg sym : keeps st_snap (map_symbol (VS:=VS) cfg sym).
Proof. unfold map_symbol. keeps_tac. Qed.

Lemma snap_kept_convert {VS} (V : Venue VS) cfg ms amt fs :
  keeps st_snap (convert_master_amount_to_lots V cfg ms amt fs).
Proof. unfold convert_master_amount_to_lots, calc_equity_ratio. keeps_tac. Qed.

End SnapKept.

(** Everything a poll iteration does before [process_master_changes]. *)
Lemma poll_step_split {VS} (V : Venue VS) cfg fos d s :
  exists s1, snd (poll_step V cfg fos (Some d) s) =
               snd (process_master_changes V cfg (build_master_snapshot cfg fos d) s1) /\
             st_snap s1 = st_snap s /\
             forall o, links_inv s -> links_inv s1 /\ obs o s1 = obs o s.
Proof.
  unfold poll_step. rewrite !bind_eq. cbv zeta.
  eexists. split; [reflexivity|]. split.
  { assert (S1 : st_snap (snd (update_master_equity (VS:=VS) fos d s)) = st_snap s).
    { unfold update_master_equity.
      destruct (pl_equity d); try reflexivity; destruct (py_float _); reflexivity. }
    rewrite <- S1. cbn [get_preview fst snd].
    destruct (show_preview_table cfg && _); [|reflexivity].
    rewrite bind_eq. cbn [set_preview fst snd st_snap with_preview].
    unfold print_preview_table. destruct (build_master_snapshot cfg fos d); [reflexivity|].
    apply keeps_for_each. intros [k mp].
    apply keeps_bind; [apply snap_kept_map_symbol|intro fsym].
    apply keeps_bind; [apply snap_kept_convert|intros _; apply keeps_ret]. }
  intros o Hs.
  assert (F1 : frame o (update_master_equity (VS:=VS) fos d)).
  { apply frame_state_only. intro s0. unfold update_master_equity.
    destruct (pl_equity d); try (split; reflexivity);
      destruct (py_float _); split; reflexivity. }
  destruct (frame_obs o _ s F1 Hs) as [H1 E1].
  set (s1 := snd (update_master_equity fos d s)) in *.
  cbn [get_preview fst snd].
  destruct (show_preview_table cfg && negb (st_preview s1)).
  - rewrite bind_eq.
    assert (F2 : frame o (print_preview_table V cfg (build_master_snapshot cfg fos d))).
    { unfold print_preview_table. destruct (build_master_snapshot cfg fos d);
        [apply frame_ret|]. apply frame_for_each. intros [k mp] _.
      apply frame_bind; [apply frame_map_symbol|intro fsym].
      apply frame_bind; [apply frame_convert|intros _; apply frame_ret]. }
    destruct (frame_obs o _ s1 F2 H1) as [H2 E2].
    cbn [set_preview fst snd]. split; [exact H2|]. rewrite <- E1, <- E2. reflexivity.
  - cbn [ret fst snd]. split; [exact H1|exact E1].
Qed.

(** X11. A poll iteration keeps [link_map] well formed: if no master order
    has two links and every link is stored under its own master order
    number before it, the same holds after it, whatever the payload and
    whatever the terminal answers. *)
Theorem poll_step_keeps_links_wf {VS} (V : Venue VS) (cfg : Config) fos data s :
  links_inv s -> links_inv (snd (poll_step V cfg fos data s)).
Proof.
  intro Hs. destruct data as [d|]; [|exact Hs].
  destruct (poll_step_split V cfg fos d s) as [s1 [-> [_ H]]].
  apply process_master_changes_inv. exact (proj1 (H 0 Hs)).
Qed.

Lemma init_links_inv : links_inv (init_st [] [] None).
Proof. split; [constructor|intros ? ? []]. Qed.

(** A payload with one Buy position of 1.0 lot on EURUSD. *)
Lemma poll_step_keeps_links_wf_witness :
  links_inv (init_st [] [] None) /\
  links_inv (snd (poll_step (venue_ok (Some 1%Q) None) source_config no_float
    (Some (mkPayload (JNum 1000) [mkRaw 7 "EURUSD" (Some 0) (Some (100000#1)) None JNull JNull]))
    (init_st [] [] None))).
Proof.
  split; [apply init_links_inv|].
  apply (poll_step_keeps_links_wf (venue_ok (Some 1%Q) None) source_config no_float
    (Some (mkPayload (JNum 1000) [mkRaw 7 "EURUSD" (Some 0) (Some (100000#1)) None JNull JNull]))
    (init_st [] [] None)).
  apply init_links_inv.
Defined.

Lemma snapshot_not_In cfg fos d o :
  (forall p, In p (pl_open_positions d) -> rp_order p <> o) ->
  ~ In o (map fst (build_master_snapshot cfg fos d)).
Proof.
  intros H Hin. apply in_map_iff in Hin as [[k mp] [Hk Hin]]. cbn in Hk. subst k.
  pose proof Hin as Hin'.
  unfold build_master_snapshot in Hin.
  apply build_snapshot_entries in Hin as [[]|[p [Hp ->]]].
  assert (W : snap_wf (build_master_snapshot cfg fos d)).
  { apply snapshot_fold_wf. split; [constructor|intros ? ? []]. }
  destruct W as [_ Hw].
  apply (H p Hp). exact (Hw _ _ Hin').
Qed.

(** X13. A poll iteration leaves alone a master order number that is in
    neither the previous snapshot nor the fetched payload: its link, and
    the number of open and close orders sent for it, stay as they were. *)
Theorem poll_step_ignores_absent_order {VS} (V : Venue VS) (cfg : Config) fos d s o :
  links_inv s -> ~ In o (map fst (st_snap s)) ->
  (forall p, In p (pl_open_positions d) -> rp_order p <> o) ->
  obs o (snd (poll_step V cfg fos (Some d) s)) = obs o s.
Proof.
  intros Hs Hp Hd.
  destruct (poll_step_split V cfg fos d s) as [s1 [-> [Sn H]]].
  destruct (H o Hs) as [H1 E1]. rewrite <- E1.
  refine (proj1 (proj2 (tick_absent V cfg o _ s1 H1 _ _ (snapshot_not_In cfg fos d o Hd)))).
  - rewrite Sn. exact Hp.
  - apply snapshot_fold_wf. split; [constructor|intros ? ? []].
Qed.

Lemma poll_step_ignores_absent_order_witness :
  let d := mkPayload (JNum 1000) [mkRaw 7 "EURUSD" (Some 0) (Some (100000#1)) None JNull JNull] in
  links_inv (init_st [] [] None) /\ ~ In 8 (map fst (st_snap (init_st [] [] None))) /\
  (forall p, In p (pl_open_positions d) -> rp_order p <> 8) /\
  obs 8 (snd (poll_step (venue_ok (Some 1%Q) None) source_config no_float (Some d)
                (init_st [] [] None))) = obs 8 (init_st [] [] None).
Proof.
  cbv zeta.
  assert (H1 : ~ In 8 (map fst (st_snap (init_st [] [] None)))) by (intros []).
  assert (H2 : forall p, In p (pl_open_positions (mkPayload (JNum 1000)
     [mkRaw 7 "EURUSD" (Some 0) (Some (100000#1)) None JNull JNull])) -> rp_order p <> 8).
  { intros p [<-|[]]. cbn. lia. }
  split; [apply init_links_inv|]. split; [exact H1|]. split; [exact H2|].
  exact (poll_step_ignores_absent_order (venue_ok (Some 1%Q) None) source_config no_float
           _ (init_st [] [] None) 8 init_links_inv H1 H2).
Defined.

(** ** The orders each operation sends *)

Lemma so_bind {VS A B} P (m : CM VS A) (k : A -> CM VS B) :
  sends_only P m -> (forall a, sends_only P (k a)) -> sends_only P (bind m k).
Proof.
  intros Hm Hk s. rewrite bind_eq. destruct (Hm s) as [d1 [E1 H1]].
  destruct (Hk (fst (m s)) (snd (m s))) as [d2 [E2 H2]].
  exists (d1 ++ d2). split; [rewrite E2, E1, app_assoc; reflexivity|].
  intros r res Hin. apply in_app_or in Hin as [Hin|Hin]; eauto.
Qed.

Lemma so_ret {VS A} P (a : A) : sends_only (VS:=VS) P (ret a).
Proof. intro s. exists []. split; [now rewrite app_nil_r|intros ? ? []]. Qed.

Lemma so_for_each {VS A} P (f : A -> CM VS unit) l :
  (forall x, In x l -> sends_only P (f x)) -> sends_only P (for_each f l).
Proof.
  induction l as [|x l IH]; intro H; cbn [for_each]; [apply so_ret|].
  apply so_bind; [apply H; now left|]. intros _. apply IH. intros y Hy. apply H. now right.
Qed.

Lemma so_mono {VS A} (P P' : Request -> Prop) (m : CM VS A) :
  (forall r, P r -> P' r) -> sends_only P m -> sends_only P' m.
Proof.
  intros HP H s. destruct (H s) as [d [E Hd]]. exists d. split; [exact E|eauto].
Qed.

(** A step that changes the state but not the trace. *)
Lemma so_state {VS A} P (m : CM VS A) :
  (forall s, st_trace (snd (m s)) = st_trace s) -> sends_only P m.
Proof.
  intros H s. exists []. split; [rewrite app_nil_r; apply H|intros ? ? []].
Qed.

(** A call into the terminal other than [order_send]. *)
Lemma so_call {VS A} P (m : CM VS A) c :
  (forall r res, c <> COrderSend r res) ->
  (forall s, st_trace (snd (m s)) = st_trace s ++ [c]) -> sends_only P m.
Proof.
  intros Hc H s. exists [c]. split; [apply H|]. intros r res [E|[]]. now destruct (Hc r res).
Qed.

Create HintDb so_db.

Ltac so_tac :=
  repeat first
    [ match goal with
      | |- sends_only _ (bind _ _) => apply so_bind; [|intros ?; cbv beta zeta]
      | |- sends_only _ (ret _) => apply so_ret
      | |- sends_only _ (if ?b then _ else _) => destruct b
      | |- sends_only _ (match ?x with _ => _ end) => destruct x
      | |- sends_only _ _ => solve [eauto with so_db]
      end ].

#[export] Hint Extern 1 (sends_only _ (mt5_symbol_info _ _)) =>
  (eapply so_call; [|intro; reflexivity]; intros ? ?; discriminate) : so_db.
#[export] Hint Extern 1 (sends_only _ (mt5_symbol_info_tick _ _)) =>
  (eapply so_call; [|intro; reflexivity]; intros ? ?; discriminate) : so_db.
#[export] Hint Extern 1 (sends_only _ (mt5_positions_get _ _)) =>
  (eapply so_call; [|intro; reflexivity]; intros ? ?; discriminate) : so_db.
#[export] Hint Extern 1 (sends_only _ (mt5_account_equity _)) =>
  (eapply so_call; [|intro; reflexivity]; intros ? ?; discriminate) : so_db.
#[export] Hint Extern 1 (sends_only _ (mt5_symbol_select _ _)) =>
  (eapply so_call with (c := CSymbolSelect _); [discriminate|];
   intro; unfold mt5_symbol_select; destruct (v_symbol_select _ _ _); reflexivity) : so_db.
#[export] Hint Extern 2 (sends_only _ _) => (apply so_state; intro; reflexivity) : so_db.

Section Sends.
Context {VS : Type} (V : Venue VS) (cfg : Config).

Lemma so_order_send (P : Request -> Prop) r : P r -> sends_only P (mt5_order_send V r).
Proof.
  intros HP s. rewrite mt5_order_send_eq. cbn [snd log_call st_trace with_vs].
  eexists. split; [reflexivity|]. intros r' res [E|[]]. now injection E as <-.
Qed.

(** The steps that send no order at all. *)
Lemma so_map_symbol P sym : sends_only (VS:=VS) P (map_symbol cfg sym).
Proof. unfold map_symbol. so_tac. Qed.
Lemma so_prepare P sym : sends_only P (mt5_symbol_prepare V cfg sym).
Proof. unfold mt5_symbol_prepare. so_tac. Qed.
Lemma so_prices P sym : sends_only P (mt5_current_prices V cfg sym).
Proof. unfold mt5_current_prices. so_tac. Qed.
Lemma so_convert P ms amt fs : sends_only P (convert_master_amount_to_lots V cfg ms amt fs).
Proof. unfold convert_master_amount_to_lots, calc_equity_ratio. so_tac. Qed.
Lemma so_normalize P sym lots : sends_only P (normalize_lot V cfg sym lots).
Proof. unfold normalize_lot. so_tac. Qed.
Lemma so_validate P sym sd d sl tp e : sends_only P (validate_stops_for_mt5 V cfg sym sd d sl tp e).
Proof. unfold validate_stops_for_mt5. so_tac. Qed.
Lemma so_pick P sym : sends_only P (pick_filling_mode V cfg sym).
Proof. unfold pick_filling_mode. so_tac. Qed.

(** [_order_send_with_fallback] sends [request] with only its filling mode
    changed. *)
Lemma so_osf (P : Request -> Prop) r sym :
  (forall m, P (set_filling r m)) -> sends_only P (order_send_with_fallback V cfg r sym).
Proof.
  intro HP. unfold order_send_with_fallback. destruct (dry_run cfg); [apply so_ret|].
  apply so_bind; [apply so_pick|intro m0].
  generalize (tl (fill_sequence m0)). intro l. revert m0.
  induction l as [|m' rest IH]; intro mode; cbn [try_modes];
    (apply so_bind; [apply so_order_send, HP|intro res]); so_tac.
Qed.

End Sends.

#[export] Hint Extern 1 (sends_only _ (map_symbol _ _)) => apply so_map_symbol : so_db.
#[export] Hint Extern 1 (sends_only _ (mt5_symbol_prepare _ _ _)) => apply so_prepare : so_db.
#[export] Hint Extern 1 (sends_only _ (mt5_current_prices _ _ _)) => apply so_prices : so_db.
#[export] Hint Extern 1 (sends_only _ (convert_master_amount_to_lots _ _ _ _ _)) =>
  apply so_convert : so_db.
#[export] Hint Extern 1 (sends_only _ (normalize_lot _ _ _ _)) => apply so_normalize : so_db.
#[export] Hint Extern 1 (sends_only _ (validate_stops_for_mt5 _ _ _ _ _ _ _ _)) =>
  apply so_validate : so_db.
#[export] Hint Extern 1 (sends_only _ (order_send_with_fallback _ _ _ _)) =>
  (apply so_osf; intro; cbn; tauto) : so_db.

Section Shapes.
Context {VS : Type} (V : Venue VS) (cfg : Config).

Lemma close_trade_sends link :
  sends_only (fun r => req_action r = TRADE_ACTION_DEAL /\
                       req_symbol r = follower_symbol link /\
                       req_type r = Some (side_to_reverse_order_type cfg (link_side link)) /\
                       req_position r = Some (follower_ticket link) /\
                       req_comment r = CloseCopy (master_order_number link))
    (mt5_close_trade V cfg link).
Proof. unfold mt5_close_trade. so_tac. Qed.

Lemma open_trade_sends mp lots sl tp :
  sends_only (fun r => req_action r = TRADE_ACTION_DEAL /\
                       req_type r = Some (side_to_mt5_order_type cfg (side mp)) /\
                       req_position r = None /\
                       req_comment r = CopyOpen (order_number mp))
    (mt5_open_trade V cfg mp lots sl tp).
Proof. unfold mt5_open_trade. so_tac. Qed.

Lemma update_stops_sends link sl tp :
  sends_only (fun r => req_action r = TRADE_ACTION_SLTP /\
                       req_symbol r = follower_symbol link /\
                       req_position r = Some (follower_ticket link) /\
                       req_comment r = StopsSync (master_order_number link))
    (mt5_update_stops V cfg link sl tp).
Proof. unfold mt5_update_stops. so_tac. Qed.

Lemma adjust_volume_sends link n :
  sends_only (fun r => req_action r = TRADE_ACTION_DEAL /\
                       req_symbol r = follower_symbol link /\
      ((req_comment r = VolumeAdd (master_order_number link) /\
        req_type r = Some (side_to_mt5_order_type cfg (link_side link)) /\
        req_position r = None) \/
       (req_comment r = VolumeReduce (master_order_number link) /\
        req_type r = Some (side_to_reverse_order_type cfg (link_side link)) /\
        req_position r = Some (follower_ticket link)) \/
       (req_comment r = CloseCopy (master_order_number link) /\
        req_type r = Some (side_to_reverse_order_type cfg (link_side link)) /\
        req_position r = Some (follower_ticket link))))
    (mt5_adjust_volume V cfg link n).
Proof.
  unfold mt5_adjust_volume. so_tac.
  - eapply so_mono; [|apply close_trade_sends]. cbv beta. tauto.
  - apply so_osf. intro m. destruct (qlt 0 _); cbn; tauto.
Qed.

End Shapes.

Section OpensWithin.
Context {VS : Type} (V : Venue VS) (cfg : Config) (K : list Z).

Lemma ow_open_trade mp lots sl tp :
  In (order_number mp) K -> sends_only (opens_within K) (mt5_open_trade V cfg mp lots sl tp).
Proof.
  intro Hin. eapply so_mono; [|apply open_trade_sends].
  intros r [_ [_ [_ E]]]. unfold opens_within. now rewrite E.
Qed.

Lemma ow_close_trade link : sends_only (opens_within K) (mt5_close_trade V cfg link).
Proof.
  eapply so_mono; [|apply close_trade_sends].
  intros r (_ & _ & _ & _ & E). unfold opens_within. now rewrite E.
Qed.

Lemma ow_adjust_volume link n : sends_only (opens_within K) (mt5_adjust_volume V cfg link n).
Proof.
  eapply so_mono; [|apply adjust_volume_sends].
  intros r (_ & _ & [[E _]|[[E _]|[E _]]]); unfold opens_within; now rewrite E.
Qed.

Lemma ow_update_stops link sl tp : sends_only (opens_within K) (mt5_update_stops V cfg link sl tp).
Proof.
  eapply so_mono; [|apply update_stops_sends].
  intros r (_ & _ & _ & E). unfold opens_within. now rewrite E.
Qed.

#[local] Hint Extern 1 (sends_only _ (mt5_open_trade _ _ _ _ _ _)) =>
  (apply ow_open_trade; assumption) : so_db.
#[local] Hint Resolve ow_close_trade ow_adjust_volume ow_update_stops : so_db.

Lemma ow_open_follower mp :
  In (order_number mp) K -> sends_only (opens_within K) (open_follower_for_master V cfg mp).
Proof. intro Hin. unfold open_follower_for_master. so_tac. Qed.

Lemma ow_close_follower k : sends_only (opens_within K) (close_follower_for_master V cfg k).
Proof. unfold close_follower_for_master. so_tac. Qed.

#[local] Hint Extern 1 (sends_only _ (open_follower_for_master _ _ _)) =>
  (apply ow_open_follower; assumption) : so_db.

Lemma ow_adjust_follower mp :
  In (order_number mp) K -> sends_only (opens_within K) (adjust_follower_for_master V cfg mp).
Proof. intro Hin. unfold adjust_follower_for_master. so_tac. Qed.

Lemma ow_update_follower_stops mp :
  sends_only (opens_within K) (update_follower_stops_for_master V cfg mp).
Proof. unfold update_follower_stops_for_master. so_tac. Qed.

#[local] Hint Extern 1 (sends_only _ (adjust_follower_for_master _ _ _)) =>
  (apply ow_adjust_follower; assumption) : so_db.
#[local] Hint Resolve ow_update_follower_stops : so_db.

Lemma ow_process_entry prev k mp :
  In (order_number mp) K -> sends_only (opens_within K) (process_entry V cfg prev k mp).
Proof. intro Hin. unfold process_entry. so_tac. Qed.

End OpensWithin.

(** X12. One pass of [process_master_changes] over a snapshot as
    [build_master_snapshot] makes it sends open orders ([CopyOpen n]) only
    for master order numbers [n] of that snapshot: an order that has left
    the snapshot is never opened again, whatever the terminal answers. *)
Theorem process_changes_opens_only_listed {VS} (V : Venue VS) (cfg : Config) new :
  snap_wf new ->
  sends_only (opens_within (map fst new)) (process_master_changes V cfg new).
Proof.
  intros [_ Hwf]. unfold process_master_changes.
  apply so_bind; [apply so_state; intro; reflexivity|intro prev].
  apply so_bind.
  { apply so_for_each. intros [k mp] Hin. apply ow_process_entry.
    rewrite (Hwf k mp Hin). apply in_map_iff. now exists (k, mp). }
  intros _. apply so_bind; [|intros _; apply so_state; intro; reflexivity].
  apply so_for_each. intros k _. apply ow_close_follower.
Qed.

Lemma process_changes_opens_only_listed_witness :
  snap_wf [(7, buy_one 7)] /\
  sends_only (VS:=nat) (opens_within [7])
    (process_master_changes (venue_ok (Some 1%Q) None) source_config [(7, buy_one 7)]).
Proof.
  assert (H : snap_wf [(7, buy_one 7)]).
  { split; [repeat constructor; intros []|intros k mp [E|[]]; now injection E as <- <-]. }
  split; [exact H|].
  exact (process_changes_opens_only_listed (venue_ok (Some 1%Q) None) source_config _ H).
Defined.

Lemma attempts_ok_length ms : forall atts,
  attempts_ok ms atts = true -> (List.length atts <= List.length ms)%nat.
Proof.
  induction ms as [|m ms IH]; intros atts H; [destruct atts; discriminate|].
  destruct atts as [|[f rc] atts]; [discriminate|].
  destruct atts as [|a atts'].
  - cbn. lia.
  - change (attempts_ok (m :: ms) ((f, rc) :: a :: atts')) with
      (opt_zeq f m && (rc =? RETCODE_INVALID_FILL) && attempts_ok ms (a :: atts')) in H.
    apply andb_true_iff in H as [_ H]. apply IH in H. cbn in *. lia.
Qed.

Lemma slookup_In {A} k (l : list (string * A)) v : slookup k l = Some v -> In (k, v) l.
Proof.
  unfold slookup. induction l as [|[k' v'] l IH]; cbn; [discriminate|].
  destruct (String.eqb_spec k k') as [->|_]; [intro E; injection E as ->; now left|].
  intro H. right. now apply IH.
Qed.

Lemma start_mode_In {VS} (V : Venue VS) s sym :
  fill_cache_ok (st_fill s) -> In (start_mode V s sym) default_seq.
Proof.
  intro Hc. unfold start_mode. destruct (slookup sym (st_fill s)) as [m|] eqn:E.
  - exact (Hc _ _ (slookup_In _ _ _ E)).
  - destruct (reported_filling _) as [r|] eqn:Er; [exact (reported_filling_In _ _ Er)|].
    now left.
Qed.

Lemma fill_order_length m0 : In m0 default_seq -> List.length (fill_order m0) = 3%nat.
Proof.
  unfold fill_order, default_seq, ORDER_FILLING_FOK, ORDER_FILLING_IOC,
    ORDER_FILLING_RETURN.
  intros [<-|[<-|[<-|[]]]]; reflexivity.
Qed.

(** X4. In live mode, every order [_order_send_with_fallback] sends is the
    given request with only its [type_filling] changed, and it sends at most
    three orders, when the filling-mode cache holds only FOK, IOC or
    RETURN. *)
Theorem order_send_fallback_requests {VS} (V : Venue VS) (cfg : Config) r sym s :
  dry_run cfg = false -> fill_cache_ok (st_fill s) ->
  exists d, st_trace (snd (order_send_with_fallback V cfg r sym s)) = st_trace s ++ d /\
    (forall r' res, In (COrderSend r' res) d -> exists m, r' = set_filling r m) /\
    (List.length (sends_of d) <= 3)%nat.
Proof.
  intros Hdry Hc.
  destruct (so_osf V cfg (fun r' => exists m, r' = set_filling r m) r sym
              (fun m => ex_intro _ m eq_refl) s) as [d [Ed Hd]].
  destruct (order_send_with_fallback_spec V cfg r sym s Hdry) as [d' [Ed' [Ha _]]].
  rewrite Ed in Ed'. apply app_inv_head in Ed'. subst d'.
  exists d. split; [exact Ed|]. split; [exact Hd|].
  apply attempts_ok_length in Ha. now rewrite fill_order_length in Ha by
    (apply start_mode_In; exact Hc).
Qed.

Lemma order_send_fallback_requests_witness :
  let r := mkReq TRADE_ACTION_DEAL "EURUSD" (Some 1%Q) (Some 0) (Some 1%Q) None None None
             (CopyOpen 7) (Some 0) in
  dry_run source_config = false /\ fill_cache_ok (st_fill (init_st [] [] None)) /\
  exists d, st_trace (snd (order_send_with_fallback (venue_ok None None) source_config r
                             "EURUSD" (init_st [] [] None))) =
            st_trace (init_st [] [] None) ++ d /\
    (forall r' res, In (COrderSend r' res) d -> exists m, r' = set_filling r m) /\
    (List.length (sends_of d) <= 3)%nat.
Proof.
  cbv zeta.
  assert (H : fill_cache_ok (st_fill (init_st [] [] None))) by (intros ? ? []).
  split; [reflexivity|]. split; [exact H|].
  exact (order_send_fallback_requests (venue_ok None None) source_config
    (mkReq TRADE_ACTION_DEAL "EURUSD" (Some 1%Q) (Some 0) (Some 1%Q) None None None
       (CopyOpen 7) (Some 0)) "EURUSD" (init_st [] [] None) eq_refl H).
Defined.

(** ** The filling-mode cache *)

Lemma pres_bind {VS A B} I (m : CM VS A) (k : A -> CM VS B) :
  preserves I m -> (forall a, preserves I (k a)) -> preserves I (bind m k).
Proof. intros Hm Hk s Hs. rewrite bind_eq. apply Hk, Hm, Hs. Qed.

Lemma pres_ret {VS A} I (a : A) : preserves (VS:=VS) I (ret a).
Proof. intros s Hs. exact Hs. Qed.

Lemma pres_for_each {VS A} I (f : A -> CM VS unit) l :
  (forall x, preserves I (f x)) -> preserves I (for_each f l).
Proof.
  intro H. induction l as [|x l IH]; cbn [for_each]; [apply pres_ret|].
  apply pres_bind; auto.
Qed.

Lemma pres_fill {VS A} (m : CM VS A) :
  keeps st_fill m -> preserves (fun s => fill_cache_ok (st_fill s)) m.
Proof. intros H s Hs. cbv beta. now rewrite H. Qed.

Lemma fill_cache_ok_aset c sym m :
  fill_cache_ok c -> In m default_seq -> fill_cache_ok (aset String.eqb sym m c).
Proof.
  intros Hc Hm. induction c as [|[k v] c IH]; cbn.
  - intros k' m' [E|[]]. now injection E as <- <-.
  - destruct (String.eqb sym k).
    + intros k' m' [E|H]; [now injection E as <- <-|].
      apply (Hc k'). now right.
    + intros k' m' [E|H]; [injection E as <- <-; apply (Hc k); now left|].
      refine (IH _ k' m' H). intros k0 m0 H0. apply (Hc k0). now right.
Qed.

Section FillCache.
Context {VS : Type} (V : Venue VS) (cfg : Config).

Local Abbreviation fok := (fun s : St VS => fill_cache_ok (st_fill s)).

Lemma pick_fill_ok sym s :
  fill_cache_ok (st_fill s) ->
  fill_cache_ok (st_fill (snd (pick_filling_mode V cfg sym s))) /\
  In (fst (pick_filling_mode V cfg sym s)) default_seq.
Proof.
  intro Hc. unfold pick_filling_mode. rewrite bind_eq. cbn [get_fill fst snd].
  destruct (slookup sym (st_fill s)) as [m|] eqn:E.
  - split; [exact Hc|]. exact (Hc _ _ (slookup_In _ _ _ E)).
  - rewrite bind_eq.
    assert (Ki : st_fill (snd ((if dry_run cfg then ret None else mt5_symbol_info V sym) s))
                 = st_fill s) by (destruct (dry_run cfg); reflexivity).
    destruct (reported_filling _) as [r|] eqn:Er; rewrite bind_eq;
      cbn [set_fill ret fst snd st_fill with_fill]; rewrite Ki.
    + pose proof (reported_filling_In _ _ Er).
      split; [now apply fill_cache_ok_aset|assumption].
    + split; [apply fill_cache_ok_aset; [exact Hc|now left]|now left].
Qed.

Lemma try_modes_fill_ok r sym rest : forall mode,
  In mode default_seq -> (forall x, In x rest -> In x default_seq) ->
  preserves fok (try_modes V r sym mode rest).
Proof.
  induction rest as [|m' rest IH]; intros mode Hm Hr; cbn [try_modes];
    (apply pres_bind; [apply pres_fill; intro s; rewrite mt5_order_send_eq; reflexivity|
                       intro res]).
  - destruct (retcode res =? RETCODE_INVALID_FILL); [apply pres_ret|].
    apply pres_bind; [|intros _; apply pres_ret].
    destruct (is_done_placed_partial (retcode res)); [|apply pres_ret].
    intros s Hs. now apply fill_cache_ok_aset.
  - destruct (retcode res =? RETCODE_INVALID_FILL).
    + apply IH; [apply Hr; now left|intros x Hx; apply Hr; now right].
    + apply pres_bind; [|intros _; apply pres_ret].
      destruct (is_done_placed_partial (retcode res)); [|apply pres_ret].
      intros s Hs. now apply fill_cache_ok_aset.
Qed.

Lemma osf_fill_ok r sym : preserves fok (order_send_with_fallback V cfg r sym).
Proof.
  unfold order_send_with_fallback. destruct (dry_run cfg); [apply pres_ret|].
  intros s Hs. rewrite bind_eq.
  destruct (pick_fill_ok sym s Hs) as [H1 Hm].
  apply try_modes_fill_ok; [exact Hm| |exact H1].
  intros x Hx. rewrite fill_sequence_order in Hx. cbn [fill_order tl] in Hx.
  apply filter_In in Hx. exact (proj1 Hx).
Qed.

End FillCache.

Create HintDb pres_db.

Ltac pres_tac :=
  repeat first
    [ match goal with
      | |- preserves _ (bind _ _) => apply pres_bind; [|intros ?; cbv beta zeta]
      | |- preserves _ (ret _) => apply pres_ret
      | |- preserves _ (for_each _ _) => apply pres_for_each; intros ?; cbv beta zeta
      | |- preserves _ (if ?b then _ else _) => destruct b
      | |- preserves _ (match ?x with _ => _ end) => destruct x
      | |- preserves _ _ => solve [eauto with pres_db]
      end ].

Section FillCachePoll.
Context {VS : Type} (V : Venue VS) (cfg : Config) (fos : string -> option Q).

Local Abbreviation fok := (fun s : St VS => fill_cache_ok (st_fill s)).

#[local] Hint Extern 5 (preserves _ _) => (apply pres_fill; intro; reflexivity) : pres_db.
#[local] Hint Extern 4 (preserves _ (mt5_symbol_select _ _)) =>
  (apply pres_fill; intro; unfold mt5_symbol_select;
   destruct (v_symbol_select _ _ _); reflexivity) : pres_db.
#[local] Hint Resolve osf_fill_ok : pres_db.

Lemma fill_ok_map_symbol sym : preserves fok (map_symbol (VS:=VS) cfg sym).
Proof. unfold map_symbol. pres_tac. Qed.
Lemma fill_ok_prepare sym : preserves fok (mt5_symbol_prepare V cfg sym).
Proof. unfold mt5_symbol_prepare. pres_tac. Qed.
Lemma fill_ok_prices sym : preserves fok (mt5_current_prices V cfg sym).
Proof. unfold mt5_current_prices. pres_tac. Qed.
Lemma fill_ok_convert ms amt fs : preserves fok (convert_master_amount_to_lots V cfg ms amt fs).
Proof. unfold convert_master_amount_to_lots, calc_equity_ratio. pres_tac. Qed.
Lemma fill_ok_normalize sym lots : preserves fok (normalize_lot V cfg sym lots).
Proof. unfold normalize_lot. pres_tac. Qed.
Lemma fill_ok_validate sym sd d sl tp e : preserves fok (validate_stops_for_mt5 V cfg sym sd d sl tp e).
Proof. unfold validate_stops_for_mt5. pres_tac. Qed.
#[local] Hint Resolve fill_ok_map_symbol fill_ok_prepare fill_ok_prices fill_ok_convert
  fill_ok_normalize fill_ok_validate : pres_db.

Lemma fill_ok_open_trade mp lots sl tp : preserves fok (mt5_open_trade V cfg mp lots sl tp).
Proof. unfold mt5_open_trade. pres_tac. Qed.
Lemma fill_ok_close_trade link : preserves fok (mt5_close_trade V cfg link).
Proof. unfold mt5_close_trade. pres_tac. Qed.
#[local] Hint Resolve fill_ok_open_trade fill_ok_close_trade : pres_db.
Lemma fill_ok_adjust_volume link n : preserves fok (mt5_adjust_volume V cfg link n).
Proof. unfold mt5_adjust_volume. pres_tac. Qed.
Lemma fill_ok_update_stops link sl tp : preserves fok (mt5_update_stops V cfg link sl tp).
Proof. unfold mt5_update_stops. pres_tac. Qed.
#[local] Hint Resolve fill_ok_adjust_volume fill_ok_update_stops : pres_db.

Lemma fill_ok_open_follower mp : preserves fok (open_follower_for_master V cfg mp).
Proof. unfold open_follower_for_master. pres_tac. Qed.
Lemma fill_ok_close_follower k : preserves fok (close_follower_for_master V cfg k).
Proof. unfold close_follower_for_master. pres_tac. Qed.
#[local] Hint Resolve fill_ok_open_follower fill_ok_close_follower : pres_db.
Lemma fill_ok_adjust_follower mp : preserves fok (adjust_follower_for_master V cfg mp).
Proof. unfold adjust_follower_for_master. pres_tac. Qed.
Lemma fill_ok_update_follower_stops mp : preserves fok (update_follower_stops_for_master V cfg mp).
Proof. unfold update_follower_stops_for_master. pres_tac. Qed.
#[local] Hint Resolve fill_ok_adjust_follower fill_ok_update_follower_stops : pres_db.
Lemma fill_ok_process_entry prev k mp : preserves fok (process_entry V cfg prev k mp).
Proof. unfold process_entry. pres_tac. Qed.
#[local] Hint Resolve fill_ok_process_entry : pres_db.

Lemma fill_ok_poll_step data : preserves fok (poll_step V cfg fos data).
Proof.
  unfold poll_step, update_master_equity, print_preview_table, process_master_changes.
  pres_tac.
Qed.

End FillCachePoll.

(** X18. The filling-mode cache only ever holds FOK, IOC or RETURN: a poll
    iteration started with such a cache leaves such a cache, whatever the
    payload and whatever the terminal reports or answers. *)
Theorem poll_step_fill_cache_valid {VS} (V : Venue VS) (cfg : Config) fos data s :
  fill_cache_ok (st_fill s) -> fill_cache_ok (st_fill (snd (poll_step V cfg fos data s))).
Proof. exact (fill_ok_poll_step V cfg fos data s). Qed.

Lemma poll_step_fill_cache_valid_witness :
  fill_cache_ok (st_fill (init_st [] [] None)) /\
  fill_cache_ok (st_fill (snd (poll_step (venue_ok (Some 1%Q) None) source_config no_float
    (Some (mkPayload (JNum 1000) [mkRaw 7 "EURUSD" (Some 0) (Some (100000#1)) None JNull JNull]))
    (init_st [] [] None)))).
Proof.
  assert (H : fill_cache_ok (st_fill (init_st [] [] None))) by (intros ? ? []).
  split; [exact H|].
  exact (poll_step_fill_cache_valid (venue_ok (Some 1%Q) None) source_config no_float
    (Some (mkPayload (JNum 1000) [mkRaw 7 "EURUSD" (Some 0) (Some (100000#1)) None JNull JNull]))
    (init_st [] [] None) H).
Defined.

(** X14. Every order [mt5_close_trade] sends is a market deal on the link's
    follower symbol, on the opposite side of the link, against the link's
    ticket, with the comment [CloseCopy] of the link's master order. *)
Theorem close_trade_order_shape {VS} (V : Venue VS) (cfg : Config) link :
  sends_only (fun r => req_action r = TRADE_ACTION_DEAL /\
                       req_symbol r = follower_symbol link /\
                       req_type r = Some (side_to_reverse_order_type cfg (link_side link)) /\
                       req_position r = Some (follower_ticket link) /\
                       req_comment r = CloseCopy (master_order_number link))
    (mt5_close_trade V cfg link).
Proof. exact (close_trade_sends V cfg link). Qed.

(** X15. Every order [mt5_open_trade] sends is a market deal in the
    direction of the master position, on no existing ticket, with the
    comment [CopyOpen] of the master order number. *)
Theorem open_trade_order_shape {VS} (V : Venue VS) (cfg : Config) mp lots sl tp :
  sends_only (fun r => req_action r = TRADE_ACTION_DEAL /\
                       req_type r = Some (side_to_mt5_order_type cfg (side mp)) /\
                       req_position r = None /\
                       req_comment r = CopyOpen (order_number mp))
    (mt5_open_trade V cfg mp lots sl tp).
Proof. exact (open_trade_sends V cfg mp lots sl tp). Qed.

(** X16. Every order [mt5_adjust_volume] sends is a market deal on the
    link's follower symbol and is one of: an increase ([VolumeAdd]) in the
    link's direction on no ticket, a reduction ([VolumeReduce]) on the
    opposite side against the link's ticket, or a full close ([CloseCopy])
    on the opposite side against the link's ticket. *)
Theorem adjust_volume_order_shape {VS} (V : Venue VS) (cfg : Config) link n :
  sends_only (fun r => req_action r = TRADE_ACTION_DEAL /\
                       req_symbol r = follower_symbol link /\
      ((req_comment r = VolumeAdd (master_order_number link) /\
        req_type r = Some (side_to_mt5_order_type cfg (link_side link)) /\
        req_position r = None) \/
       (req_comment r = VolumeReduce (master_order_number link) /\
        req_type r = Some (side_to_reverse_order_type cfg (link_side link)) /\
        req_position r = Some (follower_ticket link)) \/
       (req_comment r = CloseCopy (master_order_number link) /\
        req_type r = Some (side_to_reverse_order_type cfg (link_side link)) /\
        req_position r = Some (follower_ticket link))))
    (mt5_adjust_volume V cfg link n).
Proof. exact (adjust_volume_sends V cfg link n). Qed.

(** X17. Every order [mt5_update_stops] sends is a stop-level modification
    ([TRADE_ACTION_SLTP]) of the link's ticket on its follower symbol, with
    the comment [StopsSync] of the link's master order: it never opens,
    resizes or closes a position. *)
Theorem update_stops_order_shape {VS} (V : Venue VS) (cfg : Config) link sl tp :
  sends_only (fun r => req_action r = TRADE_ACTION_SLTP /\
                       req_symbol r = follower_symbol link /\
                       req_position r = Some (follower_ticket link) /\
                       req_comment r = StopsSync (master_order_number link))
    (mt5_update_stops V cfg link sl tp).
Proof. exact (update_stops_sends V cfg link sl tp). Qed.

